(** * Click payment callbacks (shavclick): the controller and its claims

    A shallow embedding of [src/controllers/click.controller.js] and of
    [src/services/click.service.js]: the PREPARE and COMPLETE webhook
    handlers, status synchronization and reversal, over a small model of the
    JavaScript values the handlers coerce and compare. *)

From Stdlib Require Import ZArith List String Ascii Bool Lia.
From Stdlib Require Import DecimalString.
Import ListNotations.

Local Open Scope string_scope.
Local Open Scope Z_scope.

(** ** JavaScript values

    Request bodies are loosely typed: a field is absent ([undefined]), [null],
    a boolean, a number or a string (form-encoded bodies only carry strings,
    JSON bodies carry any scalar). *)

Module Js.

(** A Number: NaN, an infinity, or the finite double [m * 2^e]. [Number]
    returns the form with [m] odd (zero is [Fin 0 0]) and comparisons go by
    value, so a literal may be written [Fin z 0]. The sign of zero is not
    kept: no operation of the controller tells the two zeros apart. *)
Inductive Num : Type :=
| NaN
| Inf (negative : bool)
| Fin (m e : Z).

(** The scalars a request field, a configuration value or a column may be.
    A JSON body may also nest objects and arrays, on which [Number] and
    [String] call user-visible conversions that can throw: those are outside
    this model, and so is a request without a body object. *)
Inductive Val : Type :=
| VUndef
| VNull
| VBool (b : bool)
| VNum (n : Num)
| VStr (s : string).

(** Strips the factors of two of a mantissa. *)
Fixpoint strip2 (fuel : nat) (m e : Z) : Z * Z :=
  match fuel with
  | O => (m, e)
  | S f => if (m =? 0) then (0, 0)
           else if Z.even m then strip2 f (m / 2) (e + 1) else (m, e)
  end.

Definition mkFin (m e : Z) : Num :=
  let (m', e') := strip2 64 m e in Fin m' e'.

(** Round-half-to-even of the rational [n / d] ([d > 0], [n >= 0]). *)
Definition roundHalfEven (n d : Z) : Z :=
  let q := n / d in
  let r := n mod d in
  match 2 * r ?= d with
  | Lt => q
  | Gt => q + 1
  | Eq => if Z.even q then q else q + 1
  end.

(** [floor (log2 (n / d))] for [n, d > 0]. *)
Definition floorLog2 (n d : Z) : Z :=
  let p := Z.log2 n - Z.log2 d in
  if (if 0 <=? p then d * 2 ^ p <=? n else d <=? n * 2 ^ (- p))
  then p else p - 1.

(** The double nearest to the non-negative rational [n / d] (IEEE 754
    binary64, round to nearest, ties to even; overflow gives infinity). *)
Definition roundPos (n d : Z) : Num :=
  if n =? 0 then Fin 0 0 else
  let p := Z.max (floorLog2 n d) (-1022) in
  let ex := p - 52 in
  let r := if 0 <=? ex then roundHalfEven n (d * 2 ^ ex)
           else roundHalfEven (n * 2 ^ (- ex)) d in
  if (2 ^ 53 <=? r) && (971 <=? ex) then Inf false
  else if (971 <? ex) then Inf false
  else mkFin r ex.

Definition neg (x : Num) : Num :=
  match x with
  | NaN => NaN
  | Inf b => Inf (negb b)
  | Fin m e => Fin (- m) e
  end.

(** The Number value of the exact decimal [m * 10^e]. *)
Definition ofDecimal (m e : Z) : Num :=
  let a := Z.abs m in
  let x := if 0 <=? e then roundPos (a * 10 ^ e) 1 else roundPos a (10 ^ (- e)) in
  if m <? 0 then neg x else x.

Definition ofZ (z : Z) : Num := ofDecimal z 0.

(** [x === y] on Numbers: NaN equals nothing, itself included; finite
    values are compared by value. *)
Definition eqb (x y : Num) : bool :=
  match x, y with
  | Inf a, Inf b => Bool.eqb a b
  | Fin m e, Fin m' e' =>
      let lo := Z.min e e' in m * 2 ^ (e - lo) =? m' * 2 ^ (e' - lo)
  | _, _ => false
  end.

(** [x < 0], the one ordering test the controller makes. *)
Definition ltb0 (x : Num) : bool :=
  match x with
  | NaN => false
  | Inf b => b
  | Fin m _ => m <? 0
  end.

(** [!v]: the falsy values are undefined, null, false, 0, NaN and the empty
    string. *)
Definition truthy (v : Val) : bool :=
  match v with
  | VUndef | VNull => false
  | VBool b => b
  | VNum NaN => false
  | VNum (Inf _) => true
  | VNum (Fin m _) => negb (m =? 0)
  | VStr s => negb (String.eqb s EmptyString)
  end.

Definition not (v : Val) : bool := negb (truthy v).

(** [v == null]: true of null and undefined only. *)
Definition looseEqNull (v : Val) : bool :=
  match v with VUndef | VNull => true | _ => false end.

(** [s !== v] for a string [s]. *)
Definition strictNeStr (s : string) (v : Val) : bool :=
  match v with VStr t => negb (String.eqb s t) | _ => true end.

(** *** Number(string)

    Strings are read as UTF-8 bytes. [StringToNumber] trims white space and
    line terminators, reads the empty string as 0, and otherwise wants a
    signed decimal literal, [Infinity], or an unsigned hex, octal or binary
    integer; anything else is NaN. *)

Definition codes (s : string) : list Z :=
  map (fun c => Z.of_N (N_of_ascii c)) (list_ascii_of_string s).

(** Bytes taken by the white-space character at the head of [l]; 0 if there
    is none. *)
Definition wsLen (l : list Z) : nat :=
  match l with
  | c :: r1 =>
      if (c =? 9) || (c =? 10) || (c =? 11) || (c =? 12) || (c =? 13) || (c =? 32)
      then 1%nat
      else match r1 with
           | c2 :: r2 =>
               if (c =? 194) && (c2 =? 160) then 2%nat
               else match r2 with
                    | c3 :: _ =>
                        if ((c =? 225) && (c2 =? 154) && (c3 =? 128))
                           || ((c =? 226) && (c2 =? 128)
                               && (((128 <=? c3) && (c3 <=? 138))
                                   || (c3 =? 168) || (c3 =? 169) || (c3 =? 175)))
                           || ((c =? 226) && (c2 =? 129) && (c3 =? 159))
                           || ((c =? 227) && (c2 =? 128) && (c3 =? 128))
                           || ((c =? 239) && (c2 =? 187) && (c3 =? 191))
                        then 3%nat else 0%nat
                    | [] => 0%nat
                    end
           | [] => 0%nat
           end
  | [] => 0%nat
  end.

Fixpoint dropWs (fuel : nat) (l : list Z) : list Z :=
  match fuel with
  | O => l
  | S f => match wsLen l with
           | O => l
           | n => dropWs f (skipn n l)
           end
  end.

Definition allWs (l : list Z) : bool :=
  match dropWs (List.length l) l with [] => true | _ => false end.

(** The value of a digit in base [b], if [c] is one. *)
Definition digitOf (b c : Z) : option Z :=
  let d := if (48 <=? c) && (c <=? 57) then c - 48
           else if (97 <=? c) && (c <=? 102) then c - 87
           else if (65 <=? c) && (c <=? 70) then c - 55
           else 99 in
  if d <? b then Some d else None.

Fixpoint spanDigits (b : Z) (l : list Z) : list Z * list Z :=
  match l with
  | c :: r => match digitOf b c with
              | Some d => let (ds, rest) := spanDigits b r in (d :: ds, rest)
              | None => ([], l)
              end
  | [] => ([], [])
  end.

Definition digitsVal (b : Z) (ds : list Z) : Z :=
  fold_left (fun a d => a * b + d) ds 0.

Definition isNil {A} (l : list A) : bool :=
  match l with [] => true | _ => false end.

(** An optional exponent part: the exponent and what follows it. *)
Definition parseExp (l : list Z) : option (Z * list Z) :=
  match l with
  | c :: r =>
      if (c =? 101) || (c =? 69) then
        let '(sgn, r') := match r with
                          | 43 :: r' => (1, r')
                          | 45 :: r' => (-1, r')
                          | _ => (1, r)
                          end in
        let (ds, rest) := spanDigits 10 r' in
        if isNil ds then None else Some (sgn * digitsVal 10 ds, rest)
      else Some (0, l)
  | [] => Some (0, [])
  end.

Fixpoint startsWith (p l : list Z) : option (list Z) :=
  match p, l with
  | [], _ => Some l
  | a :: p', b :: l' => if a =? b then startsWith p' l' else None
  | _ :: _, [] => None
  end.

(** An unsigned decimal literal, or [Infinity]: the Number it denotes and the
    rest of the input. *)
Definition parseUnsigned (l : list Z) : option (Num * list Z) :=
  match startsWith (codes "Infinity") l with
  | Some rest => Some (Inf false, rest)
  | None =>
      let (ip, r) := spanDigits 10 l in
      match r with
      | 46 :: r1 =>
          let (fp, r2) := spanDigits 10 r1 in
          if isNil ip && isNil fp then None
          else match parseExp r2 with
               | Some (ex, rest) =>
                   Some (ofDecimal (digitsVal 10 (ip ++ fp))
                                   (ex - Z.of_nat (List.length fp)), rest)
               | None => None
               end
      | _ =>
          if isNil ip then None
          else match parseExp r with
               | Some (ex, rest) => Some (ofDecimal (digitsVal 10 ip) ex, rest)
               | None => None
               end
      end
  end.

(** An unsigned [0x], [0o] or [0b] integer literal. *)
Definition parseRadix (l : list Z) : option (Num * list Z) :=
  match l with
  | 48 :: c :: r =>
      let b := if (c =? 120) || (c =? 88) then 16
               else if (c =? 111) || (c =? 79) then 8
               else if (c =? 98) || (c =? 66) then 2 else 0 in
      if b =? 0 then None
      else let (ds, rest) := spanDigits b r in
           if isNil ds then None else Some (ofZ (digitsVal b ds), rest)
  | _ => None
  end.

Definition finish (r : option (Num * list Z)) (sgn : bool) : Num :=
  match r with
  | Some (x, rest) => if allWs rest then (if sgn then neg x else x) else NaN
  | None => NaN
  end.

Definition stringToNumber (s : string) : Num :=
  let l := dropWs (List.length (codes s)) (codes s) in
  match l with
  | [] => Fin 0 0
  | 43 :: r => finish (parseUnsigned r) false
  | 45 :: r => finish (parseUnsigned r) true
  | _ => match parseRadix l with
         | Some res => finish (Some res) false
         | None => finish (parseUnsigned l) false
         end
  end.

(** [Number(v)]. *)
Definition Number (v : Val) : Num :=
  match v with
  | VUndef => NaN
  | VNull => Fin 0 0
  | VBool b => if b then Fin 1 0 else Fin 0 0
  | VNum n => n
  | VStr s => stringToNumber s
  end.

(** *** String(number)

    [Number::toString]: the shortest decimal digits [ds] (their value [s], [k]
    of them) and the exponent [n] with [s * 10^(n-k)] reading back as the
    same double, laid out as ECMAScript prescribes. *)

Definition showZ (z : Z) : string := NilZero.string_of_int (Z.to_int z).

Fixpoint zeros (n : nat) : string :=
  match n with O => EmptyString | S k => String "0" (zeros k) end.

(** [10^t <= n / d], for [n, d > 0]. *)
Definition pow10Le (t n d : Z) : bool :=
  if 0 <=? t then d * 10 ^ t <=? n else d <=? n * 10 ^ (- t).

(** [floor (log10 (n / d))] for [n, d > 0]. *)
Definition floorLog10 (n d : Z) : Z :=
  let est := (floorLog2 n d * 30103) / 100000 in
  if pow10Le (est + 1) n d then est + 1
  else if pow10Le est n d then est
  else if pow10Le (est - 1) n d then est - 1
  else est - 2.

(** [floor ((n / d) / 10^sc)]. *)
Definition scaledFloor (n d sc : Z) : Z :=
  if 0 <=? sc then n / (d * 10 ^ sc) else (n * 10 ^ (- sc)) / d.

(** Is [s * 10^sc] at least as near to [n / d] as [(s + 1) * 10^sc]?
    (a tie goes to the even one). *)
Definition lowerIsNearer (n d s sc : Z) : bool :=
  let '(a, b) := if 0 <=? sc then (2 * n, (2 * s + 1) * 10 ^ sc * d)
                 else (2 * n * 10 ^ (- sc), (2 * s + 1) * d) in
  match a ?= b with
  | Lt => true
  | Gt => false
  | Eq => Z.even s
  end.

(** The shortest digits of the positive double [m * 2^e]: [(s, k, n)]. *)
Fixpoint shortest (fuel : nat) (k : Z) (m e n0 : Z) : Z * Z * Z :=
  let '(n, d) := if 0 <=? e then (m * 2 ^ e, 1) else (m, 2 ^ (- e)) in
  let sc := n0 - k in
  let lo := scaledFloor n d sc in
  let okLo := (10 ^ (k - 1) <=? lo) && eqb (ofDecimal lo sc) (Fin m e) in
  let okHi := eqb (ofDecimal (lo + 1) sc) (Fin m e) in
  let pick (s : Z) := if s =? 10 ^ k then (1, 1, n0 + 1) else (s, k, n0) in
  match fuel with
  | O => (lo, k, n0)
  | S f =>
      if okLo && okHi then pick (if lowerIsNearer n d lo sc then lo else lo + 1)
      else if okLo then pick lo
      else if okHi then pick (lo + 1)
      else shortest f (k + 1) m e n0
  end.

Definition layout (s k n : Z) : string :=
  let ds := showZ s in
  if (k <=? n) && (n <=? 21) then ds ++ zeros (Z.to_nat (n - k))
  else if (0 <? n) && (n <=? 21) then
    substring 0 (Z.to_nat n) ds ++ "." ++ substring (Z.to_nat n) (Z.to_nat (k - n)) ds
  else if (-6 <? n) && (n <=? 0) then "0." ++ zeros (Z.to_nat (- n)) ++ ds
  else
    let ex := (if 0 <=? n - 1 then "e+" else "e-") ++ showZ (Z.abs (n - 1)) in
    if k =? 1 then ds ++ ex
    else substring 0 1 ds ++ "." ++ substring 1 (Z.to_nat (k - 1)) ds ++ ex.

Definition numToString (x : Num) : string :=
  match x with
  | NaN => "NaN"
  | Inf b => if b then "-Infinity" else "Infinity"
  | Fin m e =>
      if m =? 0 then "0"
      else
        let a := Z.abs m in
        let '(n, d) := if 0 <=? e then (a * 2 ^ e, 1) else (a, 2 ^ (- e)) in
        let '(s, k, n') := shortest 17 1 a e (floorLog10 n d + 1) in
        (if m <? 0 then "-" else "") ++ layout s k n'
  end.

(** [String(v)], as a template literal or [Array.prototype.join] coerce a
    scalar. *)
Definition toString (v : Val) : string :=
  match v with
  | VUndef => "undefined"
  | VNull => "null"
  | VBool b => if b then "true" else "false"
  | VNum n => numToString n
  | VStr s => s
  end.

End Js.

(** ** MD5 (RFC 1321)

    The digest Click signs its callbacks with, over 32-bit words kept in [Z]
    with the wrap-around written out. *)

Module Md5.

Definition w32 (x : Z) : Z := x mod 2 ^ 32.

Definition rotl (x n : Z) : Z :=
  w32 (Z.lor (Z.shiftl x n) (Z.shiftr x (32 - n))).

Definition lnot32 (x : Z) : Z := Z.lxor x 0xffffffff.

Definition K : list Z :=
  [0xd76aa478; 0xe8c7b756; 0x242070db; 0xc1bdceee;
   0xf57c0faf; 0x4787c62a; 0xa8304613; 0xfd469501;
   0x698098d8; 0x8b44f7af; 0xffff5bb1; 0x895cd7be;
   0x6b901122; 0xfd987193; 0xa679438e; 0x49b40821;
   0xf61e2562; 0xc040b340; 0x265e5a51; 0xe9b6c7aa;
   0xd62f105d; 0x02441453; 0xd8a1e681; 0xe7d3fbc8;
   0x21e1cde6; 0xc33707d6; 0xf4d50d87; 0x455a14ed;
   0xa9e3e905; 0xfcefa3f8; 0x676f02d9; 0x8d2a4c8a;
   0xfffa3942; 0x8771f681; 0x6d9d6122; 0xfde5380c;
   0xa4beea44; 0x4bdecfa9; 0xf6bb4b60; 0xbebfbc70;
   0x289b7ec6; 0xeaa127fa; 0xd4ef3085; 0x04881d05;
   0xd9d4d039; 0xe6db99e5; 0x1fa27cf8; 0xc4ac5665;
   0xf4292244; 0x432aff97; 0xab9423a7; 0xfc93a039;
   0x655b59c3; 0x8f0ccc92; 0xffeff47d; 0x85845dd1;
   0x6fa87e4f; 0xfe2ce6e0; 0xa3014314; 0x4e0811a1;
   0xf7537e82; 0xbd3af235; 0x2ad7d2bb; 0xeb86d391].

Definition shifts : list Z :=
  [7; 12; 17; 22; 7; 12; 17; 22; 7; 12; 17; 22; 7; 12; 17; 22;
   5; 9; 14; 20; 5; 9; 14; 20; 5; 9; 14; 20; 5; 9; 14; 20;
   4; 11; 16; 23; 4; 11; 16; 23; 4; 11; 16; 23; 4; 11; 16; 23;
   6; 10; 15; 21; 6; 10; 15; 21; 6; 10; 15; 21; 6; 10; 15; 21].

(** The message with its padding: a [0x80] byte, zeros up to 56 modulo 64,
    then the bit length as 8 little-endian bytes. *)
Definition leBytes (n : nat) (x : Z) : list Z :=
  map (fun i => (Z.shiftr x (8 * Z.of_nat i)) mod 256) (seq 0 n).

Definition pad (msg : list Z) : list Z :=
  let len := Z.of_nat (List.length msg) in
  let z := (55 - len) mod 64 in
  msg ++ [128] ++ repeat 0 (Z.to_nat z) ++ leBytes 8 ((8 * len) mod 2 ^ 64).

Definition leWord (bs : list Z) : Z :=
  fold_right (fun b acc => b + 256 * acc) 0 bs.

Fixpoint words (n : nat) (bs : list Z) : list Z :=
  match n with
  | O => []
  | S k => leWord (firstn 4 bs) :: words k (skipn 4 bs)
  end.

Record state : Type := mkState { sa : Z; sb : Z; sc : Z; sd : Z }.

Definition init : state :=
  mkState 0x67452301 0xefcdab89 0x98badcfe 0x10325476.

Definition round (M : list Z) (st : state) (i : nat) : state :=
  let '(mkState a b c d) := st in
  let zi := Z.of_nat i in
  let '(f, g) :=
    if zi <? 16 then (Z.lor (Z.land b c) (Z.land (lnot32 b) d), zi)
    else if zi <? 32 then (Z.lor (Z.land d b) (Z.land (lnot32 d) c), (5 * zi + 1) mod 16)
    else if zi <? 48 then (Z.lxor (Z.lxor b c) d, (3 * zi + 5) mod 16)
    else (Z.lxor c (Z.lor b (lnot32 d)), (7 * zi) mod 16) in
  let f' := w32 (f + a + nth i K 0 + nth (Z.to_nat g) M 0) in
  mkState d (w32 (b + rotl f' (nth i shifts 0))) b c.

Definition block (st : state) (M : list Z) : state :=
  let '(mkState a b c d) := fold_left (round M) (seq 0 64) st in
  mkState (w32 (sa st + a)) (w32 (sb st + b)) (w32 (sc st + c)) (w32 (sd st + d)).

Fixpoint blocks (n : nat) (bs : list Z) (st : state) : state :=
  match n with
  | O => st
  | S k => blocks k (skipn 64 bs) (block st (words 16 (firstn 64 bs)))
  end.

Definition digest (msg : list Z) : list Z :=
  let p := pad msg in
  let st := blocks (List.length p / 64) p init in
  leBytes 4 (sa st) ++ leBytes 4 (sb st) ++ leBytes 4 (sc st) ++ leBytes 4 (sd st).

Definition hexDigit (d : Z) : ascii :=
  ascii_of_N (Z.to_N (if d <? 10 then 48 + d else 87 + d)).

Fixpoint hex (bs : list Z) : string :=
  match bs with
  | [] => EmptyString
  | b :: r => String (hexDigit (b / 16)) (String (hexDigit (b mod 16)) (hex r))
  end.

(** [crypto.createHash('md5').update(s).digest('hex')]. *)
Definition md5Hex (s : string) : string := hex (digest (Js.codes s)).

End Md5.

(** ** Data model *)

(** [payments.status]: the four values the controller reads and writes. *)
Inductive Status : Type := PENDING | PAID | CANCELED | FAILED.

Definition Status_eqb (a b : Status) : bool :=
  match a, b with
  | PENDING, PENDING | PAID, PAID | CANCELED, CANCELED | FAILED, FAILED => true
  | _, _ => false
  end.

(** A [Date] as [toYYYYMMDD] reads it: invalid, or its UTC year, month
    (0-based, as [getUTCMonth] gives it) and day. *)
Inductive JsDate : Type :=
| InvalidDate
| UtcDate (year month day : Z).

(** A row of the [payments] table (db/migrations.sql) as the repository hands
    it to the controller. [amount] is NUMERIC(14,2), which the driver returns
    as text, so it stays a loosely typed value until [Number] reads it. *)
Module Payment.
Record t : Type := mk {
  id : Z;
  user_id : Z;
  amount : Js.Val;
  click_merchant_trans_id : string;
  click_payment_id : Js.Val;
  status : Status;
  created_at : JsDate
}.
End Payment.

Definition Table : Type := list Payment.t.

(** [req.body] of a Click callback: the fields the handlers destructure; an
    absent field is [undefined]. *)
Module Body.
Record t : Type := mk {
  click_trans_id : Js.Val;
  service_id : Js.Val;
  merchant_trans_id : Js.Val;
  merchant_prepare_id : Js.Val;
  amount : Js.Val;
  sign_time : Js.Val;
  sign_string : Js.Val;
  error : Js.Val;
  action : Js.Val
}.
End Body.

(** The argument object of [buildClickMd5Signature]. *)
Module Sign.
Record t : Type := mk {
  clickTransId : Js.Val;
  serviceId : Js.Val;
  secretKey : Js.Val;
  merchantTransId : Js.Val;
  merchantPrepareId : Js.Val;
  amount : Js.Val;
  action : Js.Val;
  signTime : Js.Val
}.
End Sign.

(** [config.click], as far as the modelled code reads it. *)
Module Config.
Record t : Type := mk {
  serviceId : Js.Val;
  secretKey : Js.Val;
  merchantUserId : Js.Val;
  apiBaseUrl : string
}.
End Config.

(** The JSON object a Click callback is answered with; a key the handler does
    not set is [undefined] ([None] for the two ids). *)
Module Reply.
Record t : Type := mk {
  error : Js.Num;
  error_note : string;
  click_trans_id : Js.Val;
  merchant_trans_id : Js.Val;
  merchant_prepare_id : option Z;
  merchant_confirm_id : option Z
}.
End Reply.

(** What the gateway's API answers: a scalar (text, [null], ...) or a JSON
    object, of which the scalar fields are kept. *)
Inductive Payload : Type :=
| PVal (v : Js.Val)
| PObject (fields : list (string * Js.Val)).

Inductive ResBody : Type :=
| ClickJson (r : Reply.t)
| ErrorJson (error message : string)
| ClickPaymentJson (click : Payload) (payment : option Payment.t)
| Text (s : string).

(** An HTTP response: [res.status(code)] and what was sent. *)
Record Res : Type := mkRes { httpStatus : Z; sent : ResBody }.

(** The options object handed to [fetch]. [signal] is where a caller would put
    an [AbortSignal.timeout(ms)]. *)
Module Init.
Record t : Type := mk {
  method : string;
  headers : list (string * string);
  body : option string;
  signal : option Z
}.
End Init.

(** A [Response] as [clickApiRequest] reads it: [res.ok], [res.status], the
    content-type header, and what [res.json()] and [res.text()] settle to
    ([None] when they reject). *)
Module Response.
Record t : Type := mk {
  ok : bool;
  status : Z;
  contentType : option string;
  json : option Payload;
  text : option string
}.
End Response.

(** [fetch] settles with a response or rejects (network failure). *)
Inductive FetchResult : Type :=
| Rejected (message : string)
| Fulfilled (res : Response.t).

(** What the modelled code throws. *)
Inductive Err : Type :=
| InvalidDateError
| NetworkError (message : string)
| ClickApiError (statusCode : Z) (status : Z) (payload : Payload)
| ValidationError (field : string).

(** ** Awaited operations

    Every [await] of the controller is a call into the payment repository or
    a [fetch]. A handler is a tree of such calls: each node is one awaited
    operation and carries the rest of the handler as a function of what the
    operation returns. *)

Inductive RepoCall : Type :=
| getPaymentById (id : Z)
| getPaymentByMerchantTransId (merchantTransId : Js.Val)
| updatePaymentStatusById (id : Z) (status : Status) (clickPaymentId : Js.Val).

Inductive Prog (A : Type) : Type :=
| Ret (a : A)
| Throw (e : Err)
| AwaitRepo (c : RepoCall) (k : option Payment.t -> Prog A)
| AwaitFetch (url : string) (init : Init.t) (k : FetchResult -> Prog A).

Arguments Ret {A} a.
Arguments Throw {A} e.
Arguments AwaitRepo {A} c k.
Arguments AwaitFetch {A} url init k.

Fixpoint bind {A B : Type} (p : Prog A) (f : A -> Prog B) : Prog B :=
  match p with
  | Ret a => f a
  | Throw e => Throw e
  | AwaitRepo c k => AwaitRepo c (fun r => bind (k r) f)
  | AwaitFetch u i k => AwaitFetch u i (fun r => bind (k r) f)
  end.

(** [try { p } catch (e) { h e }]. *)
Fixpoint tryCatch {A : Type} (p : Prog A) (h : Err -> Prog A) : Prog A :=
  match p with
  | Ret a => Ret a
  | Throw e => h e
  | AwaitRepo c k => AwaitRepo c (fun r => tryCatch (k r) h)
  | AwaitFetch u i k => AwaitFetch u i (fun r => tryCatch (k r) h)
  end.

Definition await (c : RepoCall) : Prog (option Payment.t) := AwaitRepo c Ret.

Definition fetch (url : string) (init : Init.t) : Prog FetchResult :=
  AwaitFetch url init Ret.

Notation "x <- p ;; q" := (bind p (fun x => q))
  (at level 61, p at next level, right associativity).

(** ** services/click.service.js *)

Module ClickService.

(** [String(n).padStart(2, '0')]. *)
Definition padStart2 (s : string) : string :=
  match String.length s with
  | O => "00" ++ s
  | S O => "0" ++ s
  | _ => s
  end.

Definition toYYYYMMDD (date : JsDate) : Err + string :=
  match date with
  | InvalidDate => inl InvalidDateError
  | UtcDate yyyy month day =>
      let mm := padStart2 (Js.toString (Js.VNum (Js.ofZ (month + 1)))) in
      let dd := padStart2 (Js.toString (Js.VNum (Js.ofZ day))) in
      inr (Js.toString (Js.VNum (Js.ofZ yyyy)) ++ "-" ++ mm ++ "-" ++ dd)
  end.

(** [encodeURIComponent] over the UTF-8 bytes of its argument: letters,
    digits and [-_.!~*'()] stay, any other byte becomes [%XX]. *)
Definition unreserved (c : Z) : bool :=
  ((48 <=? c) && (c <=? 57)) || ((65 <=? c) && (c <=? 90))
  || ((97 <=? c) && (c <=? 122))
  || (c =? 45) || (c =? 95) || (c =? 46) || (c =? 33) || (c =? 126)
  || (c =? 42) || (c =? 39) || (c =? 40) || (c =? 41).

Definition upperHex (d : Z) : ascii :=
  ascii_of_N (Z.to_N (if d <? 10 then 48 + d else 55 + d)).

Fixpoint encodeBytes (l : list Z) : string :=
  match l with
  | [] => EmptyString
  | c :: r =>
      if unreserved c then String (ascii_of_N (Z.to_N c)) (encodeBytes r)
      else String "%" (String (upperHex (c / 16))
                              (String (upperHex (c mod 16)) (encodeBytes r)))
  end.

Definition encodeURIComponent (v : Js.Val) : string :=
  encodeBytes (Js.codes (Js.toString v)).

(** [s.endsWith('/')]. *)
Fixpoint endsWithSlash (s : string) : bool :=
  match s with
  | EmptyString => false
  | String c EmptyString => Ascii.eqb c "/"
  | String _ r => endsWithSlash r
  end.

(** [s.replace(/^\/+/, '')]. *)
Fixpoint stripLeadingSlashes (s : string) : string :=
  match s with
  | String c r => if Ascii.eqb c "/" then stripLeadingSlashes r else s
  | EmptyString => EmptyString
  end.

(** [s.includes(p)]. *)
Fixpoint includes (p s : string) : bool :=
  if String.prefix p s then true
  else match s with
       | EmptyString => false
       | String _ r => includes p r
       end.

Section Service.

Variable config : Config.t.

(** [buildClickAuthHeader] (utils/clickAuth) is not part of the sources; the
    service only forwards the header value it returns. *)
Variable buildClickAuthHeader : Js.Val -> Js.Val -> string.

(** [clickApiRequest(method, path, { json })], with [json] already
    serialized. [new URL(path, base)] is taken as the concatenation it is for
    a well-formed base ending in a slash and a relative path. The parser
    also resolves a segment that is [.] or [..], which [encodeURIComponent]
    leaves alone: for such an identifier the URL fetched is not the one
    here, so nothing below is stated of the URL's text. *)
Definition clickApiRequest (method path : string) (json : option string)
  : Prog Payload :=
  let base := if endsWithSlash (Config.apiBaseUrl config)
              then Config.apiBaseUrl config
              else Config.apiBaseUrl config ++ "/" in
  let normalizedPath := stripLeadingSlashes path in
  let url := base ++ normalizedPath in
  let authHeaderValue :=
    buildClickAuthHeader (Config.merchantUserId config) (Config.secretKey config) in
  let headers := [("Accept", "application/json"); ("Auth", authHeaderValue)] in
  let '(headers, body) :=
    match json with
    | Some j => ((headers ++ [("Content-Type", "application/json")])%list, Some j)
    | None => (headers, None)
    end in
  r <- fetch url (Init.mk method headers body None) ;;
  match r with
  | Rejected message => Throw (NetworkError message)
  | Fulfilled res =>
      let contentType := match Response.contentType res with
                         | Some c => c
                         | None => EmptyString
                         end in
      let isJson := includes "application/json" contentType in
      let payload :=
        if isJson
        then match Response.json res with Some j => j | None => PVal Js.VNull end
        else match Response.text res with
             | Some t => PVal (Js.VStr t)
             | None => PVal Js.VNull
             end in
      if negb (Response.ok res)
      then Throw (ClickApiError 502 (Response.status res) payload)
      else Ret payload
  end.

Definition getPaymentStatusByMerchantTransId
  (merchantTransId : Js.Val) (createdAt : JsDate) : Prog Payload :=
  match toYYYYMMDD createdAt with
  | inl e => Throw e
  | inr day =>
      clickApiRequest "GET"
        ("/payment/status_by_mti/" ++ encodeURIComponent (Config.serviceId config)
         ++ "/" ++ encodeURIComponent merchantTransId
         ++ "/" ++ encodeURIComponent (Js.VStr day))
        None
  end.

Definition reversePayment (paymentId : Js.Val) : Prog Payload :=
  clickApiRequest "DELETE"
    ("/payment/reversal/" ++ encodeURIComponent (Config.serviceId config)
     ++ "/" ++ encodeURIComponent paymentId)
    None.

End Service.

End ClickService.

(** ** controllers/click.controller.js *)

Module ClickController.

Definition CLICK_ACTION_PREPARE : Z := 0.
Definition CLICK_ACTION_COMPLETE : Z := 1.

(** A number literal of the source. *)
Definition lit (z : Z) : Js.Num := Js.Fin z 0.

(** [a !== b] on two Numbers. *)
Definition neNum (a b : Js.Num) : bool := negb (Js.eqb a b).

(** [res.json(body)]: status 200. *)
Definition json (b : ResBody) : Res := mkRes 200 b.

Definition clickError (code : Z) (note : string) : Res :=
  json (ClickJson (Reply.mk (lit code) note Js.VUndef Js.VUndef None None)).

Definition mapClickPaymentStatusToLocal (clickPaymentStatus : Js.Val) : Status :=
  match clickPaymentStatus with
  | Js.VNum n => if Js.eqb n (lit 1) then PAID else PENDING
  | _ => PENDING
  end.

Definition clickSuccess (click_trans_id merchant_trans_id : Js.Val)
  (merchant_confirm_id : Z) : Res :=
  json (ClickJson (Reply.mk (lit 0) "Success" click_trans_id merchant_trans_id
                            None (Some merchant_confirm_id))).

Definition notFound : Res :=
  mkRes 404 (ErrorJson "NOT_FOUND" "Payment not found").

(** [response.key] of a gateway answer: a scalar has no such property. *)
Definition prop (response : Payload) (key : string) : Js.Val :=
  match response with
  | PVal _ => Js.VUndef
  | PObject fields =>
      match find (fun kv => String.eqb (fst kv) key) fields with
      | Some kv => snd kv
      | None => Js.VUndef
      end
  end.

Definition truthyPayload (response : Payload) : bool :=
  match response with
  | PVal v => Js.truthy v
  | PObject _ => true
  end.

(** [typeof v === 'number']. *)
Definition isNumber (v : Js.Val) : bool :=
  match v with Js.VNum _ => true | _ => false end.

Section Controller.

Variable config : Config.t.

(** [buildClickMd5Signature] and [buildClickAuthHeader] (utils/clickAuth) and
    [requireInt] (utils/validation) are not part of the sources: the handlers
    are written over whatever they compute. [requireInt] returns the integer
    or the error it throws. *)
Variable buildClickMd5Signature : Sign.t -> string.
Variable buildClickAuthHeader : Js.Val -> Js.Val -> string.
Variable requireInt : Js.Val -> string -> Err + Z.

(** The two lines shared by [syncPaymentStatusFromClick] and
    [clickReturnCallback]. *)
Definition clickPaymentIdOf (response : Payload) : Js.Val :=
  if truthyPayload response && Js.truthy (prop response "payment_id")
  then Js.VNum (Js.Number (prop response "payment_id"))
  else Js.VNull.

Definition clickPaymentStatusOf (response : Payload) : Js.Val :=
  if truthyPayload response && isNumber (prop response "payment_status")
  then prop response "payment_status"
  else Js.VNull.

Definition syncPaymentStatusFromClick (params_id : Js.Val) : Prog Res :=
  match requireInt params_id "id" with
  | inl e => Throw e
  | inr id =>
      payment <- await (getPaymentById id) ;;
      match payment with
      | None => Ret notFound
      | Some payment =>
          response <- ClickService.getPaymentStatusByMerchantTransId
                        config buildClickAuthHeader
                        (Js.VStr (Payment.click_merchant_trans_id payment))
                        (Payment.created_at payment) ;;
          let clickPaymentId := clickPaymentIdOf response in
          let clickPaymentStatus := clickPaymentStatusOf response in
          if negb (Js.looseEqNull clickPaymentStatus) then
            let status := mapClickPaymentStatusToLocal clickPaymentStatus in
            updated <- await (updatePaymentStatusById (Payment.id payment) status
                                                      clickPaymentId) ;;
            Ret (json (ClickPaymentJson response updated))
          else
            Ret (json (ClickPaymentJson response (Some payment)))
      end
  end.

Definition reversePayment (params_id : Js.Val) : Prog Res :=
  match requireInt params_id "id" with
  | inl e => Throw e
  | inr id =>
      payment <- await (getPaymentById id) ;;
      match payment with
      | None => Ret notFound
      | Some payment =>
          if Js.not (Payment.click_payment_id payment) then
            Ret (mkRes 409
                   (ErrorJson "MISSING_CLICK_PAYMENT_ID"
                      "Cannot reverse without click_payment_id (sync status first)"))
          else
            response <- ClickService.reversePayment config buildClickAuthHeader
                          (Payment.click_payment_id payment) ;;
            updated <- await (updatePaymentStatusById (Payment.id payment) CANCELED
                                                      Js.VUndef) ;;
            Ret (json (ClickPaymentJson response updated))
      end
  end.

Definition clickPrepare (body : Body.t) : Prog Res :=
  let click_trans_id := Body.click_trans_id body in
  let service_id := Body.service_id body in
  let merchant_trans_id := Body.merchant_trans_id body in
  let amount := Body.amount body in
  let sign_time := Body.sign_time body in
  let sign_string := Body.sign_string body in
  let action := Body.action body in
  if Js.not click_trans_id || Js.not service_id || Js.not merchant_trans_id
     || Js.not amount || Js.looseEqNull action
  then Ret (clickError (-8) "Missing required parameters")
  else if neNum (Js.Number service_id) (Js.Number (Config.serviceId config))
  then Ret (clickError (-8) "Invalid service_id")
  else if neNum (Js.Number action) (lit CLICK_ACTION_PREPARE)
  then Ret (clickError (-3) "Invalid action")
  else
    let expectedSign :=
      buildClickMd5Signature
        (Sign.mk click_trans_id service_id (Config.secretKey config)
                 merchant_trans_id Js.VUndef amount action sign_time) in
    if Js.strictNeStr expectedSign sign_string
    then Ret (clickError (-1) "Invalid signature")
    else
      payment <- await (getPaymentByMerchantTransId merchant_trans_id) ;;
      match payment with
      | None => Ret (clickError (-5) "Payment not found")
      | Some payment =>
          if Status_eqb (Payment.status payment) PAID
          then Ret (clickError (-4) "Payment already processed")
          else if neNum (Js.Number (Payment.amount payment)) (Js.Number amount)
          then Ret (clickError (-2) "Invalid amount")
          else
            Ret (json (ClickJson
                         (Reply.mk (lit 0) "Success" click_trans_id merchant_trans_id
                                   (Some (Payment.id payment)) None)))
      end.

Definition clickComplete (body : Body.t) : Prog Res :=
  let click_trans_id := Body.click_trans_id body in
  let service_id := Body.service_id body in
  let merchant_trans_id := Body.merchant_trans_id body in
  let merchant_prepare_id := Body.merchant_prepare_id body in
  let amount := Body.amount body in
  let sign_time := Body.sign_time body in
  let sign_string := Body.sign_string body in
  let error := Body.error body in
  let action := Body.action body in
  if Js.not click_trans_id || Js.not service_id || Js.not merchant_trans_id
     || Js.not merchant_prepare_id || Js.looseEqNull action
  then Ret (clickError (-8) "Missing required parameters")
  else if neNum (Js.Number service_id) (Js.Number (Config.serviceId config))
  then Ret (clickError (-8) "Invalid service_id")
  else if neNum (Js.Number action) (lit CLICK_ACTION_COMPLETE)
  then Ret (clickError (-3) "Invalid action")
  else
    let expectedSign :=
      buildClickMd5Signature
        (Sign.mk click_trans_id service_id (Config.secretKey config)
                 merchant_trans_id merchant_prepare_id amount action sign_time) in
    if Js.strictNeStr expectedSign sign_string
    then Ret (clickError (-1) "Invalid signature")
    else
      payment <- await (getPaymentByMerchantTransId merchant_trans_id) ;;
      match payment with
      | None => Ret (clickError (-5) "Payment not found")
      | Some payment =>
          if neNum (lit (Payment.id payment)) (Js.Number merchant_prepare_id)
          then Ret (clickError (-5) "Payment not found")
          else if Status_eqb (Payment.status payment) PAID
          then Ret (clickError (-4) "Payment already processed")
          else if Js.truthy error && neNum (Js.Number error) (lit 0) then
            let status := if Js.ltb0 (Js.Number error) then CANCELED else FAILED in
            _ <- await (updatePaymentStatusById (Payment.id payment) status
                                                click_trans_id) ;;
            Ret (json (ClickJson
                         (Reply.mk (Js.Number error) "Failed" click_trans_id
                                   merchant_trans_id None (Some (Payment.id payment)))))
          else if neNum (Js.Number (Payment.amount payment)) (Js.Number amount)
          then Ret (clickError (-2) "Invalid amount")
          else
            _ <- await (updatePaymentStatusById (Payment.id payment) PAID
                                                click_trans_id) ;;
            Ret (clickSuccess click_trans_id merchant_trans_id (Payment.id payment))
      end.

(** One URL for both steps: dispatch on [Number(req.body.action)]. *)
Definition clickSingleEndpoint (body : Body.t) : Prog Res :=
  let action := Js.Number (Body.action body) in
  if Js.eqb action (lit CLICK_ACTION_PREPARE) then clickPrepare body
  else if Js.eqb action (lit CLICK_ACTION_COMPLETE) then clickComplete body
  else Ret (clickError (-3) "Invalid action").

(** The user-facing return page: the same synchronization, with every error
    of the gateway call swallowed. *)
Definition clickReturnCallback (transaction_param : Js.Val) : Prog Res :=
  let transactionParam :=
    if Js.truthy transaction_param
    then Js.VStr (Js.toString transaction_param) else Js.VNull in
  if Js.not transactionParam then Ret (mkRes 200 (Text "OK"))
  else
    payment <- await (getPaymentByMerchantTransId transactionParam) ;;
    match payment with
    | None => Ret (mkRes 200 (Text "OK"))
    | Some payment =>
        _ <- tryCatch
               (response <- ClickService.getPaymentStatusByMerchantTransId
                              config buildClickAuthHeader
                              (Js.VStr (Payment.click_merchant_trans_id payment))
                              (Payment.created_at payment) ;;
                let clickPaymentId := clickPaymentIdOf response in
                let clickPaymentStatus := clickPaymentStatusOf response in
                if negb (Js.looseEqNull clickPaymentStatus) then
                  let status := mapClickPaymentStatusToLocal clickPaymentStatus in
                  _ <- await (updatePaymentStatusById (Payment.id payment) status
                                                      clickPaymentId) ;;
                  Ret tt
                else Ret tt)
               (fun _ => Ret tt) ;;
        Ret (mkRes 200 (Text "Payment received. You can close this page."))
    end.

End Controller.

End ClickController.

(** ** Running a handler

    The repository and the network are the handler's environment. A
    repository gives the two lookups, which only read the table, and the
    status update, which returns the row it wrote (if any) and the new table. *)

Record Repo : Type := mkRepo {
  findById : Z -> Table -> option Payment.t;
  findByMerchantTransId : Js.Val -> Table -> option Payment.t;
  updateStatus : Z -> Status -> Js.Val -> Table -> option Payment.t * Table
}.

Definition Net : Type := string -> Init.t -> FetchResult.

Definition perform (repo : Repo) (c : RepoCall) (t : Table)
  : option Payment.t * Table :=
  match c with
  | getPaymentById id => (findById repo id t, t)
  | getPaymentByMerchantTransId m => (findByMerchantTransId repo m t, t)
  | updatePaymentStatusById id st cp => updateStatus repo id st cp t
  end.

(** What a run leaves behind besides the table: the awaited operations, in
    the order they were issued. *)
Inductive Event : Type :=
| Repo_ (c : RepoCall)
| Http (url : string) (init : Init.t).

Definition isWrite (e : Event) : bool :=
  match e with
  | Repo_ (updatePaymentStatusById _ _ _) => true
  | _ => false
  end.

(** A handler run to its end, one request at a time: what it returned or
    threw, the table afterwards, and the operations it awaited. *)
Fixpoint run {A : Type} (repo : Repo) (net : Net) (p : Prog A) (t : Table)
  : (Err + A) * Table * list Event :=
  match p with
  | Ret a => (inr a, t, [])
  | Throw e => (inl e, t, [])
  | AwaitRepo c k =>
      let (r, t') := perform repo c t in
      let '(x, t'', tr) := run repo net (k r) t' in
      (x, t'', Repo_ c :: tr)
  | AwaitFetch u i k =>
      let '(x, t', tr) := run repo net (k (net u i)) t in
      (x, t', Http u i :: tr)
  end.

(** *** Two requests in flight

    Node runs a handler up to its next [await] without interruption, so two
    requests in flight interleave at the awaited operations, each of which is
    one statement against the store. [step] performs the operation a handler
    is waiting on; a schedule says whose turn it is. *)

Inductive Tid : Type := T1 | T2.

Definition step {A : Type} (repo : Repo) (net : Net) (p : Prog A) (t : Table)
  : Prog A * Table * list Event :=
  match p with
  | AwaitRepo c k => let (r, t') := perform repo c t in (k r, t', [Repo_ c])
  | AwaitFetch u i k => (k (net u i), t, [Http u i])
  | _ => (p, t, [])
  end.

Fixpoint runPair {A : Type} (repo : Repo) (net : Net) (sched : list Tid)
  (p1 p2 : Prog A) (t : Table)
  : Prog A * Prog A * Table * list (Tid * Event) :=
  match sched with
  | [] => (p1, p2, t, [])
  | T1 :: s =>
      let '(p1', t', ev) := step repo net p1 t in
      let '(q1, q2, t'', tr) := runPair repo net s p1' p2 t' in
      (q1, q2, t'', (map (fun e => (T1, e)) ev ++ tr)%list)
  | T2 :: s =>
      let '(p2', t', ev) := step repo net p2 t in
      let '(q1, q2, t'', tr) := runPair repo net s p1 p2' t' in
      (q1, q2, t'', (map (fun e => (T2, e)) ev ++ tr)%list)
  end.

(** ** The repository, in memory *)

Module MemRepo.

(** Modelled from the spec: repositories/payment.repository.js is not among
    the sources. Section 6 names its lookups ([getById], [getByMerchantTransId],
    each returning the payment or nothing), section 3 keys payments by a unique
    [merchantTransactionId], and sections 5 and 9 describe the original flow's
    status write as an unconditional write following a separate read, which
    is also what the controller's call gives it to work with: an id, the new
    status and the gateway's id, no expected status. The update writes the
    status of the row with that id, stores a non-null gateway id and keeps
    the stored one otherwise. *)
Definition getPaymentById (id : Z) (t : Table) : option Payment.t :=
  find (fun p => Payment.id p =? id) t.

Definition getPaymentByMerchantTransId (m : Js.Val) (t : Table)
  : option Payment.t :=
  find (fun p => String.eqb (Payment.click_merchant_trans_id p) (Js.toString m)) t.

Definition write (st : Status) (cp : Js.Val) (p : Payment.t) : Payment.t :=
  Payment.mk (Payment.id p) (Payment.user_id p) (Payment.amount p)
    (Payment.click_merchant_trans_id p)
    (if Js.looseEqNull cp then Payment.click_payment_id p else cp)
    st (Payment.created_at p).

Definition updatePaymentStatusById (id : Z) (st : Status) (cp : Js.Val)
  (t : Table) : option Payment.t * Table :=
  let t' := map (fun p => if Payment.id p =? id then write st cp p else p) t in
  (getPaymentById id t', t').

Definition repo : Repo :=
  mkRepo getPaymentById getPaymentByMerchantTransId updatePaymentStatusById.

End MemRepo.

(** ** The callback signature *)

Module ClickAuth.

(** Modelled from the spec: utils/clickAuth.js is not among the sources.
    Section 4.1: the fields are concatenated in the order [clickTransId,
    serviceId, secretKey, merchantTransId, amount, action, signTime] for
    PREPARE, with [merchantPrepareId] after [merchantTransId] for COMPLETE,
    and hashed to a 128-bit digest in lowercase hexadecimal (MD5, by the
    function's name). *)
Definition buildClickMd5Signature (f : Sign.t) : string :=
  Md5.md5Hex
    (Js.toString (Sign.clickTransId f) ++ Js.toString (Sign.serviceId f)
     ++ Js.toString (Sign.secretKey f) ++ Js.toString (Sign.merchantTransId f)
     ++ match Sign.merchantPrepareId f with
        | Js.VUndef => EmptyString
        | v => Js.toString v
        end
     ++ Js.toString (Sign.amount f) ++ Js.toString (Sign.action f)
     ++ Js.toString (Sign.signTime f)).

End ClickAuth.

(** ** Vocabulary of the statements *)

Module Checks.

(** The argument objects the two handlers sign. *)
Definition prepareSign (config : Config.t) (body : Body.t) : Sign.t :=
  Sign.mk (Body.click_trans_id body) (Body.service_id body)
          (Config.secretKey config) (Body.merchant_trans_id body) Js.VUndef
          (Body.amount body) (Body.action body) (Body.sign_time body).

Definition completeSign (config : Config.t) (body : Body.t) : Sign.t :=
  Sign.mk (Body.click_trans_id body) (Body.service_id body)
          (Config.secretKey config) (Body.merchant_trans_id body)
          (Body.merchant_prepare_id body)
          (Body.amount body) (Body.action body) (Body.sign_time body).

(** Null or absent. *)
Definition missing (v : Js.Val) : Prop := v = Js.VNull \/ v = Js.VUndef.

(** The fields PREPARE wants, as the handler tests them. *)
Definition prepareFields (body : Body.t) : bool :=
  Js.truthy (Body.click_trans_id body) && Js.truthy (Body.service_id body)
  && Js.truthy (Body.merchant_trans_id body) && Js.truthy (Body.amount body)
  && negb (Js.looseEqNull (Body.action body)).

(** The fields COMPLETE wants, as the handler tests them. *)
Definition completeFields (body : Body.t) : bool :=
  Js.truthy (Body.click_trans_id body) && Js.truthy (Body.service_id body)
  && Js.truthy (Body.merchant_trans_id body)
  && Js.truthy (Body.merchant_prepare_id body)
  && negb (Js.looseEqNull (Body.action body)).

Definition serviceIdMatches (config : Config.t) (body : Body.t) : bool :=
  Js.eqb (Js.Number (Body.service_id body)) (Js.Number (Config.serviceId config)).

Definition actionIs (a : Z) (body : Body.t) : bool :=
  Js.eqb (Js.Number (Body.action body)) (ClickController.lit a).

(** [sign_string] is the digest [expected], as a string. *)
Definition signedWith (expected : string) (body : Body.t) : Prop :=
  Body.sign_string body = Js.VStr expected.

(** [sign_string] is anything else. *)
Definition tampered (expected : string) (body : Body.t) : Prop :=
  Body.sign_string body <> Js.VStr expected.

(** The value is a number other than zero (and not NaN). *)
Definition nonzeroCode (x : Js.Num) : Prop :=
  x <> Js.NaN /\ Js.eqb x (ClickController.lit 0) = false.

(** The callback carries a provider error, as COMPLETE tests it. *)
Definition providerError (body : Body.t) : bool :=
  Js.truthy (Body.error body)
  && negb (Js.eqb (Js.Number (Body.error body)) (ClickController.lit 0)).

(** A COMPLETE that the handler accepts for [payment] as long as the payment
    is not PAID: the four checks pass ([expected] is the digest of the
    request), [merchant_prepare_id] is the payment's id, there is no provider
    error and the amounts are equal. *)
Definition validComplete (config : Config.t) (expected : string)
  (body : Body.t) (payment : Payment.t) : Prop :=
  completeFields body = true
  /\ serviceIdMatches config body = true
  /\ actionIs 1 body = true
  /\ signedWith expected body
  /\ Js.eqb (ClickController.lit (Payment.id payment))
            (Js.Number (Body.merchant_prepare_id body)) = true
  /\ providerError body = false
  /\ Js.eqb (Js.Number (Payment.amount payment)) (Js.Number (Body.amount body)) = true.

(** The three parts of a run. *)
Definition resultOf {A : Type} (o : (Err + A) * Table * list Event) : Err + A :=
  fst (fst o).

Definition tableOf {A : Type} (o : (Err + A) * Table * list Event) : Table :=
  snd (fst o).

Definition traceOf {A : Type} (o : (Err + A) * Table * list Event) : list Event :=
  snd o.

(** The status write, among the operations of a run. *)
Definition writes (tr : list Event) : list Event := filter isWrite tr.

Definition writesOf (tr : list (Tid * Event)) : list (Tid * Event) :=
  filter (fun x => isWrite (snd x)) tr.

(** Every gateway call is answered by a network failure or a non-2xx
    response. *)
Definition gatewayFails (net : Net) : Prop :=
  forall u i, match net u i with
              | Rejected _ => True
              | Fulfilled res => Response.ok res = false
              end.

(** The errors [clickApiRequest] raises for a failed call. *)
Definition gatewayError (e : Err) : Prop :=
  match e with
  | NetworkError _ | ClickApiError _ _ _ => True
  | _ => False
  end.

(** The request options of the gateway calls of a run. *)
Fixpoint fetchInits (tr : list Event) : list Init.t :=
  match tr with
  | [] => []
  | Http _ i :: r => i :: fetchInits r
  | Repo_ _ :: r => fetchInits r
  end.

(** A run that left the table as it was and issued no status update. *)
Definition untouched {A : Type} (t : Table) (o : (Err + A) * Table * list Event)
  : Prop :=
  tableOf o = t /\ writes (traceOf o) = [].

(** No gateway call of the run carried an abort signal. *)
Definition noTimeout {A : Type} (o : (Err + A) * Table * list Event) : Prop :=
  Forall (fun i => Init.signal i = None) (fetchInits (traceOf o)).

(** The run called the gateway. *)
Definition calledGateway {A : Type} (o : (Err + A) * Table * list Event) : Prop :=
  fetchInits (traceOf o) <> [].

(** The run ended by throwing the gateway call's error. *)
Definition failedUpward {A : Type} (o : (Err + A) * Table * list Event) : Prop :=
  exists e, resultOf o = inl e /\ gatewayError e.

(** A gateway operation of the service: it leaves the table alone, writes
    nothing, sets no abort signal, throws when the gateway fails, and only
    returns without a call by throwing. *)
Definition gatewayOp (repo : Repo) (net : Net) (p : Prog Payload) : Prop :=
  forall t, exists x tr,
    run repo net p t = (x, t, tr)
    /\ writes tr = []
    /\ Forall (fun i => Init.signal i = None) (fetchInits tr)
    /\ (gatewayFails net -> fetchInits tr <> [] ->
        exists e, x = inl e /\ gatewayError e)
    /\ (fetchInits tr = [] -> exists e, x = inl e).

(** Schedules of two two-step handlers in which both lookups come before
    either write. *)
Definition readsFirst (sched : list Tid) : Prop :=
  sched = [T1; T2; T1; T2] \/ sched = [T1; T2; T2; T1]
  \/ sched = [T2; T1; T1; T2] \/ sched = [T2; T1; T2; T1].

End Checks.

(** ** A merchant, a payment and its callbacks *)

Module Fixture.

Definition config : Config.t :=
  Config.mk (Js.VStr "100") (Js.VStr "s3cr3t") (Js.VStr "77")
            "https://api.click.uz/v2/merchant".

(** Stand-ins for [buildClickAuthHeader] and [requireInt], which are not
    among the sources; they only serve to run the handlers on the examples
    below. *)
Definition buildClickAuthHeader (user secret : Js.Val) : string :=
  Js.toString user ++ ":auth".

Definition requireInt (v : Js.Val) (field : string) : Err + Z :=
  match Js.Number v with
  | Js.Fin m e => if 0 <=? e then inr (m * 2 ^ e) else inl (ValidationError field)
  | _ => inl (ValidationError field)
  end.

Definition payment (st : Status) (gatewayId : Js.Val) : Payment.t :=
  Payment.mk 42 1 (Js.VStr "50000.00") "abc" gatewayId st (UtcDate 2024 0 15).

Definition table (st : Status) (gatewayId : Js.Val) : Table :=
  [Payment.mk 41 1 (Js.VStr "120.50") "xyz" Js.VNull PENDING (UtcDate 2024 0 14);
   payment st gatewayId].

Definition signTime : Js.Val := Js.VStr "2024-01-15 10:00:00".

(** A form-encoded PREPARE for payment 42: every field is a string. *)
Definition prepare (service_id amount sign_string : Js.Val) : Body.t :=
  Body.mk (Js.VStr "7") service_id (Js.VStr "abc") Js.VUndef amount signTime
          sign_string Js.VUndef (Js.VStr "0").

Definition prepareOk : Body.t :=
  prepare (Js.VStr "100") (Js.VStr "50000")
          (Js.VStr "700fd22a6414902da3f3660267556aed").

(** The same callback without its [sign_string]. *)
Definition prepareUnsigned : Body.t :=
  prepare (Js.VStr "100") (Js.VStr "50000") Js.VUndef.

(** Another service's id and a forged [sign_string]. *)
Definition prepareForged : Body.t :=
  prepare (Js.VStr "999") (Js.VStr "50000") (Js.VStr "deadbeef").

(** [amount=0], correctly signed. *)
Definition prepareZero : Body.t :=
  prepare (Js.VStr "100") (Js.VStr "0")
          (Js.VStr "cc758100a81a21ba3975f5342fd3873a").

(** A form-encoded COMPLETE for payment 42 with the provider's [error]. *)
Definition complete (error : Js.Val) : Body.t :=
  Body.mk (Js.VStr "7") (Js.VStr "100") (Js.VStr "abc") (Js.VStr "42")
          (Js.VStr "50000") signTime
          (Js.VStr "c7b2cba135508683e94cc61033e05fab") error (Js.VStr "1").

Definition completeOk : Body.t := complete (Js.VStr "0").

(** Other COMPLETEs, each correctly signed: for a merchant transaction that
    is not stored, with another payment's id, and with another amount. *)
Definition completeUnknown : Body.t :=
  Body.mk (Js.VStr "7") (Js.VStr "100") (Js.VStr "nope") (Js.VStr "42")
          (Js.VStr "50000") signTime
          (Js.VStr "7cbb3ae8a15f45ec9854be37433924da") (Js.VStr "0") (Js.VStr "1").

Definition completeOtherId : Body.t :=
  Body.mk (Js.VStr "7") (Js.VStr "100") (Js.VStr "abc") (Js.VStr "41")
          (Js.VStr "50000") signTime
          (Js.VStr "493e6e01d3bca9b1807cbad2c32ac307") (Js.VStr "0") (Js.VStr "1").

Definition completeOtherAmount : Body.t :=
  Body.mk (Js.VStr "7") (Js.VStr "100") (Js.VStr "abc") (Js.VStr "42")
          (Js.VStr "49999") signTime
          (Js.VStr "9823037578beabbf7d366f5baf3f4f7b") (Js.VStr "0") (Js.VStr "1").

(** A PREPARE for a merchant transaction that is not stored. *)
Definition prepareUnknown : Body.t :=
  Body.mk (Js.VStr "7") (Js.VStr "100") (Js.VStr "nope") Js.VUndef
          (Js.VStr "50000") signTime
          (Js.VStr "ad369e2a5746fb75c6217b7a68bde719") Js.VUndef (Js.VStr "0").

(** The gateway answering with a JSON object. *)
Definition gatewaySays (fields : list (string * Js.Val)) : Net :=
  fun _ _ =>
    Fulfilled
      (Response.mk true 200 (Some "application/json; charset=utf-8")
                   (Some (PObject fields)) None).

(** The gateway answering a status query with [payment_status]. *)
Definition statusAnswer (payment_status : Z) : list (string * Js.Val) :=
  [("payment_id", Js.VNum (ClickController.lit 9001));
   ("payment_status", Js.VNum (ClickController.lit payment_status))].

Definition gatewayReports (payment_status : Z) : Net :=
  gatewaySays (statusAnswer payment_status).

(** The gateway answering a status query with an error and no status. *)
Definition errorAnswer : list (string * Js.Val) :=
  [("error_code", Js.VNum (ClickController.lit (-5)));
   ("error_note", Js.VStr "Payment not found")].

(** The gateway out of reach. *)
Definition gatewayDown : Net := fun _ _ => Rejected "fetch failed".

(** What the runs below answer and issue. *)
Definition success : Res :=
  ClickController.clickSuccess (Js.VStr "7") (Js.VStr "abc") 42.

Definition lookup : Event := Repo_ (getPaymentByMerchantTransId (Js.VStr "abc")).

Definition writePaid : Event :=
  Repo_ (updatePaymentStatusById 42 PAID (Js.VStr "7")).

Definition clickPrepare := ClickController.clickPrepare config ClickAuth.buildClickMd5Signature.

Definition clickComplete := ClickController.clickComplete config ClickAuth.buildClickMd5Signature.

Definition syncPaymentStatusFromClick :=
  ClickController.syncPaymentStatusFromClick config buildClickAuthHeader requireInt.

Definition reversePayment :=
  ClickController.reversePayment config buildClickAuthHeader requireInt.

Definition clickSingleEndpoint :=
  ClickController.clickSingleEndpoint config ClickAuth.buildClickMd5Signature.

End Fixture.

(** ** More of JavaScript: [Math.round], [parseFloat], [parseInt] *)

Module JsMath.

(** [Math.round(x)]: the nearest integer, a tie going up. *)
Definition round (x : Js.Num) : Js.Num :=
  match x with
  | Js.Fin m e =>
      if 0 <=? e then x
      else let d := 2 ^ (- e) in Js.ofZ ((2 * m + d) / (2 * d))
  | _ => x
  end.

(** [x <= 0] on a Number. *)
Definition leb0 (x : Js.Num) : bool :=
  match x with
  | Js.NaN => false
  | Js.Inf negative => negative
  | Js.Fin m _ => m <=? 0
  end.

(** An exponent part, if one follows: [parseFloat] and the longest-prefix
    rule leave a dangling [e] alone. *)
Definition exponentIfAny (l : list Z) : Z :=
  match l with
  | c :: r =>
      if (c =? 101) || (c =? 69) then
        let '(sgn, r') := match r with
                          | 43 :: r' => (1, r')
                          | 45 :: r' => (-1, r')
                          | _ => (1, r)
                          end in
        let (ds, _) := Js.spanDigits 10 r' in
        if Js.isNil ds then 0 else sgn * Js.digitsVal 10 ds
      else 0
  | [] => 0
  end.

(** The longest prefix that is an unsigned decimal literal or [Infinity]. *)
Definition unsignedPrefix (l : list Z) : Js.Num :=
  match Js.startsWith (Js.codes "Infinity") l with
  | Some _ => Js.Inf false
  | None =>
      let (ip, r) := Js.spanDigits 10 l in
      match r with
      | 46 :: r1 =>
          let (fp, r2) := Js.spanDigits 10 r1 in
          if Js.isNil ip && Js.isNil fp then Js.NaN
          else Js.ofDecimal (Js.digitsVal 10 (ip ++ fp))
                            (exponentIfAny r2 - Z.of_nat (List.length fp))
      | _ =>
          if Js.isNil ip then Js.NaN
          else Js.ofDecimal (Js.digitsVal 10 ip) (exponentIfAny r)
      end
  end.

(** [parseFloat(v)]: leading white space is skipped, what follows the
    literal is ignored. *)
Definition parseFloat (v : Js.Val) : Js.Num :=
  let s := Js.codes (Js.toString v) in
  match Js.dropWs (List.length s) s with
  | 43 :: r => unsignedPrefix r
  | 45 :: r => Js.neg (unsignedPrefix r)
  | l => unsignedPrefix l
  end.

(** The digits [parseInt] reads after the sign: base 16 after [0x], base 10
    otherwise; no digit at all is NaN. *)
Definition integerPrefix (l : list Z) : Js.Num :=
  let '(b, digits) :=
    match l with
    | 48 :: c :: r => if (c =? 120) || (c =? 88) then (16, r) else (10, l)
    | _ => (10, l)
    end in
  let (ds, _) := Js.spanDigits b digits in
  if Js.isNil ds then Js.NaN else Js.ofZ (Js.digitsVal b ds).

(** [parseInt(v)], without a radix. *)
Definition parseInt (v : Js.Val) : Js.Num :=
  let s := Js.codes (Js.toString v) in
  match Js.dropWs (List.length s) s with
  | 43 :: r => integerPrefix r
  | 45 :: r => Js.neg (integerPrefix r)
  | l => integerPrefix l
  end.

(** [a || b]. *)
Definition or (a b : Js.Val) : Js.Val := if Js.truthy a then a else b.

End JsMath.


(** ** The pay page URL: [buildClickPayUrl] *)

(** [config.click], as far as [buildClickPayUrl] reads it beyond the service
    id. *)
Module PayConfig.
Record t : Type := mk {
  baseUrl : string;
  merchantId : Js.Val;
  returnUrl : Js.Val;
  cardType : Js.Val
}.
End PayConfig.

Module PayUrl.

(** [URLSearchParams]: the list of name-value pairs of a query. *)
Definition Params : Type := list (string * string).

Fixpoint dropName (name : string) (ps : Params) : Params :=
  match ps with
  | [] => []
  | (n, v) :: r => if String.eqb n name then dropName name r
                   else (n, v) :: dropName name r
  end.

(** [params.set(name, value)]: the first pair of that name takes the value
    and the others go; without one, the pair is appended. *)
Fixpoint set (name value : string) (ps : Params) : Params :=
  match ps with
  | [] => [(name, value)]
  | (n, v) :: r => if String.eqb n name then (n, value) :: dropName name r
                   else (n, v) :: set name value r
  end.

(** The application/x-www-form-urlencoded byte serializer: letters, digits
    and [*-._] stay, a space becomes [+], any other byte [%XX]. *)
Definition plain (c : Z) : bool :=
  ((48 <=? c) && (c <=? 57)) || ((65 <=? c) && (c <=? 90))
  || ((97 <=? c) && (c <=? 122))
  || (c =? 42) || (c =? 45) || (c =? 46) || (c =? 95).

Fixpoint formBytes (l : list Z) : string :=
  match l with
  | [] => EmptyString
  | c :: r =>
      if plain c then String (ascii_of_N (Z.to_N c)) (formBytes r)
      else if c =? 32 then String "+" (formBytes r)
      else String "%" (String (ClickService.upperHex (c / 16))
                              (String (ClickService.upperHex (c mod 16)) (formBytes r)))
  end.

Definition formEncode (s : string) : string := formBytes (Js.codes s).

(** The query a list of pairs serializes to. *)
Fixpoint serialize (ps : Params) : string :=
  match ps with
  | [] => EmptyString
  | [(n, v)] => formEncode n ++ "=" ++ formEncode v
  | (n, v) :: r => formEncode n ++ "=" ++ formEncode v ++ "&" ++ serialize r
  end.

Section Pay.

Variable config : Config.t.
Variable pay : PayConfig.t.

(** [new URL('/services/pay', base)] without its query: for the absolute
    base the service is configured with, the base's scheme and authority
    followed by the path. What the URL parser makes of the base is left to
    [siteOf]; a base that is no absolute URL (a TypeError) is not modelled. *)
Variable siteOf : string -> string.

(** The pairs [buildClickPayUrl] sets, in order. *)
Definition payParams (amount transactionParam returnUrl cardType : Js.Val) : Params :=
  let ps := set "service_id" (Js.toString (Config.serviceId config)) [] in
  let ps := set "merchant_id" (Js.toString (PayConfig.merchantId pay)) ps in
  let ps := set "amount" (Js.toString (Js.VNum (JsMath.round (Js.Number amount)))) ps in
  let ps := set "transaction_param" (Js.toString transactionParam) ps in
  let ps := if Js.truthy (JsMath.or returnUrl (PayConfig.returnUrl pay))
            then set "return_url"
                     (Js.toString (JsMath.or returnUrl (PayConfig.returnUrl pay))) ps
            else ps in
  if Js.truthy (JsMath.or cardType (PayConfig.cardType pay))
  then set "card_type" (Js.toString (JsMath.or cardType (PayConfig.cardType pay))) ps
  else ps.

(** [buildClickPayUrl({ amount, transactionParam, returnUrl, cardType })]. *)
Definition buildClickPayUrl (amount transactionParam returnUrl cardType : Js.Val)
  : string :=
  siteOf (PayConfig.baseUrl pay) ++ "/services/pay" ++ "?"
  ++ serialize (payParams amount transactionParam returnUrl cardType).

End Pay.

End PayUrl.


(** ** The rest of services/click.service.js *)

Module Json.

Definition quote : string := String (ascii_of_nat 34) EmptyString.

Definition lowerHex (d : Z) : ascii :=
  ascii_of_N (Z.to_N (if d <? 10 then 48 + d else 87 + d)).

Definition backslash (c : string) : string := String (ascii_of_nat 92) c.

(** [QuoteJSONString], byte by byte: the quote, the backslash and the control
    characters are escaped. *)
Fixpoint escape (l : list Z) : string :=
  match l with
  | [] => EmptyString
  | c :: r =>
      (if c =? 8 then backslash "b"
       else if c =? 9 then backslash "t"
       else if c =? 10 then backslash "n"
       else if c =? 12 then backslash "f"
       else if c =? 13 then backslash "r"
       else if c =? 34 then backslash quote
       else if c =? 92 then backslash (backslash EmptyString)
       else if c <? 32 then
         backslash ("u00" ++ String (lowerHex (c / 16))
                                    (String (lowerHex (c mod 16)) EmptyString))
       else String (ascii_of_N (Z.to_N c)) EmptyString)
      ++ escape r
  end.

Definition ofString (s : string) : string := quote ++ escape (Js.codes s) ++ quote.

(** A Number in JSON: NaN and the infinities are [null]. *)
Definition ofNumber (n : Js.Num) : string :=
  match n with
  | Js.Fin _ _ => Js.numToString n
  | _ => "null"
  end.

(** [JSON.stringify] of an object of scalars, its keys in insertion order
    (an [undefined] value drops its key). *)
Definition ofValue (v : Js.Val) : option string :=
  match v with
  | Js.VUndef => None
  | Js.VNull => Some "null"
  | Js.VBool b => Some (if b then "true" else "false")
  | Js.VNum n => Some (ofNumber n)
  | Js.VStr s => Some (ofString s)
  end.

Fixpoint members (fields : list (string * Js.Val)) : list string :=
  match fields with
  | [] => []
  | (k, v) :: r =>
      match ofValue v with
      | Some j => (ofString k ++ ":" ++ j) :: members r
      | None => members r
      end
  end.

Definition stringify (fields : list (string * Js.Val)) : string :=
  "{" ++ String.concat "," (members fields) ++ "}".

End Json.

Module ClickInvoices.

Section Service.

Variable config : Config.t.
Variable buildClickAuthHeader : Js.Val -> Js.Val -> string.

Let clickApiRequest := ClickService.clickApiRequest config buildClickAuthHeader.

Definition createInvoice (amount phoneNumber merchantTransId : Js.Val) : Prog Payload :=
  clickApiRequest "POST" "/invoice/create"
    (Some (Json.stringify
             [("service_id", Js.VNum (Js.Number (Config.serviceId config)));
              ("amount", Js.VNum (Js.Number amount));
              ("phone_number", Js.VStr (Js.toString phoneNumber));
              ("merchant_trans_id", Js.VStr (Js.toString merchantTransId))])).

Definition getInvoiceStatus (invoiceId : Js.Val) : Prog Payload :=
  clickApiRequest "GET"
    ("/invoice/status/" ++ ClickService.encodeURIComponent (Config.serviceId config)
     ++ "/" ++ ClickService.encodeURIComponent invoiceId)
    None.


End Service.

End ClickInvoices.

(** ** The rest of controllers/click.controller.js *)

(** What the remaining handlers answer with. *)
Inductive AnswerBody : Type :=
| CreatedBody (payment : Payment.t) (clickPayUrl : string)
| PaymentBody (payment : Payment.t)
| ResponseBody (response : Payload)
| ErrorBody (error message : string).

Inductive Answer : Type :=
| JsonAnswer (status : Z) (body : AnswerBody)
| RedirectTo (status : Z) (url : string)
| SendText (status : Z) (text : string).

(** A handler that creates a payment: it returns, throws, or awaits
    [paymentRepo.createPayment({ userId, amount, clickMerchantTransId })] and
    goes on with the row created. *)
Inductive Creating (A : Type) : Type :=
| Finished (a : A)
| Raised (e : Err)
| AwaitCreatePayment (userId amount : Js.Val) (clickMerchantTransId : string)
                     (k : Payment.t -> Creating A).

Arguments Finished {A} a.
Arguments Raised {A} e.
Arguments AwaitCreatePayment {A} userId amount clickMerchantTransId k.

Module ClickPayments.

Definition notFound : Answer :=
  JsonAnswer 404 (ErrorBody "NOT_FOUND" "Payment not found").

Definition invalidAmount : Answer :=
  SendText 400
    "Invalid amount. Example: /pay?amount=50000 or /pay?amount=50000&phone_number=998901234567".

Section Controller.

Variable config : Config.t.
Variable pay : PayConfig.t.
Variable siteOf : string -> string.
Variable buildClickAuthHeader : Js.Val -> Js.Val -> string.

(** [requireInt], [requireNumber] and [requireNonEmptyString]
    (utils/validation) are not part of the sources: each returns the value it
    accepts or the error it throws. *)
Variable requireInt : Js.Val -> string -> Err + Z.
Variable requireNumber : Js.Val -> string -> Err + Js.Num.
Variable requireNonEmptyString : Js.Val -> string -> Err + string.

Let buildClickPayUrl := PayUrl.buildClickPayUrl config pay siteOf.

(** [createPayment]; [uuid] is what [crypto.randomUUID()] drew. *)
Definition createPayment (user_id amount : Js.Val) (uuid : string) : Creating Answer :=
  match requireInt user_id "user_id" with
  | inl e => Raised e
  | inr userId =>
      match requireNumber amount "amount" with
      | inl e => Raised e
      | inr amount =>
          let clickMerchantTransId := uuid in
          AwaitCreatePayment (Js.VNum (ClickController.lit userId)) (Js.VNum amount)
            clickMerchantTransId
            (fun payment =>
               let clickPayUrl :=
                 buildClickPayUrl (Payment.amount payment)
                   (Js.VStr (Payment.click_merchant_trans_id payment))
                   Js.VUndef Js.VUndef in
               Finished (JsonAnswer 201 (CreatedBody payment clickPayUrl)))
      end
  end.

Definition getPayment (params_id : Js.Val) : Prog Answer :=
  match requireInt params_id "id" with
  | inl e => Throw e
  | inr id =>
      payment <- await (getPaymentById id) ;;
      match payment with
      | None => Ret notFound
      | Some payment => Ret (JsonAnswer 200 (PaymentBody payment))
      end
  end.

Definition redirectToClick (params_id : Js.Val) : Prog Answer :=
  match requireInt params_id "id" with
  | inl e => Throw e
  | inr id =>
      payment <- await (getPaymentById id) ;;
      match payment with
      | None => Ret notFound
      | Some payment =>
          let clickPayUrl :=
            buildClickPayUrl (Payment.amount payment)
              (Js.VStr (Payment.click_merchant_trans_id payment))
              Js.VUndef Js.VUndef in
          Ret (RedirectTo 302 clickPayUrl)
      end
  end.

Definition createInvoice (amount phone_number merchant_trans_id : Js.Val)
  : Prog Answer :=
  match requireNumber amount "amount" with
  | inl e => Throw e
  | inr amount =>
      match requireNonEmptyString phone_number "phone_number" with
      | inl e => Throw e
      | inr phoneNumber =>
          match requireNonEmptyString merchant_trans_id "merchant_trans_id" with
          | inl e => Throw e
          | inr merchantTransId =>
              response <- ClickInvoices.createInvoice config buildClickAuthHeader
                            (Js.VNum amount) (Js.VStr phoneNumber)
                            (Js.VStr merchantTransId) ;;
              Ret (JsonAnswer 200 (ResponseBody response))
          end
      end
  end.

Definition getInvoiceStatus (params_invoiceId : Js.Val) : Prog Answer :=
  match requireNonEmptyString params_invoiceId "invoiceId" with
  | inl e => Throw e
  | inr invoiceId =>
      response <- ClickInvoices.getInvoiceStatus config buildClickAuthHeader
                    (Js.VStr invoiceId) ;;
      Ret (JsonAnswer 200 (ResponseBody response))
  end.

(** [quickPay]: [amount] and [user_id] are the two query parameters read,
    [uuid] is what [crypto.randomUUID()] drew. *)
Definition quickPay (query_amount query_user_id : Js.Val) (uuid : string)
  : Creating Answer :=
  let amount := JsMath.parseFloat query_amount in
  let userId := if Js.truthy query_user_id then JsMath.parseInt query_user_id
                else ClickController.lit 1 in
  if Js.not (Js.VNum amount) || JsMath.leb0 amount then Finished invalidAmount
  else
    let clickMerchantTransId := uuid in
    AwaitCreatePayment (Js.VNum userId) (Js.VNum amount) clickMerchantTransId
      (fun payment =>
         let clickPayUrl :=
           buildClickPayUrl (Payment.amount payment)
             (Js.VStr (Payment.click_merchant_trans_id payment))
             Js.VUndef Js.VUndef in
         Finished (RedirectTo 302 clickPayUrl)).

End Controller.

End ClickPayments.

(** *** Running a handler that creates

    [create] is the repository's [createPayment]: the row it inserted and the
    new table, or nothing when the insert fails and the handler's [await]
    throws. *)

Definition CreateSem : Type :=
  Js.Val -> Js.Val -> string -> Table -> option Payment.t * Table.

Inductive Ended (A : Type) : Type :=
| Answered (a : A)
| Threw (e : Err)
| InsertFailed.

Arguments Answered {A} a.
Arguments Threw {A} e.
Arguments InsertFailed {A}.

(** One created row, as the handler asked for it. *)
Record Insert : Type := mkInsert {
  insUserId : Js.Val;
  insAmount : Js.Val;
  insMerchantTransId : string
}.

Fixpoint runCreating {A : Type} (create : CreateSem) (p : Creating A) (t : Table)
  : Ended A * Table * list Insert :=
  match p with
  | Finished a => (Answered a, t, [])
  | Raised e => (Threw e, t, [])
  | AwaitCreatePayment u a m k =>
      match create u a m t with
      | (Some payment, t') =>
          let '(x, t'', ins) := runCreating create (k payment) t' in
          (x, t'', mkInsert u a m :: ins)
      | (None, t') => (InsertFailed, t', [mkInsert u a m])
      end
  end.


(** ** Vocabulary of the further statements *)

Module Facts.

(** How often a character occurs in a string. *)
Fixpoint occurrences (c : ascii) (s : string) : nat :=
  match s with
  | EmptyString => O
  | String a r => if Ascii.eqb a c then S (occurrences c r) else occurrences c r
  end.

(** The characters that delimit the parts of a URL and of a query. *)
Definition delimiter (c : ascii) : Prop :=
  c = "/"%char \/ c = "?"%char \/ c = "#"%char \/ c = "&"%char \/ c = "="%char.


(** [config.click.apiBaseUrl] with its trailing slash. *)
Definition apiBase (config : Config.t) : string :=
  if ClickService.endsWithSlash (Config.apiBaseUrl config)
  then Config.apiBaseUrl config
  else Config.apiBaseUrl config ++ "/".

(** The headers of a gateway request, with and without a JSON body. *)
Definition requestHeaders (auth : string) (json : option string)
  : list (string * string) :=
  match json with
  | Some _ => [("Accept", "application/json"); ("Auth", auth);
               ("Content-Type", "application/json")]
  | None => [("Accept", "application/json"); ("Auth", auth)]
  end.

(** What [clickApiRequest] makes of the settled [fetch]. *)
Definition answerOf (r : FetchResult) : Err + Payload :=
  match r with
  | Rejected message => inl (NetworkError message)
  | Fulfilled res =>
      let payload :=
        if ClickService.includes "application/json"
             (match Response.contentType res with Some c => c | None => EmptyString end)
        then match Response.json res with Some j => j | None => PVal Js.VNull end
        else match Response.text res with
             | Some t => PVal (Js.VStr t)
             | None => PVal Js.VNull
             end in
      if Response.ok res then inr payload
      else inl (ClickApiError 502 (Response.status res) payload)
  end.

(** A Number greater than zero, [Infinity] included. *)
Definition positive (x : Js.Num) : Prop :=
  match x with
  | Js.Fin m _ => 0 < m
  | Js.Inf negative => negative = false
  | Js.NaN => False
  end.

(** The status a write of a run carries. *)
Definition writtenStatus (e : Event) : option Status :=
  match e with
  | Repo_ (updatePaymentStatusById _ st _) => Some st
  | _ => None
  end.

(** The repository calls of a run. *)
Fixpoint repoCalls (tr : list Event) : list RepoCall :=
  match tr with
  | [] => []
  | Repo_ c :: r => c :: repoCalls r
  | Http _ _ :: r => repoCalls r
  end.

(** The decimal digit [n], and a number in four and in two digits. *)
Definition digitChar (n : Z) : ascii := ascii_of_N (Z.to_N (48 + n)).

Definition fourDigits (n : Z) : string :=
  String (digitChar (n / 1000))
    (String (digitChar (n / 100 mod 10))
       (String (digitChar (n / 10 mod 10))
          (String (digitChar (n mod 10)) EmptyString))).

Definition twoDigits (n : Z) : string :=
  String (digitChar (n / 10)) (String (digitChar (n mod 10)) EmptyString).

(** The number a string of decimal digits, and nothing else, stands for. *)
Definition readNum (s : string) : option Z :=
  match Js.spanDigits 10 (Js.codes s) with
  | (d :: ds, []) => Some (Js.digitsVal 10 (d :: ds))
  | _ => None
  end.

(** Reads [yyyy-mm-dd] back: the year, the month (1 to 12) and the day. *)
Definition readDay (s : string) : option (Z * Z * Z) :=
  match s with
  | String y1 (String y2 (String y3 (String y4 (String "-"
      (String m1 (String m2 (String "-" (String d1 (String d2 EmptyString))))))))) =>
      match readNum (String y1 (String y2 (String y3 (String y4 EmptyString)))),
            readNum (String m1 (String m2 EmptyString)),
            readNum (String d1 (String d2 EmptyString)) with
      | Some y, Some m, Some d => Some (y, m, d)
      | _, _, _ => None
      end
  | _ => None
  end.

(** The integers from [a], [n] of them. *)
Fixpoint upFrom (a : Z) (n : nat) : list Z :=
  match n with O => [] | S k => a :: upFrom (a + 1) k end.

(** A run that ended with a Click answer (HTTP 200, the outcome in the JSON
    body) without calling the gateway, after at most two awaited operations. *)
Definition clickAnswered (o : (Err + Res) * Table * list Event) : Prop :=
  (exists reply, Checks.resultOf o = inr (mkRes 200 (ClickJson reply)))
  /\ Checks.fetchInits (Checks.traceOf o) = []
  /\ (List.length (Checks.traceOf o) <= 2)%nat.

End Facts.


(** ** Further cases *)

Module Cases.

(** A COMPLETE for payment 42 with a forged [sign_string]. *)
Definition completeForged : Body.t :=
  Body.mk (Js.VStr "7") (Js.VStr "100") (Js.VStr "abc") (Js.VStr "42")
          (Js.VStr "50000") Fixture.signTime (Js.VStr "deadbeef") (Js.VStr "0")
          (Js.VStr "1").




(** The pay page of the merchant, with a return URL and no card type. *)
Definition pay : PayConfig.t :=
  PayConfig.mk "https://my.click.uz" (Js.VStr "55")
               (Js.VStr "https://shop.example/back?a=1 2") Js.VUndef.

(** A stand-in for the URL parser on the configured base. *)
Definition siteOf (base : string) : string := base.

(** An identifier with a double quote in it, and the JSON text of an invoice
    request that carries it. *)
Definition quoted : string := "a" ++ Json.quote ++ "b".

Definition invoiceJson : string :=
  "{" ++ Json.quote ++ "service_id" ++ Json.quote ++ ":100,"
  ++ Json.quote ++ "amount" ++ Json.quote ++ ":120.5,"
  ++ Json.quote ++ "phone_number" ++ Json.quote ++ ":"
  ++ Json.quote ++ "998901234567" ++ Json.quote ++ ","
  ++ Json.quote ++ "merchant_trans_id" ++ Json.quote ++ ":"
  ++ Json.quote ++ "a" ++ Json.backslash Json.quote ++ "b" ++ Json.quote ++ "}".

(** A repository [createPayment] that appends the row with the next id. *)
Definition insert (userId amount : Js.Val) (clickMerchantTransId : string) (t : Table)
  : option Payment.t * Table :=
  let user := match Js.Number userId with
              | Js.Fin m e => if 0 <=? e then m * 2 ^ e else 0
              | _ => 0
              end in
  let payment := Payment.mk (Z.of_nat (List.length t) + 41) user amount
                            clickMerchantTransId Js.VNull PENDING (UtcDate 2024 0 16) in
  (Some payment, (t ++ [payment])%list).

End Cases.

(** Closed goals about the fixture are settled by evaluation. *)
Ltac evaluate :=
  unfold Checks.validComplete;
  repeat match goal with |- _ /\ _ => split end; vm_compute; reflexivity.

(** * Properties *)

(** ** The model's own checks: digests and coercions on fixed vectors *)

Example md5_rfc1321_vectors :
  Md5.md5Hex "" = "d41d8cd98f00b204e9800998ecf8427e"
  /\ Md5.md5Hex "abc" = "900150983cd24fb0d6963f7d28e17f72"
  /\ Md5.md5Hex "12345678901234567890123456789012345678901234567890123456789012345678901234567890"
     = "57edf4a22be3c955ac49da2e2107b67a".
Proof. repeat split; vm_compute; reflexivity. Qed.

Example number_of_strings :
  Js.Number (Js.VStr "50000.00") = Js.Number (Js.VStr "50000")
  /\ Js.Number (Js.VStr "") = Js.Fin 0 0
  /\ Js.Number (Js.VStr " 0x1F ") = Js.Fin 31 0
  /\ Js.Number (Js.VStr "0.1") = Js.Fin 3602879701896397 (-55)
  /\ Js.Number (Js.VStr "12px") = Js.NaN
  /\ Js.Number (Js.VStr "1e-400") = Js.Fin 0 0
  /\ Js.Number (Js.VStr "-1e400") = Js.Inf true.
Proof. repeat split; vm_compute; reflexivity. Qed.

Example string_of_numbers :
  Js.toString (Js.VNum (Js.Number (Js.VStr "50000.00"))) = "50000"
  /\ Js.toString (Js.VNum (Js.Number (Js.VStr "0.10"))) = "0.1"
  /\ Js.toString (Js.VNum (Js.Number (Js.VStr "1e21"))) = "1e+21"
  /\ Js.toString (Js.VNum (Js.Number (Js.VStr "-0.00000012"))) = "-1.2e-7".
Proof. repeat split; vm_compute; reflexivity. Qed.

Example fixture_signatures :
  Checks.signedWith
    (ClickAuth.buildClickMd5Signature (Checks.prepareSign Fixture.config Fixture.prepareOk))
    Fixture.prepareOk
  /\ Checks.signedWith
       (ClickAuth.buildClickMd5Signature (Checks.completeSign Fixture.config Fixture.completeOk))
       Fixture.completeOk.
Proof. split; vm_compute; reflexivity. Qed.

(** ** Coercions *)

Lemma missing_is_falsy (v : Js.Val) : Checks.missing v -> Js.not v = true.
Proof. intros [-> | ->]; reflexivity. Qed.

Lemma missing_is_nullish (v : Js.Val) : Checks.missing v -> Js.looseEqNull v = true.
Proof. intros [-> | ->]; reflexivity. Qed.

(** The falsy values, one by one. *)
Lemma falsy_values (v : Js.Val) :
  Js.truthy v = false <->
  v = Js.VUndef \/ v = Js.VNull \/ v = Js.VBool false \/ v = Js.VNum Js.NaN
  \/ (exists e, v = Js.VNum (Js.Fin 0 e)) \/ v = Js.VStr "".
Proof.
  split.
  - destruct v as [| | [] | [| b | m e] | s]; simpl; intros H; try discriminate; auto 6.
    + apply Bool.negb_false_iff, Z.eqb_eq in H. subst m. right; right; right; right; left.
      now exists e.
    + apply Bool.negb_false_iff, String.eqb_eq in H. subst s. auto 7.
  - intros [-> | [-> | [-> | [-> | [[e ->] | ->]]]]]; reflexivity.
Qed.

Lemma eqb_lit_refl (z : Z) : Js.eqb (ClickController.lit z) (ClickController.lit z) = true.
Proof. unfold ClickController.lit; simpl. apply Z.eqb_refl. Qed.

Lemma signed_passes (expected : string) (body : Body.t) :
  Checks.signedWith expected body ->
  Js.strictNeStr expected (Body.sign_string body) = false.
Proof.
  unfold Checks.signedWith. intros ->. simpl. now rewrite String.eqb_refl.
Qed.

Lemma tampered_fails (expected : string) (body : Body.t) :
  Checks.tampered expected body ->
  Js.strictNeStr expected (Body.sign_string body) = true.
Proof.
  unfold Checks.tampered. destruct (Body.sign_string body) as [| | b | n | s]; simpl; auto.
  intros H. apply Bool.negb_true_iff, String.eqb_neq. congruence.
Qed.

Lemma prepareFields_guard (body : Body.t) :
  Checks.prepareFields body = true ->
  Js.not (Body.click_trans_id body) || Js.not (Body.service_id body)
  || Js.not (Body.merchant_trans_id body) || Js.not (Body.amount body)
  || Js.looseEqNull (Body.action body) = false.
Proof.
  unfold Checks.prepareFields, Js.not.
  destruct (Js.truthy (Body.click_trans_id body)), (Js.truthy (Body.service_id body)),
    (Js.truthy (Body.merchant_trans_id body)), (Js.truthy (Body.amount body)),
    (Js.looseEqNull (Body.action body)); simpl; congruence.
Qed.

Lemma completeFields_guard (body : Body.t) :
  Checks.completeFields body = true ->
  Js.not (Body.click_trans_id body) || Js.not (Body.service_id body)
  || Js.not (Body.merchant_trans_id body) || Js.not (Body.merchant_prepare_id body)
  || Js.looseEqNull (Body.action body) = false.
Proof.
  unfold Checks.completeFields, Js.not.
  destruct (Js.truthy (Body.click_trans_id body)), (Js.truthy (Body.service_id body)),
    (Js.truthy (Body.merchant_trans_id body)), (Js.truthy (Body.merchant_prepare_id body)),
    (Js.looseEqNull (Body.action body)); simpl; congruence.
Qed.

(** ** Running a bound program *)

Lemma run_bind {A B : Type} (repo : Repo) (net : Net) (p : Prog A) (f : A -> Prog B) :
  forall t,
    run repo net (bind p f) t =
    match run repo net p t with
    | (inr a, t1, tr1) =>
        let '(x, t2, tr2) := run repo net (f a) t1 in (x, t2, (tr1 ++ tr2)%list)
    | (inl e, t1, tr1) => (inl e, t1, tr1)
    end.
Proof.
  induction p as [a | e | c k IH | u i k IH]; intros t; simpl.
  - destruct (run repo net (f a) t) as [[x t2] tr2]. reflexivity.
  - reflexivity.
  - destruct (perform repo c t) as [r t']. rewrite IH.
    destruct (run repo net (k r) t') as [[[e | a] t1] tr1]; [reflexivity |].
    destruct (run repo net (f a) t1) as [[x t2] tr2]. reflexivity.
  - rewrite IH.
    destruct (run repo net (k (net u i)) t) as [[[e | a] t1] tr1]; [reflexivity |].
    destruct (run repo net (f a) t1) as [[x t2] tr2]. reflexivity.
Qed.

(** ** PREPARE and COMPLETE: the checks before the first lookup *)

Section Callbacks.

Variable config : Config.t.
Variable buildClickMd5Signature : Sign.t -> string.

Let clickPrepare := ClickController.clickPrepare config buildClickMd5Signature.
Let clickComplete := ClickController.clickComplete config buildClickMd5Signature.
Let expectedPrepare (body : Body.t) := buildClickMd5Signature (Checks.prepareSign config body).
Let expectedComplete (body : Body.t) := buildClickMd5Signature (Checks.completeSign config body).



(** C10, as the code has it: presence is tested by truthiness, so a PREPARE
    whose [amount] is falsy (absent, null, false, the number 0, NaN or the
    empty string, see [falsy_values]) is answered -8 at once; the handler is
    that answer, so no lookup, amount comparison or success follows. *)
Theorem clickPrepare_falsy_amount (body : Body.t) :
  Js.truthy (Body.amount body) = false ->
  clickPrepare body = Ret (ClickController.clickError (-8) "Missing required parameters").
Proof.
  intros H. unfold clickPrepare, ClickController.clickPrepare, Js.not.
  rewrite H. simpl. now rewrite !Bool.orb_true_r.
Qed.

(** Past the presence, service-id and action checks, PREPARE answers a
    [sign_string] that is not the expected digest with -1. *)
Lemma clickPrepare_tampered (body : Body.t) :
  Checks.prepareFields body = true ->
  Checks.serviceIdMatches config body = true ->
  Checks.actionIs 0 body = true ->
  Checks.tampered (expectedPrepare body) body ->
  clickPrepare body = Ret (ClickController.clickError (-1) "Invalid signature").
Proof.
  intros Hf Hs Ha Ht. unfold clickPrepare, ClickController.clickPrepare.
  rewrite (prepareFields_guard _ Hf).
  unfold ClickController.neNum, ClickController.CLICK_ACTION_PREPARE.
  unfold Checks.serviceIdMatches in Hs. rewrite Hs.
  unfold Checks.actionIs in Ha. rewrite Ha. simpl negb. cbv iota.
  apply tampered_fails in Ht. unfold expectedPrepare, Checks.prepareSign in Ht.
  now rewrite Ht.
Qed.

Lemma clickComplete_tampered (body : Body.t) :
  Checks.completeFields body = true ->
  Checks.serviceIdMatches config body = true ->
  Checks.actionIs 1 body = true ->
  Checks.tampered (expectedComplete body) body ->
  clickComplete body = Ret (ClickController.clickError (-1) "Invalid signature").
Proof.
  intros Hf Hs Ha Ht. unfold clickComplete, ClickController.clickComplete.
  rewrite (completeFields_guard _ Hf).
  unfold ClickController.neNum, ClickController.CLICK_ACTION_COMPLETE.
  unfold Checks.serviceIdMatches in Hs. rewrite Hs.
  unfold Checks.actionIs in Ha. rewrite Ha. simpl negb. cbv iota.
  apply tampered_fails in Ht. unfold expectedComplete, Checks.completeSign in Ht.
  now rewrite Ht.
Qed.

(** C4, as the code has it: a null or absent [click_trans_id], [service_id],
    [merchant_trans_id], [amount] or [action] is answered -8 "Missing
    required parameters" before anything else is looked at: the handler is
    that answer, whatever the other fields hold and without a single awaited
    operation. [sign_time] and [sign_string] are not among the fields tested:
    a request without [sign_string] that passes the presence, service-id and
    action checks is answered -1 by the signature check. *)
Theorem clickPrepare_missing_required (body : Body.t) :
  (Checks.missing (Body.click_trans_id body) \/ Checks.missing (Body.service_id body)
   \/ Checks.missing (Body.merchant_trans_id body) \/ Checks.missing (Body.amount body)
   \/ Checks.missing (Body.action body) ->
   clickPrepare body
   = Ret (ClickController.clickError (-8) "Missing required parameters"))
  /\ (Checks.missing (Body.sign_string body) ->
      Checks.prepareFields body = true ->
      Checks.serviceIdMatches config body = true ->
      Checks.actionIs 0 body = true ->
      clickPrepare body = Ret (ClickController.clickError (-1) "Invalid signature")).
Proof.
  split.
  - intros H. unfold clickPrepare, ClickController.clickPrepare.
    assert (G : Js.not (Body.click_trans_id body) || Js.not (Body.service_id body)
                || Js.not (Body.merchant_trans_id body) || Js.not (Body.amount body)
                || Js.looseEqNull (Body.action body) = true).
    { destruct H as [H | [H | [H | [H | H]]]].
      - rewrite (missing_is_falsy _ H). reflexivity.
      - rewrite (missing_is_falsy _ H). now rewrite !Bool.orb_true_r.
      - rewrite (missing_is_falsy _ H). now rewrite !Bool.orb_true_r.
      - rewrite (missing_is_falsy _ H). now rewrite !Bool.orb_true_r.
      - rewrite (missing_is_nullish _ H). now rewrite !Bool.orb_true_r. }
    now rewrite G.
  - intros Hm Hf Hs Ha. apply clickPrepare_tampered; auto.
    unfold Checks.tampered. destruct Hm as [-> | ->]; discriminate.
Qed.

(** C5, as the code has it: the signature is the fourth check. A PREPARE
    (action 0) or COMPLETE (action 1) that passes the presence and service-id
    checks and whose [sign_string] is not the expected digest is answered -1,
    whatever the payment, its status, the amount and the remaining fields
    are: the handler is that answer and consults nothing else. *)
Theorem tampered_signature_rejected (body : Body.t) :
  Checks.serviceIdMatches config body = true ->
  (Checks.prepareFields body = true -> Checks.actionIs 0 body = true ->
   Checks.tampered (expectedPrepare body) body ->
   clickPrepare body = Ret (ClickController.clickError (-1) "Invalid signature"))
  /\ (Checks.completeFields body = true -> Checks.actionIs 1 body = true ->
      Checks.tampered (expectedComplete body) body ->
      clickComplete body = Ret (ClickController.clickError (-1) "Invalid signature")).
Proof.
  intros Hs. split; intros Hf Ha Ht.
  - now apply clickPrepare_tampered.
  - now apply clickComplete_tampered.
Qed.

End Callbacks.

(** ** PREPARE and COMPLETE against the store *)

Section Store.

Variable config : Config.t.
Variable buildClickMd5Signature : Sign.t -> string.
Variable repo : Repo.
Variable net : Net.

Let clickPrepare := ClickController.clickPrepare config buildClickMd5Signature.
Let clickComplete := ClickController.clickComplete config buildClickMd5Signature.
Let expectedPrepare (body : Body.t) := buildClickMd5Signature (Checks.prepareSign config body).
Let expectedComplete (body : Body.t) := buildClickMd5Signature (Checks.completeSign config body).

(** PREPARE, checks passed: one lookup, and the answer read off the row. *)
Lemma clickPrepare_checked (body : Body.t) :
  Checks.prepareFields body = true ->
  Checks.serviceIdMatches config body = true ->
  Checks.actionIs 0 body = true ->
  Checks.signedWith (expectedPrepare body) body ->
  clickPrepare body =
  AwaitRepo (getPaymentByMerchantTransId (Body.merchant_trans_id body))
    (fun payment =>
       match payment with
       | None => Ret (ClickController.clickError (-5) "Payment not found")
       | Some payment =>
           if Status_eqb (Payment.status payment) PAID
           then Ret (ClickController.clickError (-4) "Payment already processed")
           else if ClickController.neNum (Js.Number (Payment.amount payment))
                                         (Js.Number (Body.amount body))
           then Ret (ClickController.clickError (-2) "Invalid amount")
           else Ret (ClickController.json
                       (ClickJson
                          (Reply.mk (ClickController.lit 0) "Success"
                                    (Body.click_trans_id body)
                                    (Body.merchant_trans_id body)
                                    (Some (Payment.id payment)) None)))
       end).
Proof.
  intros Hf Hs Ha Hg. unfold clickPrepare, ClickController.clickPrepare.
  rewrite (prepareFields_guard _ Hf).
  unfold ClickController.neNum, ClickController.CLICK_ACTION_PREPARE.
  unfold Checks.serviceIdMatches in Hs. rewrite Hs.
  unfold Checks.actionIs in Ha. rewrite Ha. simpl negb. cbv iota.
  apply signed_passes in Hg. unfold expectedPrepare, Checks.prepareSign in Hg.
  rewrite Hg. simpl. f_equal.
Qed.

(** PREPARE never writes: whatever the request and the table, the table is
    the same afterwards and no status update is among the operations. *)
Lemma clickPrepare_frame (body : Body.t) (t : Table) :
  Checks.untouched t (run repo net (clickPrepare body) t).
Proof.
  unfold Checks.untouched, clickPrepare, ClickController.clickPrepare.
  repeat match goal with
         | |- context [if ?c then _ else _] => destruct c; simpl; auto
         | |- context [match ?o with Some _ => _ | None => _ end] =>
             destruct o; simpl; auto
         end.
Qed.


End Store.

Section Complete.

Variable config : Config.t.
Variable buildClickMd5Signature : Sign.t -> string.
Variable repo : Repo.
Variable net : Net.

Let clickPrepare := ClickController.clickPrepare config buildClickMd5Signature.
Let clickComplete := ClickController.clickComplete config buildClickMd5Signature.
Let expectedComplete (body : Body.t) := buildClickMd5Signature (Checks.completeSign config body).

(** What COMPLETE does with the row it found. *)
Let settle (body : Body.t) (payment : option Payment.t) : Prog Res :=
  match payment with
  | None => Ret (ClickController.clickError (-5) "Payment not found")
  | Some payment =>
      if ClickController.neNum (ClickController.lit (Payment.id payment))
                               (Js.Number (Body.merchant_prepare_id body))
      then Ret (ClickController.clickError (-5) "Payment not found")
      else if Status_eqb (Payment.status payment) PAID
      then Ret (ClickController.clickError (-4) "Payment already processed")
      else if Js.truthy (Body.error body)
              && ClickController.neNum (Js.Number (Body.error body)) (ClickController.lit 0)
      then
        AwaitRepo
          (updatePaymentStatusById (Payment.id payment)
             (if Js.ltb0 (Js.Number (Body.error body)) then CANCELED else FAILED)
             (Body.click_trans_id body))
          (fun _ =>
             Ret (ClickController.json
                    (ClickJson
                       (Reply.mk (Js.Number (Body.error body)) "Failed"
                                 (Body.click_trans_id body) (Body.merchant_trans_id body)
                                 None (Some (Payment.id payment))))))
      else if ClickController.neNum (Js.Number (Payment.amount payment))
                                    (Js.Number (Body.amount body))
      then Ret (ClickController.clickError (-2) "Invalid amount")
      else
        AwaitRepo
          (updatePaymentStatusById (Payment.id payment) PAID (Body.click_trans_id body))
          (fun _ =>
             Ret (ClickController.clickSuccess (Body.click_trans_id body)
                    (Body.merchant_trans_id body) (Payment.id payment)))
  end.

(** The checks COMPLETE makes before it looks the payment up. *)
Let checked (body : Body.t) : bool :=
  Checks.completeFields body && Checks.serviceIdMatches config body
  && Checks.actionIs 1 body
  && negb (Js.strictNeStr (expectedComplete body) (Body.sign_string body)).

(** COMPLETE is its four checks, one lookup, and [settle]. *)
Lemma clickComplete_shape (body : Body.t) :
  (checked body = true /\
   clickComplete body =
   AwaitRepo (getPaymentByMerchantTransId (Body.merchant_trans_id body)) (settle body))
  \/ (checked body = false /\
      exists code note,
        code <> 0 /\ clickComplete body = Ret (ClickController.clickError code note)).
Proof.
  unfold checked, clickComplete, ClickController.clickComplete,
    Checks.completeFields, Checks.serviceIdMatches, Checks.actionIs,
    expectedComplete, Checks.completeSign, ClickController.neNum, Js.not,
    ClickController.CLICK_ACTION_COMPLETE.
  destruct (Js.truthy (Body.click_trans_id body)); simpl;
    [| right; split; [reflexivity | exists (-8), "Missing required parameters"; split; [lia | reflexivity]]].
  destruct (Js.truthy (Body.service_id body)); simpl;
    [| right; split; [reflexivity | exists (-8), "Missing required parameters"; split; [lia | reflexivity]]].
  destruct (Js.truthy (Body.merchant_trans_id body)); simpl;
    [| right; split; [reflexivity | exists (-8), "Missing required parameters"; split; [lia | reflexivity]]].
  destruct (Js.truthy (Body.merchant_prepare_id body)); simpl;
    [| right; split; [reflexivity | exists (-8), "Missing required parameters"; split; [lia | reflexivity]]].
  destruct (Js.looseEqNull (Body.action body)); simpl;
    [right; split; [reflexivity | exists (-8), "Missing required parameters"; split; [lia | reflexivity]] |].
  destruct (Js.eqb (Js.Number (Body.service_id body)) (Js.Number (Config.serviceId config))); simpl;
    [| right; split; [reflexivity | exists (-8), "Invalid service_id"; split; [lia | reflexivity]]].
  destruct (Js.eqb (Js.Number (Body.action body)) (ClickController.lit 1)); simpl;
    [| right; split; [reflexivity | exists (-3), "Invalid action"; split; [lia | reflexivity]]].
  destruct (Js.strictNeStr _ (Body.sign_string body)); simpl;
    [right; split; [reflexivity | exists (-1), "Invalid signature"; split; [lia | reflexivity]] |].
  left. split; [reflexivity |]. unfold settle. f_equal.
Qed.

Lemma clickComplete_checked (body : Body.t) :
  Checks.completeFields body = true ->
  Checks.serviceIdMatches config body = true ->
  Checks.actionIs 1 body = true ->
  Checks.signedWith (expectedComplete body) body ->
  clickComplete body =
  AwaitRepo (getPaymentByMerchantTransId (Body.merchant_trans_id body)) (settle body).
Proof.
  intros Hf Hs Ha Hg.
  destruct (clickComplete_shape body) as [[_ E] | [C _]]; [exact E |].
  unfold checked in C. rewrite Hf, Hs, Ha, (signed_passes _ _ Hg) in C. discriminate.
Qed.

(** A number that is neither NaN nor zero is truthy, whatever scalar carried
    it. *)
Lemma nonzero_code_truthy (v : Js.Val) :
  Checks.nonzeroCode (Js.Number v) ->
  Js.truthy v && ClickController.neNum (Js.Number v) (ClickController.lit 0) = true.
Proof.
  intros [Hn Hz]. unfold ClickController.neNum. rewrite Hz. simpl.
  rewrite Bool.andb_true_r.
  destruct v as [| | [] | [| b | m e] | s]; simpl in *; try reflexivity;
    try congruence; try discriminate.
  - destruct (m =? 0) eqn:E; [| reflexivity].
    apply Z.eqb_eq in E. subst m. unfold ClickController.lit, Js.eqb in Hz.
    rewrite !Z.mul_0_l in Hz. discriminate.
  - destruct s; [| reflexivity]. vm_compute in Hz. discriminate.
Qed.

(** C6: a COMPLETE that passes the field, service-id, action and signature
    checks, finds its payment, carries that payment's id as
    [merchant_prepare_id], finds it not PAID, and carries a nonzero provider
    error code [x]: the one write it issues is
    [updatePaymentStatusById(payment.id, status, {clickPaymentId: click_trans_id})]
    with [status] CANCELED for a negative code and FAILED otherwise, so the
    table afterwards is what the repository makes of that call; the amount is
    never compared (nothing is assumed of it); and the answer echoes the
    code, with [merchant_confirm_id] the payment's id. *)
Theorem clickComplete_provider_error
  (body : Body.t) (t : Table) (payment : Payment.t) (x : Js.Num) :
  Checks.completeFields body = true ->
  Checks.serviceIdMatches config body = true ->
  Checks.actionIs 1 body = true ->
  Checks.signedWith (expectedComplete body) body ->
  findByMerchantTransId repo (Body.merchant_trans_id body) t = Some payment ->
  Js.eqb (ClickController.lit (Payment.id payment))
         (Js.Number (Body.merchant_prepare_id body)) = true ->
  Payment.status payment <> PAID ->
  Js.Number (Body.error body) = x ->
  Checks.nonzeroCode x ->
  let status := if Js.ltb0 x then CANCELED else FAILED in
  run repo net (clickComplete body) t =
  (inr (mkRes 200
          (ClickJson (Reply.mk x "Failed" (Body.click_trans_id body)
                               (Body.merchant_trans_id body)
                               None (Some (Payment.id payment))))),
   snd (updateStatus repo (Payment.id payment) status (Body.click_trans_id body) t),
   [Repo_ (getPaymentByMerchantTransId (Body.merchant_trans_id body));
    Repo_ (updatePaymentStatusById (Payment.id payment) status (Body.click_trans_id body))]).
Proof.
  intros Hf Hs Ha Hg Hp Hid Hst Hx Hnz status.
  rewrite (clickComplete_checked body Hf Hs Ha Hg). simpl.
  rewrite Hp. simpl. unfold ClickController.neNum at 1. rewrite Hid. simpl.
  subst status x.
  destruct (Payment.status payment) eqn:Est; try congruence; simpl;
    rewrite (nonzero_code_truthy _ Hnz); simpl;
    destruct (updateStatus repo (Payment.id payment) _ (Body.click_trans_id body) t)
      as [r t']; reflexivity.
Qed.

(** An accepted COMPLETE, once it has read a row that is not PAID, goes on to
    write PAID and answer success, whatever the write returns. *)
Lemma settle_accepted (body : Body.t) (payment : Payment.t) :
  Checks.validComplete config (expectedComplete body) body payment ->
  Payment.status payment <> PAID ->
  settle body (Some payment) =
  AwaitRepo
    (updatePaymentStatusById (Payment.id payment) PAID (Body.click_trans_id body))
    (fun _ =>
       Ret (ClickController.clickSuccess (Body.click_trans_id body)
              (Body.merchant_trans_id body) (Payment.id payment))).
Proof.
  intros (_ & _ & _ & _ & Hid & He & Ham) Hst. unfold settle, ClickController.neNum.
  rewrite Hid. simpl.
  destruct (Payment.status payment); try congruence; simpl;
    unfold Checks.providerError in He; rewrite He, Ham; reflexivity.
Qed.

(** C7: replaying a COMPLETE that was answered error 0, once the payment it
    names is stored as PAID, is answered -4 "Payment already processed"; the
    replay reads the payment and issues nothing else, so the table (status
    and [click_payment_id] included) is as the first delivery left it. *)
Theorem clickComplete_replay
  (body : Body.t) (t t1 : Table) (tr1 : list Event) (first : Reply.t) (paid : Payment.t) :
  run repo net (clickComplete body) t = (inr (mkRes 200 (ClickJson first)), t1, tr1) ->
  Reply.error first = ClickController.lit 0 ->
  findByMerchantTransId repo (Body.merchant_trans_id body) t1 = Some paid ->
  Payment.status paid = PAID ->
  Reply.merchant_confirm_id first = Some (Payment.id paid) ->
  run repo net (clickComplete body) t1 =
  (inr (ClickController.clickError (-4) "Payment already processed"),
   t1,
   [Repo_ (getPaymentByMerchantTransId (Body.merchant_trans_id body))]).
Proof.
  intros Hrun Herr Hp Hpaid Hid.
  destruct (clickComplete_shape body) as [[_ E] | [_ (code & note & Hc & E)]].
  2:{ rewrite E in Hrun. simpl in Hrun. injection Hrun as Hr _ _. subst first.
      simpl in Herr. unfold ClickController.lit in Herr. congruence. }
  rewrite E in Hrun |- *. simpl in Hrun |- *. rewrite Hp. simpl.
  assert (G : ClickController.neNum (ClickController.lit (Payment.id paid))
                (Js.Number (Body.merchant_prepare_id body)) = false).
  { destruct (findByMerchantTransId repo (Body.merchant_trans_id body) t) as [p |];
      simpl in Hrun.
    2:{ injection Hrun as Hr _ _. subst first. discriminate Herr. }
    destruct (ClickController.neNum (ClickController.lit (Payment.id p))
                (Js.Number (Body.merchant_prepare_id body))) eqn:Eid; simpl in Hrun.
    { injection Hrun as Hr _ _. subst first. discriminate Herr. }
    destruct (Status_eqb (Payment.status p) PAID); simpl in Hrun.
    { injection Hrun as Hr _ _. subst first. discriminate Herr. }
    destruct (Js.truthy (Body.error body)
              && ClickController.neNum (Js.Number (Body.error body)) (ClickController.lit 0))
      eqn:Eerr; simpl in Hrun.
    { destruct (updateStatus repo (Payment.id p) _ (Body.click_trans_id body) t) as [r t'].
      injection Hrun as Hr _ _. subst first. simpl in Herr.
      apply Bool.andb_true_iff in Eerr. destruct Eerr as [_ Eerr].
      rewrite Herr in Eerr. unfold ClickController.neNum in Eerr.
      rewrite eqb_lit_refl in Eerr. discriminate. }
    destruct (ClickController.neNum (Js.Number (Payment.amount p))
                (Js.Number (Body.amount body))); simpl in Hrun.
    { injection Hrun as Hr _ _. subst first. discriminate Herr. }
    destruct (updateStatus repo (Payment.id p) PAID (Body.click_trans_id body) t) as [r t'].
    injection Hrun as Hr _ _. subst first. simpl in Hid.
    injection Hid as Hid. rewrite <- Hid. exact Eid. }
  rewrite G, Hpaid. reflexivity.
Qed.

(** C2, as the code has it: PAID is the one status the callbacks guard, and
    they guard it on the row their lookup returns. A PREPARE or a COMPLETE
    whose lookup returns the payment as PAID changes nothing in the table and
    issues no status update, whatever else the request holds. When the
    lookup returns it in any other status, CANCELED and FAILED included, a
    COMPLETE that is accepted and carries no provider error issues the PAID
    write. *)
Theorem paid_blocks_callbacks (prepare complete : Body.t) (t : Table) (payment : Payment.t) :
  findByMerchantTransId repo (Body.merchant_trans_id prepare) t = Some payment ->
  findByMerchantTransId repo (Body.merchant_trans_id complete) t = Some payment ->
  (Payment.status payment = PAID ->
   Checks.untouched t (run repo net (clickPrepare prepare) t)
   /\ Checks.untouched t (run repo net (clickComplete complete) t))
  /\ (Payment.status payment <> PAID ->
      Checks.validComplete config (expectedComplete complete) complete payment ->
      Checks.writes (Checks.traceOf (run repo net (clickComplete complete) t))
      = [Repo_ (updatePaymentStatusById (Payment.id payment) PAID
                  (Body.click_trans_id complete))]).
Proof.
  intros _ Hp. split.
  - intros Hpaid. split; [apply clickPrepare_frame |].
    unfold Checks.untouched, Checks.tableOf, Checks.traceOf.
    destruct (clickComplete_shape complete) as [[_ E] | [_ (code & note & _ & E)]];
      rewrite E; simpl; [| auto].
    rewrite Hp. simpl.
    destruct (ClickController.neNum (ClickController.lit (Payment.id payment))
                (Js.Number (Body.merchant_prepare_id complete))); simpl; [auto |].
    rewrite Hpaid. simpl. auto.
  - intros Hst V. pose proof (settle_accepted complete payment V Hst) as S.
    destruct V as (F & Sv & A & G & _).
    rewrite (clickComplete_checked complete F Sv A G). cbn [run perform].
    rewrite Hp, S. cbn [run perform].
    destruct (updateStatus repo (Payment.id payment) PAID (Body.click_trans_id complete) t)
      as [r t']. reflexivity.
Qed.

(** C1, as the code has it: the status write is a plain
    [updatePaymentStatusById] issued after a separate read, and its result is
    not looked at. Of two accepted COMPLETEs for one PENDING payment: when
    both lookups come before either write, both go on to write PAID and both
    are answered error 0 "Success", whatever the repository's update does
    with the second write; when the first has run to its end and the second
    then reads the payment as PAID, the second is answered -4 and writes
    nothing. *)
Theorem concurrent_completes_both_succeed
  (b1 b2 : Body.t) (t : Table) (payment : Payment.t) :
  Checks.validComplete config (expectedComplete b1) b1 payment ->
  Checks.validComplete config (expectedComplete b2) b2 payment ->
  Body.merchant_trans_id b1 = Body.merchant_trans_id b2 ->
  findByMerchantTransId repo (Body.merchant_trans_id b1) t = Some payment ->
  Payment.status payment = PENDING ->
  let success (b : Body.t) :=
    ClickController.clickSuccess (Body.click_trans_id b) (Body.merchant_trans_id b)
      (Payment.id payment) in
  let lookup (b : Body.t) := Repo_ (getPaymentByMerchantTransId (Body.merchant_trans_id b)) in
  let write (b : Body.t) :=
    Repo_ (updatePaymentStatusById (Payment.id payment) PAID (Body.click_trans_id b)) in
  (forall sched, Checks.readsFirst sched ->
     exists (t' : Table) (tr : list (Tid * Event)),
       runPair repo net sched (clickComplete b1) (clickComplete b2) t
       = (Ret (success b1), Ret (success b2), t', tr)
       /\ In (T1, write b1) (Checks.writesOf tr)
       /\ In (T2, write b2) (Checks.writesOf tr)
       /\ List.length (Checks.writesOf tr) = 2%nat)
  /\ (forall paid,
        findByMerchantTransId repo (Body.merchant_trans_id b2)
          (snd (updateStatus repo (Payment.id payment) PAID (Body.click_trans_id b1) t))
        = Some paid ->
        Payment.status paid = PAID ->
        Payment.id paid = Payment.id payment ->
        runPair repo net [T1; T1; T2] (clickComplete b1) (clickComplete b2) t
        = (Ret (success b1),
           Ret (ClickController.clickError (-4) "Payment already processed"),
           snd (updateStatus repo (Payment.id payment) PAID (Body.click_trans_id b1) t),
           [(T1, lookup b1); (T1, write b1); (T2, lookup b2)])).
Proof.
  intros V1 V2 Hm Hp Hst success lookup write.
  assert (N : Payment.status payment <> PAID) by (rewrite Hst; discriminate).
  pose proof (settle_accepted b1 payment V1 N) as S1.
  pose proof (settle_accepted b2 payment V2 N) as S2.
  destruct V1 as (F1 & Sv1 & A1 & G1 & _).
  destruct V2 as (F2 & Sv2 & A2 & G2 & Hid2 & _).
  rewrite (clickComplete_checked b1 F1 Sv1 A1 G1), (clickComplete_checked b2 F2 Sv2 A2 G2).
  assert (Hp2 : findByMerchantTransId repo (Body.merchant_trans_id b2) t = Some payment)
    by (rewrite <- Hm; exact Hp).
  subst success lookup write. split.
  - intros sched Hs.
    destruct Hs as [-> | [-> | [-> | ->]]]; simpl; rewrite Hp, Hp2, S1, S2; simpl.
    + destruct (updateStatus repo (Payment.id payment) PAID (Body.click_trans_id b1) t)
        as [r1 t1].
      destruct (updateStatus repo (Payment.id payment) PAID (Body.click_trans_id b2) t1)
        as [r2 t2].
      exists t2. eexists. split; [reflexivity |]. simpl. auto.
    + destruct (updateStatus repo (Payment.id payment) PAID (Body.click_trans_id b2) t)
        as [r2 t2].
      destruct (updateStatus repo (Payment.id payment) PAID (Body.click_trans_id b1) t2)
        as [r1 t1].
      exists t1. eexists. split; [reflexivity |]. simpl. auto.
    + destruct (updateStatus repo (Payment.id payment) PAID (Body.click_trans_id b1) t)
        as [r1 t1].
      destruct (updateStatus repo (Payment.id payment) PAID (Body.click_trans_id b2) t1)
        as [r2 t2].
      exists t2. eexists. split; [reflexivity |]. simpl. auto.
    + destruct (updateStatus repo (Payment.id payment) PAID (Body.click_trans_id b2) t)
        as [r2 t2].
      destruct (updateStatus repo (Payment.id payment) PAID (Body.click_trans_id b1) t2)
        as [r1 t1].
      exists t1. eexists. split; [reflexivity |]. simpl. auto.
  - intros paid Hpaid Hps Hpid. simpl. rewrite Hp, S1. simpl.
    destruct (updateStatus repo (Payment.id payment) PAID (Body.click_trans_id b1) t)
      as [r1 t1]. simpl in Hpaid |- *. rewrite Hpaid. simpl.
    unfold ClickController.neNum. rewrite Hpid, Hid2, Hps. reflexivity.
Qed.

End Complete.

(** ** Status synchronization and reversal *)

Section Gateway.

Variable config : Config.t.
Variable buildClickAuthHeader : Js.Val -> Js.Val -> string.
Variable requireInt : Js.Val -> string -> Err + Z.
Variable repo : Repo.
Variable net : Net.

Let syncPaymentStatusFromClick :=
  ClickController.syncPaymentStatusFromClick config buildClickAuthHeader requireInt.
Let reversePayment :=
  ClickController.reversePayment config buildClickAuthHeader requireInt.
Let queryStatus := ClickService.getPaymentStatusByMerchantTransId config buildClickAuthHeader.

(** One gateway request: a single [fetch], without an abort signal, that does
    not touch the table; a rejected [fetch] and a non-2xx answer are thrown. *)
Lemma clickApiRequest_run (method path : string) (t : Table) :
  exists url init x,
    run repo net (ClickService.clickApiRequest config buildClickAuthHeader method path None) t
    = (x, t, [Http url init])
    /\ Init.signal init = None
    /\ (Checks.gatewayFails net -> exists e, x = inl e /\ Checks.gatewayError e).
Proof.
  unfold ClickService.clickApiRequest. cbn [bind fetch run].
  match goal with
  | |- context [net ?u ?i] => remember u as url eqn:Eu; remember i as init eqn:Ei
  end.
  exists url, init. destruct (net url init) as [m | res] eqn:E.
  - eexists. split; [reflexivity |]. split; [subst init; reflexivity |].
    intros _. eexists. split; [reflexivity | exact I].
  - cbn [bind]. destruct (Response.ok res) eqn:Eok; cbn [negb run].
    + eexists. split; [reflexivity |]. split; [subst init; reflexivity |].
      intros H. specialize (H url init). rewrite E in H. congruence.
    + eexists. split; [reflexivity |]. split; [subst init; reflexivity |].
      intros _. eexists. split; [reflexivity | exact I].
Qed.

Lemma clickApiRequest_op (method path : string) :
  Checks.gatewayOp repo net
    (ClickService.clickApiRequest config buildClickAuthHeader method path None).
Proof.
  intros t. destruct (clickApiRequest_run method path t) as (u & i & x & E & Hs & Hf).
  exists x, [Http u i]. split; [exact E |]. split; [reflexivity |].
  split; [constructor; [exact Hs | constructor] |].
  split; [intros H _; exact (Hf H) | discriminate].
Qed.

Lemma queryStatus_op (merchantTransId : Js.Val) (createdAt : JsDate) :
  Checks.gatewayOp repo net (queryStatus merchantTransId createdAt).
Proof.
  unfold queryStatus, ClickService.getPaymentStatusByMerchantTransId.
  destruct (ClickService.toYYYYMMDD createdAt) as [e | day].
  - intros t. exists (inl e), []. simpl. repeat split; auto.
    + intros _ H. now elim H.
    + intros _. now exists e.
  - apply clickApiRequest_op.
Qed.

Lemma reversal_op (paymentId : Js.Val) :
  Checks.gatewayOp repo net
    (ClickService.reversePayment config buildClickAuthHeader paymentId).
Proof. unfold ClickService.reversePayment. apply clickApiRequest_op. Qed.

Lemma fetchInits_app (a b : list Event) :
  Checks.fetchInits (a ++ b) = (Checks.fetchInits a ++ Checks.fetchInits b)%list.
Proof.
  induction a as [| [c | u i] a IH]; simpl; [reflexivity | exact IH | now rewrite IH].
Qed.

(** Synchronization, step by step: the id, the row, the gateway's answer, and
    then the write if the answer carries a numeric [payment_status]. *)
Lemma sync_run (params_id : Js.Val) (t : Table) :
  let o := run repo net (syncPaymentStatusFromClick params_id) t in
  match requireInt params_id "id" with
  | inl e => o = (inl e, t, [])
  | inr id =>
      match findById repo id t with
      | None => o = (inr ClickController.notFound, t, [Repo_ (getPaymentById id)])
      | Some payment =>
          exists x tr,
            run repo net
              (queryStatus (Js.VStr (Payment.click_merchant_trans_id payment))
                           (Payment.created_at payment)) t = (x, t, tr)
            /\ match x with
               | inl e => o = (inl e, t, Repo_ (getPaymentById id) :: tr)
               | inr response =>
                   if negb (Js.looseEqNull (ClickController.clickPaymentStatusOf response))
                   then
                     let c := updatePaymentStatusById (Payment.id payment)
                                (ClickController.mapClickPaymentStatusToLocal
                                   (ClickController.clickPaymentStatusOf response))
                                (ClickController.clickPaymentIdOf response) in
                     o = (inr (ClickController.json
                                 (ClickPaymentJson response (fst (perform repo c t)))),
                          snd (perform repo c t),
                          Repo_ (getPaymentById id) :: (tr ++ [Repo_ c])%list)
                   else
                     o = (inr (ClickController.json
                                 (ClickPaymentJson response (Some payment))),
                          t, Repo_ (getPaymentById id) :: (tr ++ [])%list)
               end
      end
  end.
Proof.
  unfold syncPaymentStatusFromClick, ClickController.syncPaymentStatusFromClick.
  destruct (requireInt params_id "id") as [e | id]; [reflexivity |].
  cbn [bind await run perform].
  destruct (findById repo id t) as [payment |]; [| reflexivity].
  cbn [bind]. fold queryStatus.
  destruct (queryStatus_op (Js.VStr (Payment.click_merchant_trans_id payment))
              (Payment.created_at payment) t) as (x & tr & E & _).
  exists x, tr. split; [exact E |].
  rewrite run_bind, E. destruct x as [e | response]; [reflexivity |].
  destruct (negb (Js.looseEqNull (ClickController.clickPaymentStatusOf response))).
  - cbn [bind await run perform fst snd]. cbv zeta.
    destruct (updateStatus repo _ _ _ t) as [r t']. reflexivity.
  - reflexivity.
Qed.

(** Reversal, step by step. *)
Lemma reverse_run (params_id : Js.Val) (t : Table) :
  let o := run repo net (reversePayment params_id) t in
  match requireInt params_id "id" with
  | inl e => o = (inl e, t, [])
  | inr id =>
      match findById repo id t with
      | None => o = (inr ClickController.notFound, t, [Repo_ (getPaymentById id)])
      | Some payment =>
          if Js.not (Payment.click_payment_id payment)
          then exists res, o = (inr res, t, [Repo_ (getPaymentById id)])
          else
            exists x tr,
              run repo net
                (ClickService.reversePayment config buildClickAuthHeader
                   (Payment.click_payment_id payment)) t = (x, t, tr)
              /\ match x with
                 | inl e => o = (inl e, t, Repo_ (getPaymentById id) :: tr)
                 | inr response =>
                     let c := updatePaymentStatusById (Payment.id payment) CANCELED
                                                      Js.VUndef in
                     o = (inr (ClickController.json
                                 (ClickPaymentJson response (fst (perform repo c t)))),
                          snd (perform repo c t),
                          Repo_ (getPaymentById id) :: (tr ++ [Repo_ c])%list)
                 end
      end
  end.
Proof.
  unfold reversePayment, ClickController.reversePayment.
  destruct (requireInt params_id "id") as [e | id]; [reflexivity |].
  cbn [bind await run perform].
  destruct (findById repo id t) as [payment |]; [| reflexivity].
  cbn [bind].
  destruct (Js.not (Payment.click_payment_id payment)); [eexists; reflexivity |].
  destruct (reversal_op (Payment.click_payment_id payment) t) as (x & tr & E & _).
  exists x, tr. split; [exact E |].
  rewrite run_bind, E. destruct x as [e | response]; [reflexivity |].
  cbn [bind await run perform fst snd]. cbv zeta.
  destruct (updateStatus repo _ _ _ t) as [r t']. reflexivity.
Qed.

Lemma status_of_numeric_answer (response : Payload) (n : Js.Num) :
  ClickController.prop response "payment_status" = Js.VNum n ->
  ClickController.clickPaymentStatusOf response = Js.VNum n.
Proof.
  intros H. unfold ClickController.clickPaymentStatusOf.
  destruct response as [v | fields]; [discriminate H |].
  rewrite H. reflexivity.
Qed.

(** C3, as the code has it: synchronization has no guard on the payment's
    status. Whenever the gateway's answer carries a numeric [payment_status],
    the one write it issues is
    [updatePaymentStatusById(payment.id, status, {clickPaymentId})] with
    [status] PAID for 1 and PENDING for any other number, whatever status the
    payment has (nothing is assumed of it): the table afterwards is what the
    repository makes of that call, and the updated row is sent back. When the
    answer carries no numeric [payment_status], nothing is written. *)
Theorem sync_writes_reported_status
  (params_id : Js.Val) (id : Z) (t : Table) (payment : Payment.t) (response : Payload) :
  requireInt params_id "id" = inr id ->
  findById repo id t = Some payment ->
  Checks.resultOf
    (run repo net
       (queryStatus (Js.VStr (Payment.click_merchant_trans_id payment))
                    (Payment.created_at payment)) t) = inr response ->
  let clickPaymentId := ClickController.clickPaymentIdOf response in
  let o := run repo net (syncPaymentStatusFromClick params_id) t in
  (forall n : Js.Num,
     ClickController.prop response "payment_status" = Js.VNum n ->
     let status := if Js.eqb n (ClickController.lit 1) then PAID else PENDING in
     Checks.writes (Checks.traceOf o)
     = [Repo_ (updatePaymentStatusById (Payment.id payment) status clickPaymentId)]
     /\ Checks.tableOf o
        = snd (updateStatus repo (Payment.id payment) status clickPaymentId t)
     /\ Checks.resultOf o
        = inr (mkRes 200
                 (ClickPaymentJson response
                    (fst (updateStatus repo (Payment.id payment) status clickPaymentId t)))))
  /\ (ClickController.isNumber (ClickController.prop response "payment_status") = false ->
      Checks.untouched t o).
Proof.
  intros Hreq Hfind Hres clickPaymentId o.
  pose proof (sync_run params_id t) as R. cbv zeta in R.
  rewrite Hreq, Hfind in R. destruct R as (x & tr & E & R).
  destruct (queryStatus_op (Js.VStr (Payment.click_merchant_trans_id payment))
              (Payment.created_at payment) t) as (x' & tr' & E' & Hw & _).
  rewrite E in E'. injection E' as <- <-.
  rewrite E in Hres. cbn in Hres. subst x. split.
  - intros n Hn status.
    rewrite (status_of_numeric_answer _ _ Hn) in R. cbn [Js.looseEqNull negb] in R.
    cbn [ClickController.mapClickPaymentStatusToLocal perform fst snd] in R.
    subst o. rewrite R. unfold Checks.traceOf, Checks.tableOf, Checks.resultOf.
    cbn [fst snd]. split; [| split; reflexivity].
    unfold Checks.writes in *. cbn [filter isWrite]. rewrite filter_app, Hw. reflexivity.
  - intros Hn.
    assert (G : ClickController.clickPaymentStatusOf response = Js.VNull).
    { unfold ClickController.clickPaymentStatusOf. rewrite Hn.
      now rewrite Bool.andb_false_r. }
    rewrite G in R. cbn [Js.looseEqNull negb] in R. subst o. rewrite R.
    unfold Checks.untouched, Checks.traceOf, Checks.tableOf. cbn [fst snd].
    split; [reflexivity |].
    unfold Checks.writes in *. cbn [filter isWrite]. rewrite filter_app, Hw. reflexivity.
Qed.

(** No gateway call of a synchronization or a reversal carries an abort
    signal, whatever the gateway answers. *)
Lemma gateway_calls_carry_no_signal (params_id : Js.Val) (t : Table) :
  Checks.noTimeout (run repo net (syncPaymentStatusFromClick params_id) t)
  /\ Checks.noTimeout (run repo net (reversePayment params_id) t).
Proof.
  unfold Checks.noTimeout, Checks.traceOf. split.
  - pose proof (sync_run params_id t) as R. cbv zeta in R.
    destruct (requireInt params_id "id") as [e | id]; [rewrite R; constructor |].
    destruct (findById repo id t) as [payment |]; [| rewrite R; constructor].
    destruct R as (x & tr & E & R).
    destruct (queryStatus_op (Js.VStr (Payment.click_merchant_trans_id payment))
                (Payment.created_at payment) t) as (x' & tr' & E' & _ & Hsig & _).
    rewrite E in E'. injection E' as <- <-.
    destruct x as [e | response]; [rewrite R; exact Hsig |].
    destruct (negb (Js.looseEqNull (ClickController.clickPaymentStatusOf response)));
      rewrite R; cbn [snd Checks.fetchInits]; rewrite fetchInits_app;
      cbn [Checks.fetchInits]; now rewrite app_nil_r.
  - pose proof (reverse_run params_id t) as R. cbv zeta in R.
    destruct (requireInt params_id "id") as [e | id]; [rewrite R; constructor |].
    destruct (findById repo id t) as [payment |]; [| rewrite R; constructor].
    destruct (Js.not (Payment.click_payment_id payment)).
    { destruct R as (res & R). rewrite R. constructor. }
    destruct R as (x & tr & E & R).
    destruct (reversal_op (Payment.click_payment_id payment) t)
      as (x' & tr' & E' & _ & Hsig & _).
    rewrite E in E'. injection E' as <- <-.
    destruct x as [e | response]; [rewrite R; exact Hsig |].
    rewrite R. cbn [snd Checks.fetchInits]. rewrite fetchInits_app.
    cbn [Checks.fetchInits]. now rewrite app_nil_r.
Qed.

(** C9, as the code has it: no gateway call of synchronization or reversal
    carries an abort signal (so none is bounded by a timeout of the code's
    making); and when the gateway fails (the [fetch] rejects or the answer is
    not 2xx) both operations leave the table as it was, issue no status
    update, and end by throwing the call's error to their caller. *)
Theorem gateway_failure_leaves_payment (params_id : Js.Val) (t : Table) :
  let s := run repo net (syncPaymentStatusFromClick params_id) t in
  let r := run repo net (reversePayment params_id) t in
  (Checks.noTimeout s /\ Checks.noTimeout r)
  /\ (Checks.gatewayFails net ->
      (Checks.untouched t s /\ (Checks.calledGateway s -> Checks.failedUpward s))
      /\ (Checks.untouched t r /\ (Checks.calledGateway r -> Checks.failedUpward r))).
Proof.
  intros s r. split; [apply gateway_calls_carry_no_signal |]. intros Hfail. split.
  - pose proof (sync_run params_id t) as R. cbv zeta in R. fold s in R.
    unfold Checks.untouched, Checks.calledGateway, Checks.failedUpward,
      Checks.traceOf, Checks.tableOf, Checks.resultOf.
    destruct (requireInt params_id "id") as [e | id].
    { rewrite R. cbn. repeat split; auto. intros H. now elim H. }
    destruct (findById repo id t) as [payment |].
    2:{ rewrite R. cbn. repeat split; auto. intros H. now elim H. }
    destruct R as (x & tr & E & R).
    destruct (queryStatus_op (Js.VStr (Payment.click_merchant_trans_id payment))
                (Payment.created_at payment) t) as (x' & tr' & E' & Hw & Hsig & Hf & Hnc).
    rewrite E in E'. injection E' as <- <-.
    destruct x as [e | response].
    + rewrite R. cbn. repeat split; auto.
      intros H. destruct (Hf Hfail H) as (e' & He & Hg). exists e'. split; congruence.
    + exfalso. destruct (Checks.fetchInits tr) eqn:Ei.
      * destruct (Hnc eq_refl) as (e & He). discriminate.
      * destruct (Hf Hfail) as (e & He & _); [discriminate | discriminate].
  - pose proof (reverse_run params_id t) as R. cbv zeta in R. fold r in R.
    unfold Checks.untouched, Checks.calledGateway, Checks.failedUpward,
      Checks.traceOf, Checks.tableOf, Checks.resultOf.
    destruct (requireInt params_id "id") as [e | id].
    { rewrite R. cbn. repeat split; auto. intros H. now elim H. }
    destruct (findById repo id t) as [payment |].
    2:{ rewrite R. cbn. repeat split; auto. intros H. now elim H. }
    destruct (Js.not (Payment.click_payment_id payment)).
    { destruct R as (res & R). rewrite R. cbn. repeat split; auto. intros H. now elim H. }
    destruct R as (x & tr & E & R).
    destruct (reversal_op (Payment.click_payment_id payment) t)
      as (x' & tr' & E' & Hw & Hsig & Hf & Hnc).
    rewrite E in E'. injection E' as <- <-.
    destruct x as [e | response].
    + rewrite R. cbn. repeat split; auto.
      intros H. destruct (Hf Hfail H) as (e' & He & Hg). exists e'. split; congruence.
    + exfalso. destruct (Checks.fetchInits tr) eqn:Ei.
      * destruct (Hnc eq_refl) as (e & He). discriminate.
      * destruct (Hf Hfail) as (e & He & _); [discriminate | discriminate].
Qed.

End Gateway.


(** ** Further outcomes of the handlers *)

Section Further.

Variable config : Config.t.
Variable buildClickMd5Signature : Sign.t -> string.
Variable buildClickAuthHeader : Js.Val -> Js.Val -> string.
Variable requireInt : Js.Val -> string -> Err + Z.
Variable repo : Repo.
Variable net : Net.

Let clickPrepare := ClickController.clickPrepare config buildClickMd5Signature.
Let clickComplete := ClickController.clickComplete config buildClickMd5Signature.
Let clickSingleEndpoint := ClickController.clickSingleEndpoint config buildClickMd5Signature.
Let reversePayment :=
  ClickController.reversePayment config buildClickAuthHeader requireInt.
Let expectedPrepare (body : Body.t) := buildClickMd5Signature (Checks.prepareSign config body).
Let expectedComplete (body : Body.t) := buildClickMd5Signature (Checks.completeSign config body).

(** X1: a callback that passes the four checks and names no stored payment is
    answered -5 "Payment not found", by PREPARE and by COMPLETE alike, after
    the one lookup. *)
Theorem unknown_payment_not_found (body : Body.t) (t : Table) :
  Checks.serviceIdMatches config body = true ->
  findByMerchantTransId repo (Body.merchant_trans_id body) t = None ->
  (Checks.prepareFields body = true -> Checks.actionIs 0 body = true ->
   Checks.signedWith (expectedPrepare body) body ->
   run repo net (clickPrepare body) t
   = (inr (ClickController.clickError (-5) "Payment not found"), t,
      [Repo_ (getPaymentByMerchantTransId (Body.merchant_trans_id body))]))
  /\ (Checks.completeFields body = true -> Checks.actionIs 1 body = true ->
      Checks.signedWith (expectedComplete body) body ->
      run repo net (clickComplete body) t
      = (inr (ClickController.clickError (-5) "Payment not found"), t,
         [Repo_ (getPaymentByMerchantTransId (Body.merchant_trans_id body))])).
Proof.
  intros Hs Hp. split; intros Hf Ha Hg.
  - unfold clickPrepare.
    rewrite (clickPrepare_checked config buildClickMd5Signature body Hf Hs Ha Hg).
    cbn [run perform]. rewrite Hp. reflexivity.
  - unfold clickComplete.
    rewrite (clickComplete_checked config buildClickMd5Signature body Hf Hs Ha Hg).
    cbn [run perform]. rewrite Hp. reflexivity.
Qed.

(** X2: a COMPLETE that passes the four checks with a [merchant_prepare_id] that
    is not the payment's id is answered -5 as well, and writes nothing. *)
Theorem clickComplete_prepare_id_mismatch (body : Body.t) (t : Table) (payment : Payment.t) :
  Checks.completeFields body = true ->
  Checks.serviceIdMatches config body = true ->
  Checks.actionIs 1 body = true ->
  Checks.signedWith (expectedComplete body) body ->
  findByMerchantTransId repo (Body.merchant_trans_id body) t = Some payment ->
  Js.eqb (ClickController.lit (Payment.id payment))
         (Js.Number (Body.merchant_prepare_id body)) = false ->
  run repo net (clickComplete body) t
  = (inr (ClickController.clickError (-5) "Payment not found"), t,
     [Repo_ (getPaymentByMerchantTransId (Body.merchant_trans_id body))]).
Proof.
  intros Hf Hs Ha Hg Hp Hid. unfold clickComplete.
  rewrite (clickComplete_checked config buildClickMd5Signature body Hf Hs Ha Hg).
  cbn [run perform]. rewrite Hp. unfold ClickController.neNum. rewrite Hid. reflexivity.
Qed.

(** X3: a COMPLETE without provider error whose amount differs from the
    payment's is answered -2 "Invalid amount" and writes nothing. *)
Theorem clickComplete_amount_mismatch (body : Body.t) (t : Table) (payment : Payment.t) :
  Checks.completeFields body = true ->
  Checks.serviceIdMatches config body = true ->
  Checks.actionIs 1 body = true ->
  Checks.signedWith (expectedComplete body) body ->
  findByMerchantTransId repo (Body.merchant_trans_id body) t = Some payment ->
  Js.eqb (ClickController.lit (Payment.id payment))
         (Js.Number (Body.merchant_prepare_id body)) = true ->
  Payment.status payment <> PAID ->
  Checks.providerError body = false ->
  Js.eqb (Js.Number (Payment.amount payment)) (Js.Number (Body.amount body)) = false ->
  run repo net (clickComplete body) t
  = (inr (ClickController.clickError (-2) "Invalid amount"), t,
     [Repo_ (getPaymentByMerchantTransId (Body.merchant_trans_id body))]).
Proof.
  intros Hf Hs Ha Hg Hp Hid Hst He Ham. unfold clickComplete.
  rewrite (clickComplete_checked config buildClickMd5Signature body Hf Hs Ha Hg).
  cbn [run perform]. rewrite Hp. unfold ClickController.neNum. rewrite Hid.
  unfold Checks.providerError in He.
  destruct (Payment.status payment); try congruence; cbn [negb Status_eqb];
    rewrite He, Ham; reflexivity.
Qed.

(** X4: an accepted COMPLETE without provider error, for a payment that is
    not PAID: the one write is
    [updatePaymentStatusById(payment.id, 'PAID', {clickPaymentId: click_trans_id})]
    and the answer is error 0 "Success" with [merchant_confirm_id] the
    payment's id. *)
Theorem clickComplete_success (body : Body.t) (t : Table) (payment : Payment.t) :
  Checks.validComplete config (expectedComplete body) body payment ->
  findByMerchantTransId repo (Body.merchant_trans_id body) t = Some payment ->
  Payment.status payment <> PAID ->
  run repo net (clickComplete body) t
  = (inr (mkRes 200
            (ClickJson (Reply.mk (ClickController.lit 0) "Success"
                                 (Body.click_trans_id body) (Body.merchant_trans_id body)
                                 None (Some (Payment.id payment))))),
     snd (updateStatus repo (Payment.id payment) PAID (Body.click_trans_id body) t),
     [Repo_ (getPaymentByMerchantTransId (Body.merchant_trans_id body));
      Repo_ (updatePaymentStatusById (Payment.id payment) PAID (Body.click_trans_id body))]).
Proof.
  intros V Hp Hst.
  pose proof (settle_accepted config buildClickMd5Signature body payment V Hst) as S.
  destruct V as (F & Sv & A & G & _). unfold clickComplete.
  rewrite (clickComplete_checked config buildClickMd5Signature body F Sv A G).
  cbn [run perform]. rewrite Hp, S. cbn [run perform].
  destruct (updateStatus repo (Payment.id payment) PAID (Body.click_trans_id body) t)
    as [r t']. reflexivity.
Qed.

(** X5: the single endpoint hands the request to PREPARE when [Number(action)] is
    0, to COMPLETE when it is 1, and answers -3 "Invalid action" otherwise. *)
Theorem clickSingleEndpoint_dispatch (body : Body.t) :
  (Checks.actionIs 0 body = true -> clickSingleEndpoint body = clickPrepare body)
  /\ (Checks.actionIs 1 body = true -> clickSingleEndpoint body = clickComplete body)
  /\ (Checks.actionIs 0 body = false -> Checks.actionIs 1 body = false ->
      clickSingleEndpoint body = Ret (ClickController.clickError (-3) "Invalid action")).
Proof.
  unfold clickSingleEndpoint, ClickController.clickSingleEndpoint, Checks.actionIs,
    ClickController.CLICK_ACTION_PREPARE, ClickController.CLICK_ACTION_COMPLETE.
  repeat split.
  - intros ->. reflexivity.
  - intros H1.
    destruct (Js.eqb (Js.Number (Body.action body)) (ClickController.lit 0)) eqn:H0.
    + exfalso. destruct (Js.Number (Body.action body)) as [| b | m e]; try discriminate.
      unfold ClickController.lit, Js.eqb in H0, H1.
      apply Z.eqb_eq in H0. apply Z.eqb_eq in H1.
      rewrite Z.mul_0_l in H0. rewrite H0 in H1.
      assert (0 < 2 ^ (0 - Z.min e 0)) by (apply Z.pow_pos_nonneg; lia). lia.
    + rewrite H1. reflexivity.
  - intros -> ->. reflexivity.
Qed.

(** X6: reversal without a stored [click_payment_id] answers 409 and calls
    nothing; with one, once the gateway has answered, it writes CANCELED
    whatever status the payment has. *)
Theorem reversePayment_outcomes
  (params_id : Js.Val) (id : Z) (t : Table) (payment : Payment.t) :
  requireInt params_id "id" = inr id ->
  findById repo id t = Some payment ->
  let o := run repo net (reversePayment params_id) t in
  (Js.truthy (Payment.click_payment_id payment) = false ->
   o = (inr (mkRes 409
               (ErrorJson "MISSING_CLICK_PAYMENT_ID"
                  "Cannot reverse without click_payment_id (sync status first)")),
        t, [Repo_ (getPaymentById id)]))
  /\ (Js.truthy (Payment.click_payment_id payment) = true ->
      forall response,
        Checks.resultOf
          (run repo net
             (ClickService.reversePayment config buildClickAuthHeader
                (Payment.click_payment_id payment)) t) = inr response ->
        Checks.writes (Checks.traceOf o)
        = [Repo_ (updatePaymentStatusById (Payment.id payment) CANCELED Js.VUndef)]
        /\ Checks.tableOf o
           = snd (updateStatus repo (Payment.id payment) CANCELED Js.VUndef t)).
Proof.
  intros Hreq Hfind o. split.
  - intros Hc. subst o. unfold reversePayment, ClickController.reversePayment.
    rewrite Hreq. cbn [bind await run perform]. rewrite Hfind. cbn [bind].
    unfold Js.not. rewrite Hc. reflexivity.
  - intros Hc response Hres.
    pose proof (reverse_run config buildClickAuthHeader requireInt repo net params_id t) as R.
    cbv zeta in R. rewrite Hreq, Hfind in R. unfold Js.not in R. rewrite Hc in R.
    cbn [negb] in R. destruct R as (x & tr & E & R).
    destruct (reversal_op config buildClickAuthHeader repo net
                (Payment.click_payment_id payment) t) as (x' & tr' & E' & Hw & _).
    rewrite E in E'. injection E' as <- <-.
    rewrite E in Hres. cbn in Hres. subst x. cbv zeta in R. subst o.
    unfold reversePayment. rewrite R. unfold Checks.traceOf, Checks.tableOf.
    cbn [fst snd perform]. split; [| reflexivity].
    unfold Checks.writes in *. cbn [filter isWrite]. rewrite filter_app, Hw. reflexivity.
Qed.

End Further.

(** ** The claims on a merchant's payment

    Payment 42 (50000.00, merchant transaction [abc]) of the fixture, its
    form-encoded callbacks signed with MD5, and the repository in memory. *)

(** C1 fails as stated: a duplicate COMPLETE whose lookup comes before the
    first delivery's write. Both deliveries read PENDING, both write PAID, and
    both are answered error 0; there is no -4. *)
Lemma duplicate_complete_both_answered_success :
  runPair MemRepo.repo Fixture.gatewayDown [T1; T2; T1; T2]
    (Fixture.clickComplete Fixture.completeOk)
    (Fixture.clickComplete Fixture.completeOk)
    (Fixture.table PENDING Js.VNull)
  = (Ret Fixture.success, Ret Fixture.success, Fixture.table PAID (Js.VStr "7"),
     [(T1, Fixture.lookup); (T2, Fixture.lookup);
      (T1, Fixture.writePaid); (T2, Fixture.writePaid)]).
Proof. vm_compute. reflexivity. Qed.

Lemma concurrent_completes_both_succeed_witness :
  (exists (t' : Table) (tr : list (Tid * Event)),
     runPair MemRepo.repo Fixture.gatewayDown [T2; T1; T1; T2]
       (Fixture.clickComplete Fixture.completeOk)
       (Fixture.clickComplete Fixture.completeOk)
       (Fixture.table PENDING Js.VNull)
     = (Ret Fixture.success, Ret Fixture.success, t', tr)
     /\ In (T1, Fixture.writePaid) (Checks.writesOf tr)
     /\ In (T2, Fixture.writePaid) (Checks.writesOf tr)
     /\ List.length (Checks.writesOf tr) = 2%nat)
  /\ runPair MemRepo.repo Fixture.gatewayDown [T1; T1; T2]
       (Fixture.clickComplete Fixture.completeOk)
       (Fixture.clickComplete Fixture.completeOk)
       (Fixture.table PENDING Js.VNull)
     = (Ret Fixture.success,
        Ret (ClickController.clickError (-4) "Payment already processed"),
        Fixture.table PAID (Js.VStr "7"),
        [(T1, Fixture.lookup); (T1, Fixture.writePaid); (T2, Fixture.lookup)]).
Proof.
  pose proof (concurrent_completes_both_succeed Fixture.config
                ClickAuth.buildClickMd5Signature MemRepo.repo Fixture.gatewayDown
                Fixture.completeOk Fixture.completeOk
                (Fixture.table PENDING Js.VNull) (Fixture.payment PENDING Js.VNull)) as W.
  cbv zeta in W.
  destruct W as [W1 W2].
  - evaluate.
  - evaluate.
  - reflexivity.
  - vm_compute. reflexivity.
  - reflexivity.
  - split.
    + apply W1. right. right. left. reflexivity.
    + apply (W2 (Fixture.payment PAID (Js.VStr "7"))).
      * vm_compute. reflexivity.
      * reflexivity.
      * reflexivity.
Defined.

(** C2 fails as stated: FAILED is not absorbing. A COMPLETE without provider
    error for a payment stored as FAILED passes the PAID guard, writes PAID
    and is answered success. *)
Lemma failed_payment_completed_to_paid :
  run MemRepo.repo Fixture.gatewayDown (Fixture.clickComplete Fixture.completeOk)
      (Fixture.table FAILED (Js.VStr "7"))
  = (inr Fixture.success, Fixture.table PAID (Js.VStr "7"),
     [Fixture.lookup; Fixture.writePaid]).
Proof. vm_compute. reflexivity. Qed.

Lemma paid_blocks_callbacks_witness :
  (Checks.untouched (Fixture.table PAID (Js.VStr "7"))
     (run MemRepo.repo Fixture.gatewayDown (Fixture.clickPrepare Fixture.prepareOk)
          (Fixture.table PAID (Js.VStr "7")))
   /\ Checks.untouched (Fixture.table PAID (Js.VStr "7"))
        (run MemRepo.repo Fixture.gatewayDown (Fixture.clickComplete Fixture.completeOk)
             (Fixture.table PAID (Js.VStr "7"))))
  /\ Checks.writes
       (Checks.traceOf
          (run MemRepo.repo Fixture.gatewayDown (Fixture.clickComplete Fixture.completeOk)
               (Fixture.table CANCELED (Js.VStr "7"))))
     = [Fixture.writePaid].
Proof.
  split.
  - apply (paid_blocks_callbacks Fixture.config ClickAuth.buildClickMd5Signature
             MemRepo.repo Fixture.gatewayDown Fixture.prepareOk Fixture.completeOk
             (Fixture.table PAID (Js.VStr "7")) (Fixture.payment PAID (Js.VStr "7"))).
    + vm_compute. reflexivity.
    + vm_compute. reflexivity.
    + reflexivity.
  - apply (paid_blocks_callbacks Fixture.config ClickAuth.buildClickMd5Signature
             MemRepo.repo Fixture.gatewayDown Fixture.prepareOk Fixture.completeOk
             (Fixture.table CANCELED (Js.VStr "7"))
             (Fixture.payment CANCELED (Js.VStr "7"))).
    + vm_compute. reflexivity.
    + vm_compute. reflexivity.
    + discriminate.
    + evaluate.
Defined.

(** C3 fails as stated: synchronization has no guard. The payment is PAID,
    the gateway reports [payment_status] 0, and the payment is written back
    to PENDING. *)
Lemma sync_reverts_paid_to_pending :
  Checks.tableOf
    (run MemRepo.repo (Fixture.gatewayReports 0)
       (Fixture.syncPaymentStatusFromClick (Js.VStr "42"))
       (Fixture.table PAID (Js.VStr "7")))
  = Fixture.table PENDING (Js.VNum (ClickController.lit 9001))
  /\ Checks.writes
       (Checks.traceOf
          (run MemRepo.repo (Fixture.gatewayReports 0)
             (Fixture.syncPaymentStatusFromClick (Js.VStr "42"))
             (Fixture.table PAID (Js.VStr "7"))))
     = [Repo_ (updatePaymentStatusById 42 PENDING (Js.VNum (ClickController.lit 9001)))].
Proof. split; vm_compute; reflexivity. Qed.

Lemma sync_writes_reported_status_witness :
  (Checks.writes
     (Checks.traceOf
        (run MemRepo.repo (Fixture.gatewayReports 1)
           (Fixture.syncPaymentStatusFromClick (Js.VStr "42"))
           (Fixture.table CANCELED (Js.VStr "7"))))
   = [Repo_ (updatePaymentStatusById 42 PAID (Js.VNum (ClickController.lit 9001)))]
   /\ Checks.tableOf
        (run MemRepo.repo (Fixture.gatewayReports 1)
           (Fixture.syncPaymentStatusFromClick (Js.VStr "42"))
           (Fixture.table CANCELED (Js.VStr "7")))
      = Fixture.table PAID (Js.VNum (ClickController.lit 9001)))
  /\ Checks.untouched (Fixture.table PAID (Js.VStr "7"))
       (run MemRepo.repo (Fixture.gatewaySays Fixture.errorAnswer)
          (Fixture.syncPaymentStatusFromClick (Js.VStr "42"))
          (Fixture.table PAID (Js.VStr "7"))).
Proof.
  split.
  - pose proof (sync_writes_reported_status Fixture.config Fixture.buildClickAuthHeader
                  Fixture.requireInt MemRepo.repo (Fixture.gatewayReports 1)
                  (Js.VStr "42") 42 (Fixture.table CANCELED (Js.VStr "7"))
                  (Fixture.payment CANCELED (Js.VStr "7"))
                  (PObject (Fixture.statusAnswer 1))) as W.
    cbv zeta in W.
    destruct W as [W _]; try (vm_compute; reflexivity).
    destruct (W (ClickController.lit 1) eq_refl) as (W1 & W2 & _).
    split; [exact W1 | exact W2].
  - pose proof (sync_writes_reported_status Fixture.config Fixture.buildClickAuthHeader
                  Fixture.requireInt MemRepo.repo (Fixture.gatewaySays Fixture.errorAnswer)
                  (Js.VStr "42") 42 (Fixture.table PAID (Js.VStr "7"))
                  (Fixture.payment PAID (Js.VStr "7"))
                  (PObject Fixture.errorAnswer)) as W.
    cbv zeta in W.
    destruct W as [_ W]; try (vm_compute; reflexivity).
    apply W. reflexivity.
Defined.

(** C4 fails as stated: [sign_string] is not among the fields whose presence
    is tested. A PREPARE without it, otherwise valid, is answered -1. *)
Lemma unsigned_prepare_answered_minus_1 :
  Checks.missing (Body.sign_string Fixture.prepareUnsigned)
  /\ Fixture.clickPrepare Fixture.prepareUnsigned
     = Ret (ClickController.clickError (-1) "Invalid signature").
Proof. split; [right; reflexivity | vm_compute; reflexivity]. Qed.

Lemma clickPrepare_missing_required_witness :
  Fixture.clickPrepare
    (Fixture.prepare (Js.VStr "100") Js.VNull (Js.VStr "700fd22a6414902da3f3660267556aed"))
  = Ret (ClickController.clickError (-8) "Missing required parameters")
  /\ Fixture.clickPrepare (Fixture.prepare (Js.VStr "100") (Js.VStr "50000") Js.VNull)
     = Ret (ClickController.clickError (-1) "Invalid signature").
Proof.
  split.
  - apply (clickPrepare_missing_required Fixture.config ClickAuth.buildClickMd5Signature).
    right. right. right. left. left. reflexivity.
  - apply (clickPrepare_missing_required Fixture.config ClickAuth.buildClickMd5Signature).
    + left. reflexivity.
    + vm_compute. reflexivity.
    + vm_compute. reflexivity.
    + vm_compute. reflexivity.
Defined.

(** C5 fails as stated: the service id is checked before the signature. A
    PREPARE with a forged [sign_string] and another service's id is answered
    -8, not -1. *)
Lemma forged_prepare_answered_minus_8 :
  Checks.tampered
    (ClickAuth.buildClickMd5Signature (Checks.prepareSign Fixture.config Fixture.prepareForged))
    Fixture.prepareForged
  /\ Fixture.clickPrepare Fixture.prepareForged
     = Ret (ClickController.clickError (-8) "Invalid service_id").
Proof.
  split; [| vm_compute; reflexivity].
  unfold Checks.tampered. vm_compute. discriminate.
Qed.

Lemma tampered_signature_rejected_witness :
  Fixture.clickPrepare
    (Fixture.prepare (Js.VStr "100") (Js.VStr "50000") (Js.VStr "deadbeef"))
  = Ret (ClickController.clickError (-1) "Invalid signature")
  /\ Fixture.clickComplete
       (Body.mk (Js.VStr "7") (Js.VStr "100") (Js.VStr "abc") (Js.VStr "42")
                (Js.VStr "50000") Fixture.signTime (Js.VStr "deadbeef")
                (Js.VStr "0") (Js.VStr "1"))
     = Ret (ClickController.clickError (-1) "Invalid signature").
Proof.
  split.
  - apply (tampered_signature_rejected Fixture.config ClickAuth.buildClickMd5Signature
             (Fixture.prepare (Js.VStr "100") (Js.VStr "50000") (Js.VStr "deadbeef"))).
    + vm_compute. reflexivity.
    + vm_compute. reflexivity.
    + vm_compute. reflexivity.
    + unfold Checks.tampered. vm_compute. discriminate.
  - apply (tampered_signature_rejected Fixture.config ClickAuth.buildClickMd5Signature
             (Body.mk (Js.VStr "7") (Js.VStr "100") (Js.VStr "abc") (Js.VStr "42")
                      (Js.VStr "50000") Fixture.signTime (Js.VStr "deadbeef")
                      (Js.VStr "0") (Js.VStr "1"))).
    + vm_compute. reflexivity.
    + vm_compute. reflexivity.
    + vm_compute. reflexivity.
    + unfold Checks.tampered. vm_compute. discriminate.
Defined.

Lemma clickComplete_provider_error_witness :
  run MemRepo.repo Fixture.gatewayDown
      (Fixture.clickComplete (Fixture.complete (Js.VStr "-9")))
      (Fixture.table PENDING Js.VNull)
  = (inr (mkRes 200
            (ClickJson (Reply.mk (Js.Fin (-9) 0) "Failed" (Js.VStr "7") (Js.VStr "abc")
                                 None (Some 42)))),
     Fixture.table CANCELED (Js.VStr "7"),
     [Fixture.lookup; Repo_ (updatePaymentStatusById 42 CANCELED (Js.VStr "7"))]).
Proof.
  apply (clickComplete_provider_error Fixture.config ClickAuth.buildClickMd5Signature
           MemRepo.repo Fixture.gatewayDown (Fixture.complete (Js.VStr "-9"))
           (Fixture.table PENDING Js.VNull) (Fixture.payment PENDING Js.VNull)
           (Js.Fin (-9) 0)).
  - vm_compute. reflexivity.
  - vm_compute. reflexivity.
  - vm_compute. reflexivity.
  - vm_compute. reflexivity.
  - vm_compute. reflexivity.
  - vm_compute. reflexivity.
  - discriminate.
  - vm_compute. reflexivity.
  - split; [discriminate | vm_compute; reflexivity].
Defined.

Lemma clickComplete_replay_witness :
  run MemRepo.repo Fixture.gatewayDown (Fixture.clickComplete Fixture.completeOk)
      (Fixture.table PAID (Js.VStr "7"))
  = (inr (ClickController.clickError (-4) "Payment already processed"),
     Fixture.table PAID (Js.VStr "7"),
     [Fixture.lookup]).
Proof.
  apply (clickComplete_replay Fixture.config ClickAuth.buildClickMd5Signature
           MemRepo.repo Fixture.gatewayDown Fixture.completeOk
           (Fixture.table PENDING Js.VNull) (Fixture.table PAID (Js.VStr "7"))
           [Fixture.lookup; Fixture.writePaid]
           (Reply.mk (ClickController.lit 0) "Success" (Js.VStr "7") (Js.VStr "abc")
                     None (Some 42))
           (Fixture.payment PAID (Js.VStr "7"))).
  - vm_compute. reflexivity.
  - reflexivity.
  - vm_compute. reflexivity.
  - reflexivity.
  - reflexivity.
Defined.



(** C9 fails as stated: the status query of a synchronization is sent
    without an abort signal, so nothing in the code bounds the wait. *)
Lemma sync_query_has_no_timeout :
  Checks.traceOf
    (run MemRepo.repo (Fixture.gatewayReports 1)
       (Fixture.syncPaymentStatusFromClick (Js.VStr "42"))
       (Fixture.table PENDING Js.VNull))
  = [Repo_ (getPaymentById 42);
     Http "https://api.click.uz/v2/merchant/payment/status_by_mti/100/abc/2024-01-15"
          (Init.mk "GET" [("Accept", "application/json"); ("Auth", "77:auth")] None None);
     Repo_ (updatePaymentStatusById 42 PAID (Js.VNum (ClickController.lit 9001)))].
Proof. vm_compute. reflexivity. Qed.

Lemma gateway_failure_leaves_payment_witness :
  (Checks.noTimeout
     (run MemRepo.repo Fixture.gatewayDown
        (Fixture.syncPaymentStatusFromClick (Js.VStr "42"))
        (Fixture.table PAID (Js.VStr "7")))
   /\ Checks.noTimeout
        (run MemRepo.repo Fixture.gatewayDown
           (Fixture.reversePayment (Js.VStr "42"))
           (Fixture.table PAID (Js.VStr "7"))))
  /\ (Checks.untouched (Fixture.table PAID (Js.VStr "7"))
        (run MemRepo.repo Fixture.gatewayDown
           (Fixture.syncPaymentStatusFromClick (Js.VStr "42"))
           (Fixture.table PAID (Js.VStr "7")))
      /\ Checks.failedUpward
           (run MemRepo.repo Fixture.gatewayDown
              (Fixture.syncPaymentStatusFromClick (Js.VStr "42"))
              (Fixture.table PAID (Js.VStr "7"))))
  /\ (Checks.untouched (Fixture.table PAID (Js.VStr "7"))
        (run MemRepo.repo Fixture.gatewayDown
           (Fixture.reversePayment (Js.VStr "42"))
           (Fixture.table PAID (Js.VStr "7")))
      /\ Checks.failedUpward
           (run MemRepo.repo Fixture.gatewayDown
              (Fixture.reversePayment (Js.VStr "42"))
              (Fixture.table PAID (Js.VStr "7")))).
Proof.
  pose proof (gateway_failure_leaves_payment Fixture.config Fixture.buildClickAuthHeader
                Fixture.requireInt MemRepo.repo Fixture.gatewayDown (Js.VStr "42")
                (Fixture.table PAID (Js.VStr "7"))) as W.
  cbv zeta in W. destruct W as [W0 W].
  destruct W as [[Us Fs] [Ur Fr]]; [intros u i; exact I |].
  split; [exact W0 |]. split.
  - split; [exact Us |]. apply Fs. vm_compute. discriminate.
  - split; [exact Ur |]. apply Fr. vm_compute. discriminate.
Defined.

(** C10 fails as stated: the string ["0"] is truthy. A form-encoded PREPARE
    with [amount=0] passes the presence check and, for a payment of another
    amount, reaches the amount comparison and is answered -2. *)
Lemma string_zero_amount_reaches_amount_check :
  Js.Number (Body.amount Fixture.prepareZero) = Js.Fin 0 0
  /\ run MemRepo.repo Fixture.gatewayDown (Fixture.clickPrepare Fixture.prepareZero)
         (Fixture.table PENDING Js.VNull)
     = (inr (ClickController.clickError (-2) "Invalid amount"),
        Fixture.table PENDING Js.VNull,
        [Fixture.lookup]).
Proof. split; vm_compute; reflexivity. Qed.

Lemma clickPrepare_falsy_amount_witness :
  Fixture.clickPrepare
    (Fixture.prepare (Js.VStr "100") (Js.VNum (ClickController.lit 0))
                     (Js.VStr "cc758100a81a21ba3975f5342fd3873a"))
  = Ret (ClickController.clickError (-8) "Missing required parameters").
Proof.
  apply (clickPrepare_falsy_amount Fixture.config ClickAuth.buildClickMd5Signature).
  reflexivity.
Defined.

(** ** The further outcomes on the same payment *)

Lemma unknown_payment_not_found_witness :
  run MemRepo.repo Fixture.gatewayDown (Fixture.clickPrepare Fixture.prepareUnknown)
      (Fixture.table PENDING Js.VNull)
  = (inr (ClickController.clickError (-5) "Payment not found"),
     Fixture.table PENDING Js.VNull,
     [Repo_ (getPaymentByMerchantTransId (Js.VStr "nope"))])
  /\ run MemRepo.repo Fixture.gatewayDown (Fixture.clickComplete Fixture.completeUnknown)
         (Fixture.table PENDING Js.VNull)
     = (inr (ClickController.clickError (-5) "Payment not found"),
        Fixture.table PENDING Js.VNull,
        [Repo_ (getPaymentByMerchantTransId (Js.VStr "nope"))]).
Proof.
  split.
  - apply (unknown_payment_not_found Fixture.config ClickAuth.buildClickMd5Signature
             MemRepo.repo Fixture.gatewayDown Fixture.prepareUnknown
             (Fixture.table PENDING Js.VNull)); vm_compute; reflexivity.
  - apply (unknown_payment_not_found Fixture.config ClickAuth.buildClickMd5Signature
             MemRepo.repo Fixture.gatewayDown Fixture.completeUnknown
             (Fixture.table PENDING Js.VNull)); vm_compute; reflexivity.
Defined.

Lemma clickComplete_prepare_id_mismatch_witness :
  run MemRepo.repo Fixture.gatewayDown (Fixture.clickComplete Fixture.completeOtherId)
      (Fixture.table PENDING Js.VNull)
  = (inr (ClickController.clickError (-5) "Payment not found"),
     Fixture.table PENDING Js.VNull, [Fixture.lookup]).
Proof.
  apply (clickComplete_prepare_id_mismatch Fixture.config ClickAuth.buildClickMd5Signature
           MemRepo.repo Fixture.gatewayDown Fixture.completeOtherId
           (Fixture.table PENDING Js.VNull) (Fixture.payment PENDING Js.VNull));
    vm_compute; reflexivity.
Defined.

Lemma clickComplete_amount_mismatch_witness :
  run MemRepo.repo Fixture.gatewayDown (Fixture.clickComplete Fixture.completeOtherAmount)
      (Fixture.table PENDING Js.VNull)
  = (inr (ClickController.clickError (-2) "Invalid amount"),
     Fixture.table PENDING Js.VNull, [Fixture.lookup]).
Proof.
  apply (clickComplete_amount_mismatch Fixture.config ClickAuth.buildClickMd5Signature
           MemRepo.repo Fixture.gatewayDown Fixture.completeOtherAmount
           (Fixture.table PENDING Js.VNull) (Fixture.payment PENDING Js.VNull));
    try (vm_compute; reflexivity).
  discriminate.
Defined.

Lemma clickComplete_success_witness :
  run MemRepo.repo Fixture.gatewayDown (Fixture.clickComplete Fixture.completeOk)
      (Fixture.table PENDING Js.VNull)
  = (inr Fixture.success, Fixture.table PAID (Js.VStr "7"),
     [Fixture.lookup; Fixture.writePaid]).
Proof.
  apply (clickComplete_success Fixture.config ClickAuth.buildClickMd5Signature
           MemRepo.repo Fixture.gatewayDown Fixture.completeOk
           (Fixture.table PENDING Js.VNull) (Fixture.payment PENDING Js.VNull)).
  - evaluate.
  - vm_compute. reflexivity.
  - discriminate.
Defined.

Lemma clickSingleEndpoint_dispatch_witness :
  Fixture.clickSingleEndpoint Fixture.prepareOk = Fixture.clickPrepare Fixture.prepareOk
  /\ Fixture.clickSingleEndpoint Fixture.completeOk = Fixture.clickComplete Fixture.completeOk
  /\ Fixture.clickSingleEndpoint
       (Body.mk (Js.VStr "7") (Js.VStr "100") (Js.VStr "abc") Js.VUndef (Js.VStr "50000")
                Fixture.signTime (Js.VStr "deadbeef") Js.VUndef (Js.VStr "2"))
     = Ret (ClickController.clickError (-3) "Invalid action").
Proof.
  split; [| split].
  - apply (clickSingleEndpoint_dispatch Fixture.config ClickAuth.buildClickMd5Signature).
    vm_compute. reflexivity.
  - apply (clickSingleEndpoint_dispatch Fixture.config ClickAuth.buildClickMd5Signature).
    vm_compute. reflexivity.
  - apply (clickSingleEndpoint_dispatch Fixture.config ClickAuth.buildClickMd5Signature);
      vm_compute; reflexivity.
Defined.

Lemma reversePayment_outcomes_witness :
  run MemRepo.repo Fixture.gatewayDown (Fixture.reversePayment (Js.VStr "42"))
      (Fixture.table PENDING Js.VNull)
  = (inr (mkRes 409
            (ErrorJson "MISSING_CLICK_PAYMENT_ID"
               "Cannot reverse without click_payment_id (sync status first)")),
     Fixture.table PENDING Js.VNull, [Repo_ (getPaymentById 42)])
  /\ (Checks.writes
        (Checks.traceOf
           (run MemRepo.repo (Fixture.gatewaySays []) (Fixture.reversePayment (Js.VStr "42"))
                (Fixture.table PAID (Js.VStr "7"))))
      = [Repo_ (updatePaymentStatusById 42 CANCELED Js.VUndef)]
      /\ Checks.tableOf
           (run MemRepo.repo (Fixture.gatewaySays []) (Fixture.reversePayment (Js.VStr "42"))
                (Fixture.table PAID (Js.VStr "7")))
         = Fixture.table CANCELED (Js.VStr "7")).
Proof.
  split.
  - apply (reversePayment_outcomes Fixture.config Fixture.buildClickAuthHeader
             Fixture.requireInt MemRepo.repo Fixture.gatewayDown (Js.VStr "42") 42
             (Fixture.table PENDING Js.VNull) (Fixture.payment PENDING Js.VNull));
      vm_compute; reflexivity.
  - apply (reversePayment_outcomes Fixture.config Fixture.buildClickAuthHeader
             Fixture.requireInt MemRepo.repo (Fixture.gatewaySays []) (Js.VStr "42") 42
             (Fixture.table PAID (Js.VStr "7")) (Fixture.payment PAID (Js.VStr "7"))
             ltac:(vm_compute; reflexivity) ltac:(vm_compute; reflexivity))
      with (response := PObject []); vm_compute; reflexivity.
Defined.

(** * Further properties *)

(** ** The further definitions on examples *)

(** [parseFloat] and [parseInt] read the longest numeric prefix. *)
Example prefixes_read :
  map (fun s => Js.toString (Js.VNum (JsMath.parseFloat (Js.VStr s))))
      ["50000"; "12.5abc"; "abc"; "-3"; "1e3"; " 7"; "0"; ".5"; "Infinity"; "0x10";
       "1e"; "-.5e-1x"; ""]
  = ["50000"; "12.5"; "NaN"; "-3"; "1000"; "7"; "0"; "0.5"; "Infinity"; "0";
     "1"; "-0.05"; "NaN"]
  /\ map (fun s => Js.toString (Js.VNum (JsMath.parseInt (Js.VStr s))))
         ["42abc"; "0x1f"; "abc"; "-7.9"; "1e3"; " 12"; ""]
     = ["42"; "31"; "NaN"; "-7"; "1"; "12"; "NaN"].
Proof. split; vm_compute; reflexivity. Qed.

(** [Math.round] sends a tie up. *)
Example ties_go_up :
  map (fun s => Js.toString (Js.VNum (JsMath.round (Js.Number (Js.VStr s)))))
      ["2.5"; "-2.5"; "2.4"; "-0.4"; "50000.00"; "0.5"; "-0.5"; "1e21"; "x"]
  = ["3"; "-2"; "2"; "0"; "50000"; "1"; "0"; "1e+21"; "NaN"].
Proof. vm_compute. reflexivity. Qed.

(** The pay URL of payment 42 and the body of an invoice request. *)
Example pay_url_of_payment :
  PayUrl.buildClickPayUrl Fixture.config Cases.pay Cases.siteOf
    (Js.VStr "50000.00") (Js.VStr "abc") Js.VUndef Js.VUndef
  = "https://my.click.uz/services/pay?service_id=100&merchant_id=55&amount=50000&transaction_param=abc&return_url=https%3A%2F%2Fshop.example%2Fback%3Fa%3D1+2"
  /\ Json.stringify [("service_id", Js.VNum (Js.Number (Js.VStr "100")));
                     ("amount", Js.VNum (Js.Number (Js.VStr "120.50")));
                     ("phone_number", Js.VStr "998901234567");
                     ("skipped", Js.VUndef);
                     ("merchant_trans_id", Js.VStr Cases.quoted)]
     = Cases.invoiceJson.
Proof. split; vm_compute; reflexivity. Qed.

(** The quick payment link: an amount creates the payment and redirects to
    its pay page; a word in its place creates nothing. *)
Example quick_pay_link :
  runCreating Cases.insert
    (ClickPayments.quickPay Fixture.config Cases.pay Cases.siteOf
       (Js.VStr "50000") Js.VUndef "u-1")
    (Fixture.table PENDING Js.VNull)
  = (Answered
       (RedirectTo 302
          "https://my.click.uz/services/pay?service_id=100&merchant_id=55&amount=50000&transaction_param=u-1&return_url=https%3A%2F%2Fshop.example%2Fback%3Fa%3D1+2"),
     (Fixture.table PENDING Js.VNull
      ++ [Payment.mk 43 1 (Js.VNum (Js.ofZ 50000)) "u-1" Js.VNull PENDING
                     (UtcDate 2024 0 16)])%list,
     [mkInsert (Js.VNum (ClickController.lit 1)) (Js.VNum (Js.ofZ 50000))
               "u-1"])
  /\ runCreating Cases.insert
       (ClickPayments.quickPay Fixture.config Cases.pay Cases.siteOf
          (Js.VStr "free") (Js.VStr "7") "u-2")
       (Fixture.table PENDING Js.VNull)
     = (Answered ClickPayments.invalidAmount, Fixture.table PENDING Js.VNull, []).
Proof. split; vm_compute; reflexivity. Qed.


(** ** What the callbacks and the synchronization may write *)

Section Writes.

Variable config : Config.t.
Variable buildClickMd5Signature : Sign.t -> string.
Variable buildClickAuthHeader : Js.Val -> Js.Val -> string.
Variable requireInt : Js.Val -> string -> Err + Z.
Variable repo : Repo.
Variable net : Net.

Let clickPrepare := ClickController.clickPrepare config buildClickMd5Signature.
Let clickComplete := ClickController.clickComplete config buildClickMd5Signature.
Let clickSingleEndpoint := ClickController.clickSingleEndpoint config buildClickMd5Signature.
Let syncPaymentStatusFromClick :=
  ClickController.syncPaymentStatusFromClick config buildClickAuthHeader requireInt.
Let clickReturnCallback := ClickController.clickReturnCallback config buildClickAuthHeader.
Let queryStatus := ClickService.getPaymentStatusByMerchantTransId config buildClickAuthHeader.
Let expectedComplete (body : Body.t) := buildClickMd5Signature (Checks.completeSign config body).

(** X7: a COMPLETE whose [sign_string] is not the expected digest is answered
    with an error code, never 0, before any awaited operation: nothing is
    read, nothing is written. The same request through the single endpoint
    leaves the table untouched as well. *)
Theorem forged_complete_changes_nothing (body : Body.t) (t : Table) :
  Checks.tampered (expectedComplete body) body ->
  (exists code note,
     code <> 0
     /\ clickComplete body = Ret (ClickController.clickError code note))
  /\ Checks.untouched t (run repo net (clickSingleEndpoint body) t).
Proof.
  intros Ht.
  assert (C : exists code note,
             code <> 0
             /\ clickComplete body = Ret (ClickController.clickError code note)).
  { destruct (clickComplete_shape config buildClickMd5Signature body)
      as [[C _] | [_ E]]; [| exact E].
    apply tampered_fails in Ht. unfold expectedComplete in Ht.
    rewrite Ht in C. now rewrite Bool.andb_false_r in C. }
  split; [exact C |].
  unfold clickSingleEndpoint, ClickController.clickSingleEndpoint.
  destruct (Js.eqb _ (ClickController.lit ClickController.CLICK_ACTION_PREPARE)).
  - apply clickPrepare_frame.
  - destruct (Js.eqb _ (ClickController.lit ClickController.CLICK_ACTION_COMPLETE)).
    + destruct C as (code & note & _ & E). fold clickComplete. rewrite E.
      split; reflexivity.
    + split; reflexivity.
Qed.

(** X8: whatever the request, a COMPLETE issues at most one status update,
    and only on the payment its [merchant_trans_id] finds, whose id is its
    [merchant_prepare_id] and which is not PAID; the status written is never
    PENDING and the gateway id written is the request's [click_trans_id]. *)
Theorem clickComplete_writes (body : Body.t) (t : Table) :
  let o := run repo net (clickComplete body) t in
  Checks.untouched t o
  \/ exists payment status,
       findByMerchantTransId repo (Body.merchant_trans_id body) t = Some payment
       /\ Js.eqb (ClickController.lit (Payment.id payment))
                 (Js.Number (Body.merchant_prepare_id body)) = true
       /\ Payment.status payment <> PAID
       /\ status <> PENDING
       /\ Checks.writes (Checks.traceOf o)
          = [Repo_ (updatePaymentStatusById (Payment.id payment) status
                      (Body.click_trans_id body))]
       /\ Checks.tableOf o
          = snd (updateStatus repo (Payment.id payment) status
                   (Body.click_trans_id body) t).
Proof.
  intros o. subst o.
  destruct (clickComplete_shape config buildClickMd5Signature body)
    as [[_ E] | [_ (code & note & _ & E)]]; fold clickComplete in E; rewrite E;
    [| left; split; reflexivity].
  cbn [run perform].
  destruct (findByMerchantTransId repo (Body.merchant_trans_id body) t) as [p |] eqn:Hp;
    [| left; split; reflexivity].
  unfold ClickController.neNum.
  destruct (Js.eqb (ClickController.lit (Payment.id p))
              (Js.Number (Body.merchant_prepare_id body))) eqn:Hid;
    cbn [negb]; [| left; split; reflexivity].
  destruct (Status_eqb (Payment.status p) PAID) eqn:Hst; [left; split; reflexivity |].
  assert (N : Payment.status p <> PAID) by (intros H; rewrite H in Hst; discriminate).
  destruct (Js.truthy (Body.error body)
            && negb (Js.eqb (Js.Number (Body.error body)) (ClickController.lit 0))).
  - right. exists p. eexists. cbn [run perform].
    destruct (updateStatus repo (Payment.id p) _ (Body.click_trans_id body) t)
      as [r t'] eqn:U.
    split; [reflexivity |]. split; [exact Hid |]. split; [exact N |].
    split; [| split; [reflexivity | cbn; now rewrite U]].
    destruct (Js.ltb0 (Js.Number (Body.error body))); discriminate.
  - destruct (Js.eqb (Js.Number (Payment.amount p)) (Js.Number (Body.amount body)));
      cbn [negb]; [| left; split; reflexivity].
    right. exists p, PAID. cbn [run perform].
    destruct (updateStatus repo (Payment.id p) PAID (Body.click_trans_id body) t)
      as [r t'] eqn:U.
    split; [reflexivity |]. split; [exact Hid |]. split; [exact N |].
    split; [discriminate |]. split; reflexivity.
Qed.

(** The status the gateway's report is mapped to is PAID or PENDING. *)
Lemma mapped_status (v : Js.Val) :
  ClickController.mapClickPaymentStatusToLocal v = PAID
  \/ ClickController.mapClickPaymentStatusToLocal v = PENDING.
Proof.
  destruct v as [| | b | n | s]; simpl; auto.
  destruct (Js.eqb n (ClickController.lit 1)); auto.
Qed.

(** X9: whatever the gateway answers, a synchronization issues at most one
    status update, on the payment with the requested id, and the status it
    writes is PAID or PENDING: it never records CANCELED or FAILED. *)
Theorem sync_writes (params_id : Js.Val) (t : Table) :
  let o := run repo net (syncPaymentStatusFromClick params_id) t in
  Checks.untouched t o
  \/ exists id payment status clickPaymentId,
       requireInt params_id "id" = inr id
       /\ findById repo id t = Some payment
       /\ (status = PAID \/ status = PENDING)
       /\ Checks.writes (Checks.traceOf o)
          = [Repo_ (updatePaymentStatusById (Payment.id payment) status clickPaymentId)]
       /\ Checks.tableOf o
          = snd (updateStatus repo (Payment.id payment) status clickPaymentId t).
Proof.
  intros o.
  pose proof (sync_run config buildClickAuthHeader requireInt repo net params_id t) as R.
  cbv zeta in R. fold syncPaymentStatusFromClick in R. fold o in R.
  destruct (requireInt params_id "id") as [e | id] eqn:Hreq;
    [left; rewrite R; split; reflexivity |].
  destruct (findById repo id t) as [payment |] eqn:Hfind;
    [| left; rewrite R; split; reflexivity].
  destruct R as (x & tr & E & R).
  destruct (queryStatus_op config buildClickAuthHeader repo net
              (Js.VStr (Payment.click_merchant_trans_id payment))
              (Payment.created_at payment) t) as (x' & tr' & E' & Hw & _).
  rewrite E in E'. injection E' as <- <-.
  destruct x as [e | response].
  - left. rewrite R. split; [reflexivity |]. exact Hw.
  - destruct (negb (Js.looseEqNull (ClickController.clickPaymentStatusOf response))).
    + right. exists id, payment. eexists. eexists.
      split; [reflexivity |]. split; [exact Hfind |].
      split; [apply mapped_status |]. rewrite R.
      unfold Checks.traceOf, Checks.tableOf. cbn [fst snd perform].
      split; [| reflexivity].
      unfold Checks.writes in *. cbn [filter isWrite]. rewrite filter_app, Hw. reflexivity.
    + left. rewrite R. split; [reflexivity |].
      unfold Checks.traceOf. cbn [snd].
      unfold Checks.writes in *. cbn [filter isWrite]. now rewrite filter_app, Hw.
Qed.

Lemma run_tryCatch {A : Type} (p : Prog A) (h : Err -> Prog A) :
  forall t,
    run repo net (tryCatch p h) t =
    match run repo net p t with
    | (inr a, t1, tr1) => (inr a, t1, tr1)
    | (inl e, t1, tr1) =>
        let '(x, t2, tr2) := run repo net (h e) t1 in (x, t2, (tr1 ++ tr2)%list)
    end.
Proof.
  induction p as [a | e | c k IH | u i k IH]; intros t; simpl.
  - reflexivity.
  - destruct (run repo net (h e) t) as [[x t2] tr2]. reflexivity.
  - destruct (perform repo c t) as [r t']. rewrite IH.
    destruct (run repo net (k r) t') as [[[e | a] t1] tr1]; [| reflexivity].
    destruct (run repo net (h e) t1) as [[x t2] tr2]. reflexivity.
  - rewrite IH.
    destruct (run repo net (k (net u i)) t) as [[[e | a] t1] tr1]; [| reflexivity].
    destruct (run repo net (h e) t1) as [[x t2] tr2]. reflexivity.
Qed.

Let received : Res := mkRes 200 (Text "Payment received. You can close this page.").

(** The return page, step by step, once it has found the payment: the
    gateway's answer, then the write if the answer carries a numeric
    [payment_status]; an error of the gateway call ends the [try] block and
    nothing else. *)
Lemma return_run (transaction_param : Js.Val) (t : Table) :
  let o := run repo net (clickReturnCallback transaction_param) t in
  let transactionParam :=
    if Js.truthy transaction_param
    then Js.VStr (Js.toString transaction_param) else Js.VNull in
  if Js.not transactionParam then o = (inr (mkRes 200 (Text "OK")), t, [])
  else
    match findByMerchantTransId repo transactionParam t with
    | None => o = (inr (mkRes 200 (Text "OK")), t,
                   [Repo_ (getPaymentByMerchantTransId transactionParam)])
    | Some payment =>
        exists x tr,
          run repo net
            (queryStatus (Js.VStr (Payment.click_merchant_trans_id payment))
                         (Payment.created_at payment)) t = (x, t, tr)
          /\ match x with
             | inl _ =>
                 o = (inr received, t,
                      Repo_ (getPaymentByMerchantTransId transactionParam)
                      :: tr)
             | inr response =>
                 if negb (Js.looseEqNull (ClickController.clickPaymentStatusOf response))
                 then
                   let c := updatePaymentStatusById (Payment.id payment)
                              (ClickController.mapClickPaymentStatusToLocal
                                 (ClickController.clickPaymentStatusOf response))
                              (ClickController.clickPaymentIdOf response) in
                   o = (inr received, snd (perform repo c t),
                        Repo_ (getPaymentByMerchantTransId transactionParam)
                        :: (tr ++ [Repo_ c])%list)
                 else
                   o = (inr received, t,
                        Repo_ (getPaymentByMerchantTransId transactionParam)
                        :: tr)
             end
    end.
Proof.
  intros o transactionParam. subst o.
  unfold clickReturnCallback, ClickController.clickReturnCallback.
  fold transactionParam.
  destruct (Js.not transactionParam); [reflexivity |].
  cbn [bind await run perform].
  destruct (findByMerchantTransId repo transactionParam t) as [payment |];
    [| reflexivity].
  cbn [bind]. fold queryStatus.
  destruct (queryStatus_op config buildClickAuthHeader repo net
              (Js.VStr (Payment.click_merchant_trans_id payment))
              (Payment.created_at payment) t) as (x & tr & E & _).
  fold queryStatus in E. exists x, tr. split; [exact E |].
  rewrite run_bind, run_tryCatch, run_bind, E.
  destruct x as [e | response]; [cbn [run]; rewrite !app_nil_r; reflexivity |].
  destruct (negb (Js.looseEqNull (ClickController.clickPaymentStatusOf response))).
  - cbn [bind await run perform fst snd]. cbv zeta.
    destruct (updateStatus repo _ _ _ t) as [r t']. cbn [run app].
    rewrite !app_nil_r. reflexivity.
  - cbn [run app]. rewrite !app_nil_r. reflexivity.
Qed.

(** X10: the return page always answers 200 with a text: it never throws,
    whatever the gateway does. Without a [transaction_param] it answers "OK"
    without a single awaited operation; and when the gateway fails it leaves
    the table untouched. *)
Theorem return_page_always_answers (transaction_param : Js.Val) (t : Table) :
  let o := run repo net (clickReturnCallback transaction_param) t in
  (exists text, Checks.resultOf o = inr (mkRes 200 (Text text)))
  /\ (Js.truthy transaction_param = false ->
      o = (inr (mkRes 200 (Text "OK")), t, []))
  /\ (Checks.gatewayFails net -> Checks.untouched t o).
Proof.
  intros o. pose proof (return_run transaction_param t) as R. cbv zeta in R.
  fold o in R. split; [| split].
  - destruct (Js.not _); [rewrite R; eexists; reflexivity |].
    destruct (findByMerchantTransId repo _ t) as [payment |];
      [| rewrite R; eexists; reflexivity].
    destruct R as (x & tr & _ & R). destruct x as [e | response].
    + rewrite R. eexists. reflexivity.
    + destruct (negb _); rewrite R; eexists; reflexivity.
  - intros H. rewrite H in R. exact R.
  - intros Hfail. unfold Checks.untouched, Checks.tableOf, Checks.traceOf.
    destruct (Js.not _); [rewrite R; split; reflexivity |].
    destruct (findByMerchantTransId repo _ t) as [payment |];
      [| rewrite R; split; reflexivity].
    destruct R as (x & tr & E & R).
    destruct (queryStatus_op config buildClickAuthHeader repo net
                (Js.VStr (Payment.click_merchant_trans_id payment))
                (Payment.created_at payment) t) as (x' & tr' & E' & Hw & _ & Hf & Hnc).
    fold queryStatus in E'. rewrite E in E'. injection E' as <- <-.
    destruct x as [e | response].
    + rewrite R. cbn [fst snd]. split; [reflexivity |].
      unfold Checks.writes in *. cbn [filter isWrite]. exact Hw.
    + exfalso. destruct (Checks.fetchInits tr) eqn:Ei.
      * destruct (Hnc eq_refl) as (e & He). discriminate.
      * destruct (Hf Hfail) as (e & He & _); [discriminate | discriminate].
Qed.

(** X11: the return page writes as the synchronization does, for whoever
    opens it. With a [transaction_param] that names a stored payment, and a
    gateway answer carrying a numeric [payment_status], it issues
    [updatePaymentStatusById(payment.id, status, {clickPaymentId})] with
    [status] PAID for 1 and PENDING for any other number, whatever status the
    payment has; no signature or other credential is read. *)
Theorem return_page_writes_reported_status
  (merchantTransId : string) (t : Table) (payment : Payment.t)
  (response : Payload) (n : Js.Num) :
  merchantTransId <> EmptyString ->
  findByMerchantTransId repo (Js.VStr merchantTransId) t = Some payment ->
  Checks.resultOf
    (run repo net
       (queryStatus (Js.VStr (Payment.click_merchant_trans_id payment))
                    (Payment.created_at payment)) t) = inr response ->
  ClickController.prop response "payment_status" = Js.VNum n ->
  let status := if Js.eqb n (ClickController.lit 1) then PAID else PENDING in
  let clickPaymentId := ClickController.clickPaymentIdOf response in
  let o := run repo net (clickReturnCallback (Js.VStr merchantTransId)) t in
  Checks.writes (Checks.traceOf o)
  = [Repo_ (updatePaymentStatusById (Payment.id payment) status clickPaymentId)]
  /\ Checks.tableOf o
     = snd (updateStatus repo (Payment.id payment) status clickPaymentId t)
  /\ Checks.resultOf o
     = inr (mkRes 200 (Text "Payment received. You can close this page.")).
Proof.
  intros Hne Hfind Hres Hn status clickPaymentId o.
  pose proof (return_run (Js.VStr merchantTransId) t) as R. cbv zeta in R.
  fold o in R.
  assert (T : Js.truthy (Js.VStr merchantTransId) = true).
  { simpl. apply Bool.negb_true_iff, String.eqb_neq. exact Hne. }
  rewrite T in R. cbn [Js.toString] in R. unfold Js.not in R. rewrite T in R.
  cbn [negb] in R. rewrite Hfind in R. destruct R as (x & tr & E & R).
  destruct (queryStatus_op config buildClickAuthHeader repo net
              (Js.VStr (Payment.click_merchant_trans_id payment))
              (Payment.created_at payment) t) as (x' & tr' & E' & Hw & _).
  fold queryStatus in E'. rewrite E in E'. injection E' as <- <-.
  rewrite E in Hres. cbn in Hres. subst x.
  rewrite (status_of_numeric_answer _ _ Hn) in R. cbn [Js.looseEqNull negb] in R.
  cbn [ClickController.mapClickPaymentStatusToLocal perform fst snd] in R.
  rewrite R. unfold Checks.traceOf, Checks.tableOf, Checks.resultOf.
  cbn [fst snd]. split; [| split; reflexivity].
  unfold Checks.writes in *. cbn [filter isWrite]. rewrite filter_app, Hw. reflexivity.
Qed.

End Writes.

(** ** The pay page URL *)

Section PayPage.

Variable config : Config.t.
Variable pay : PayConfig.t.
Variable siteOf : string -> string.

Let payParams := PayUrl.payParams config pay.
Let buildClickPayUrl := PayUrl.buildClickPayUrl config pay siteOf.

Lemma occurrences_app (c : ascii) (a b : string) :
  Facts.occurrences c (a ++ b) = (Facts.occurrences c a + Facts.occurrences c b)%nat.
Proof.
  induction a as [| x a IH]; simpl; [reflexivity |].
  destruct (Ascii.eqb x c); simpl; now rewrite IH.
Qed.

(** The form encoding of one byte holds none of the five delimiters. *)
Lemma formBytes_byte (a c : ascii) :
  Facts.delimiter c ->
  Facts.occurrences c (PayUrl.formBytes [Z.of_N (N_of_ascii a)]) = O.
Proof.
  intros [-> | [-> | [-> | [-> | ->]]]];
    destruct a as [[] [] [] [] [] [] [] []]; reflexivity.
Qed.

Lemma formBytes_cons (x : Z) (l : list Z) :
  PayUrl.formBytes (x :: l) = PayUrl.formBytes [x] ++ PayUrl.formBytes l.
Proof.
  cbn [PayUrl.formBytes]. destruct (PayUrl.plain x); [reflexivity |].
  destruct (x =? 32); reflexivity.
Qed.

Lemma formEncode_clean (s : string) (c : ascii) :
  Facts.delimiter c -> Facts.occurrences c (PayUrl.formEncode s) = O.
Proof.
  intros D. unfold PayUrl.formEncode, Js.codes.
  induction (list_ascii_of_string s) as [| a l IH]; [reflexivity |].
  cbn [map]. rewrite formBytes_cons, occurrences_app, IH, (formBytes_byte a c D).
  reflexivity.
Qed.

(** A query of [n] pairs has [n] equals signs and [n - 1] ampersands, and no
    other delimiter, whatever the names and values hold. *)
Lemma serialize_delimiters (ps : PayUrl.Params) :
  ps <> [] ->
  Facts.occurrences "=" (PayUrl.serialize ps) = List.length ps
  /\ S (Facts.occurrences "&" (PayUrl.serialize ps)) = List.length ps
  /\ Facts.occurrences "?" (PayUrl.serialize ps) = O
  /\ Facts.occurrences "#" (PayUrl.serialize ps) = O
  /\ Facts.occurrences "/" (PayUrl.serialize ps) = O.
Proof.
  assert (N : forall s : string, s ++ EmptyString = s).
  { induction s as [| a s IH]; simpl; [reflexivity | now rewrite IH]. }
  assert (E : forall n v r,
             PayUrl.serialize ((n, v) :: r)
             = PayUrl.formEncode n ++ "=" ++ PayUrl.formEncode v
               ++ match r with [] => EmptyString | _ => "&" ++ PayUrl.serialize r end).
  { intros n v [| q r]; cbn [PayUrl.serialize]; [now rewrite N | reflexivity]. }
  induction ps as [| [n v] r IH]; [congruence |]. intros _.
  rewrite E. rewrite !occurrences_app.
  rewrite !formEncode_clean by (unfold Facts.delimiter; auto).
  destruct r as [| q r].
  - cbn. repeat split; reflexivity.
  - destruct (IH ltac:(discriminate)) as (I1 & I2 & I3 & I4 & I5).
    rewrite !occurrences_app, I1, I3, I4, I5.
    cbn [Facts.occurrences Ascii.eqb Bool.eqb Nat.add List.length] in *.
    repeat split; try reflexivity; lia.
Qed.

(** X12: the query of the pay URL holds the four parameters [service_id],
    [merchant_id], [amount] (rounded to an integer) and [transaction_param]
    in this order, then [return_url] and [card_type] when the request or the
    configuration gives one, each once. No value can add, end or split a
    parameter: the query holds one [=] per parameter, one [&] between two,
    and no [?], [#] or [/], whatever the transaction parameter, the return
    URL and the card type contain. *)
Theorem pay_url_query (amount transactionParam returnUrl cardType : Js.Val) :
  let ps := payParams amount transactionParam returnUrl cardType in
  let back := JsMath.or returnUrl (PayConfig.returnUrl pay) in
  let card := JsMath.or cardType (PayConfig.cardType pay) in
  let q := PayUrl.serialize ps in
  ps = ([("service_id", Js.toString (Config.serviceId config));
         ("merchant_id", Js.toString (PayConfig.merchantId pay));
         ("amount", Js.toString (Js.VNum (JsMath.round (Js.Number amount))));
         ("transaction_param", Js.toString transactionParam)]
        ++ (if Js.truthy back then [("return_url", Js.toString back)] else [])
        ++ (if Js.truthy card then [("card_type", Js.toString card)] else []))%list
  /\ Facts.occurrences "=" q = List.length ps
  /\ S (Facts.occurrences "&" q) = List.length ps
  /\ Facts.occurrences "?" q = O
  /\ Facts.occurrences "#" q = O
  /\ Facts.occurrences "/" q = O
  /\ buildClickPayUrl amount transactionParam returnUrl cardType
     = siteOf (PayConfig.baseUrl pay) ++ "/services/pay?" ++ q.
Proof.
  intros ps back card q.
  assert (E : ps = ([("service_id", Js.toString (Config.serviceId config));
         ("merchant_id", Js.toString (PayConfig.merchantId pay));
         ("amount", Js.toString (Js.VNum (JsMath.round (Js.Number amount))));
         ("transaction_param", Js.toString transactionParam)]
        ++ (if Js.truthy back then [("return_url", Js.toString back)] else [])
        ++ (if Js.truthy card then [("card_type", Js.toString card)] else []))%list).
  { subst ps. unfold payParams, PayUrl.payParams. cbv zeta. fold back. fold card.
    destruct (Js.truthy back); destruct (Js.truthy card);
      cbn [PayUrl.set PayUrl.dropName String.eqb Ascii.eqb Bool.eqb andb app];
      reflexivity. }
  split; [exact E |].
  assert (NE : ps <> []) by (rewrite E; discriminate).
  destruct (serialize_delimiters ps NE) as (H1 & H2 & H3 & H4 & H5).
  split; [exact H1 |]. split; [exact H2 |]. split; [exact H3 |].
  split; [exact H4 |]. split; [exact H5 |]. reflexivity.
Qed.

End PayPage.

(** ** The handlers that create a payment *)

Section Creates.

Variable config : Config.t.
Variable pay : PayConfig.t.
Variable siteOf : string -> string.
Variable requireInt : Js.Val -> string -> Err + Z.
Variable requireNumber : Js.Val -> string -> Err + Js.Num.
Variable create : CreateSem.

Let buildClickPayUrl := PayUrl.buildClickPayUrl config pay siteOf.
Let quickPay := ClickPayments.quickPay config pay siteOf.
Let createPayment := ClickPayments.createPayment config pay siteOf requireInt requireNumber.

(** The pay URL of a stored payment. *)
Let payUrlOf (payment : Payment.t) : string :=
  buildClickPayUrl (Payment.amount payment)
    (Js.VStr (Payment.click_merchant_trans_id payment)) Js.VUndef Js.VUndef.

Lemma positive_guard (x : Js.Num) :
  Js.not (Js.VNum x) || JsMath.leb0 x = false <-> Facts.positive x.
Proof.
  unfold Js.not. destruct x as [| b | m e]; simpl.
  - split; [discriminate | tauto].
  - destruct b; split; congruence.
  - rewrite Bool.negb_involutive, Bool.orb_false_iff, Z.eqb_neq, Z.leb_gt. lia.
Qed.

(** X13: the quick payment link creates a payment exactly when
    [parseFloat(amount)] is a Number greater than zero. Then it asks for one
    row, with that amount, the drawn identifier, and the user
    [parseInt(user_id)], or 1 when [user_id] is absent or empty, and
    redirects (302) to the pay URL of the row the repository returned.
    Otherwise (no number, zero, a negative amount) it answers 400 and asks
    the repository for nothing. *)
Theorem quickPay_creates_positive_amounts
  (query_amount query_user_id : Js.Val) (uuid : string) (t : Table) :
  let amount := JsMath.parseFloat query_amount in
  let userId := if Js.truthy query_user_id then JsMath.parseInt query_user_id
                else ClickController.lit 1 in
  let o := runCreating create (quickPay query_amount query_user_id uuid) t in
  (Facts.positive amount ->
     snd o = [mkInsert (Js.VNum userId) (Js.VNum amount) uuid]
     /\ match create (Js.VNum userId) (Js.VNum amount) uuid t with
        | (Some payment, t') =>
            fst o = (Answered (RedirectTo 302 (payUrlOf payment)), t')
        | (None, t') => fst o = (InsertFailed, t')
        end)
  /\ (~ Facts.positive amount ->
      o = (Answered ClickPayments.invalidAmount, t, [])).
Proof.
  intros amount userId o. subst o. unfold quickPay, ClickPayments.quickPay.
  fold amount. fold userId. split; intros H.
  - apply positive_guard in H. rewrite H. cbn [runCreating].
    destruct (create (Js.VNum userId) (Js.VNum amount) uuid t) as [[payment |] t'];
      split; reflexivity.
  - destruct (Js.not (Js.VNum amount) || JsMath.leb0 amount) eqn:G; [reflexivity |].
    apply positive_guard in G. contradiction.
Qed.

(** X14: [createPayment] validates before it creates: an error of
    [requireInt(user_id)], or else of [requireNumber(amount)], is thrown
    with no row asked for and the table as it was. With both accepted it
    asks for exactly one row and answers 201 with the row the repository
    returned and the pay URL built from that row (its amount and its
    [click_merchant_trans_id], not the request's). *)
Theorem createPayment_validates_first
  (user_id amount : Js.Val) (uuid : string) (t : Table) :
  let o := runCreating create (createPayment user_id amount uuid) t in
  match requireInt user_id "user_id", requireNumber amount "amount" with
  | inl e, _ => o = (Threw e, t, [])
  | inr _, inl e => o = (Threw e, t, [])
  | inr userId, inr number =>
      let ins := mkInsert (Js.VNum (ClickController.lit userId)) (Js.VNum number) uuid in
      match create (Js.VNum (ClickController.lit userId)) (Js.VNum number) uuid t with
      | (Some payment, t') =>
          o = (Answered (JsonAnswer 201 (CreatedBody payment (payUrlOf payment))),
               t', [ins])
      | (None, t') => o = (InsertFailed, t', [ins])
      end
  end.
Proof.
  intros o. subst o. unfold createPayment, ClickPayments.createPayment.
  destruct (requireInt user_id "user_id") as [e | userId]; [reflexivity |].
  destruct (requireNumber amount "amount") as [e | number]; [reflexivity |].
  cbn [runCreating].
  destruct (create _ _ uuid t) as [[payment |] t']; reflexivity.
Qed.

End Creates.

(** ** What a success answer tells *)

Section Sound.

Variable config : Config.t.
Variable buildClickMd5Signature : Sign.t -> string.
Variable repo : Repo.
Variable net : Net.

Let clickPrepare := ClickController.clickPrepare config buildClickMd5Signature.
Let clickComplete := ClickController.clickComplete config buildClickMd5Signature.
Let expectedPrepare (body : Body.t) := buildClickMd5Signature (Checks.prepareSign config body).
Let expectedComplete (body : Body.t) := buildClickMd5Signature (Checks.completeSign config body).

Lemma passes_signed (expected : string) (body : Body.t) :
  Js.strictNeStr expected (Body.sign_string body) = false ->
  Checks.signedWith expected body.
Proof.
  unfold Checks.signedWith. destruct (Body.sign_string body) as [| | b | n | s];
    simpl; try discriminate.
  intros H. apply Bool.negb_false_iff, String.eqb_eq in H. now subst.
Qed.

(** An error answer carries a code other than zero. *)
Lemma clickError_nonzero (code : Z) (note : string) (reply : Reply.t) :
  code <> 0 ->
  sent (ClickController.clickError code note) = ClickJson reply ->
  Js.eqb (Reply.error reply) (ClickController.lit 0) = true -> False.
Proof.
  intros Hc [= <-]. unfold ClickController.lit, Js.eqb. cbn [Reply.error].
  rewrite Z.min_id, Z.sub_diag, !Z.mul_1_r. intros H. apply Z.eqb_eq in H. contradiction.
Qed.

Ltac rejected :=
  cbn [run fst]; intros [= <-] S Z; exfalso;
  eapply clickError_nonzero; [| exact S | exact Z]; lia.

(** X15: PREPARE answers error 0 only to a request that passed every check:
    its fields present, the configured service id, action 0, [sign_string]
    the expected digest, and a stored payment that is not PAID and has the
    request's amount; the answer then carries that payment's id as
    [merchant_prepare_id]. *)
Theorem prepare_success_only_if_checked
  (body : Body.t) (t : Table) (res : Res) (reply : Reply.t) :
  Checks.resultOf (run repo net (clickPrepare body) t) = inr res ->
  sent res = ClickJson reply ->
  Js.eqb (Reply.error reply) (ClickController.lit 0) = true ->
  Checks.prepareFields body = true
  /\ Checks.serviceIdMatches config body = true
  /\ Checks.actionIs 0 body = true
  /\ Checks.signedWith (expectedPrepare body) body
  /\ exists payment,
       findByMerchantTransId repo (Body.merchant_trans_id body) t = Some payment
       /\ Payment.status payment <> PAID
       /\ Js.eqb (Js.Number (Payment.amount payment)) (Js.Number (Body.amount body)) = true
       /\ reply = Reply.mk (ClickController.lit 0) "Success" (Body.click_trans_id body)
                    (Body.merchant_trans_id body) (Some (Payment.id payment)) None.
Proof.
  unfold clickPrepare, ClickController.clickPrepare, Checks.prepareFields,
    Checks.serviceIdMatches, Checks.actionIs, expectedPrepare, Checks.prepareSign,
    ClickController.neNum, Js.not, ClickController.CLICK_ACTION_PREPARE, Checks.resultOf.
  cbv zeta.
  destruct (Js.truthy (Body.click_trans_id body)); cbn [negb orb andb run fst];
    [| rejected].
  destruct (Js.truthy (Body.service_id body)); cbn [negb orb andb run fst];
    [| rejected].
  destruct (Js.truthy (Body.merchant_trans_id body)); cbn [negb orb andb run fst];
    [| rejected].
  destruct (Js.truthy (Body.amount body)); cbn [negb orb andb run fst];
    [| rejected].
  destruct (Js.looseEqNull (Body.action body)); cbn [negb orb andb run fst];
    [rejected |].
  destruct (Js.eqb (Js.Number (Body.service_id body)) (Js.Number (Config.serviceId config)));
    cbn [negb run fst];
    [| rejected].
  destruct (Js.eqb (Js.Number (Body.action body)) (ClickController.lit 0));
    cbn [negb run fst];
    [| rejected].
  destruct (Js.strictNeStr _ (Body.sign_string body)) eqn:Hsig;
    [rejected |].
  cbn [bind await run perform].
  destruct (findByMerchantTransId repo (Body.merchant_trans_id body) t) as [p |];
    [| rejected].
  cbn [bind].
  destruct (Status_eqb (Payment.status p) PAID) eqn:Hst;
    [rejected |].
  destruct (Js.eqb (Js.Number (Payment.amount p)) (Js.Number (Body.amount body))) eqn:Ham;
    cbn [negb run fst];
    [| rejected].
  intros [= <-] [= <-] _.
  split; [reflexivity |]. split; [reflexivity |]. split; [reflexivity |].
  split; [apply passes_signed; exact Hsig |].
  exists p. split; [reflexivity |].
  split; [intros H; rewrite H in Hst; discriminate |].
  split; [exact Ham | reflexivity].
Qed.

(** X16: COMPLETE answers error 0 only to a request it accepted: the four
    checks passed, the stored payment has the request's
    [merchant_prepare_id] as id and the request's amount, it was not PAID,
    and the request carried no provider error; and then the PAID write for
    that payment was issued. In particular a provider error is never
    answered as a success. *)
Theorem complete_success_only_if_checked
  (body : Body.t) (t : Table) (res : Res) (reply : Reply.t) :
  let o := run repo net (clickComplete body) t in
  Checks.resultOf o = inr res ->
  sent res = ClickJson reply ->
  Js.eqb (Reply.error reply) (ClickController.lit 0) = true ->
  exists payment,
    findByMerchantTransId repo (Body.merchant_trans_id body) t = Some payment
    /\ Checks.validComplete config (expectedComplete body) body payment
    /\ Payment.status payment <> PAID
    /\ Checks.writes (Checks.traceOf o)
       = [Repo_ (updatePaymentStatusById (Payment.id payment) PAID
                   (Body.click_trans_id body))]
    /\ reply = Reply.mk (ClickController.lit 0) "Success" (Body.click_trans_id body)
                 (Body.merchant_trans_id body) None (Some (Payment.id payment)).
Proof.
  intros o. subst o. unfold Checks.resultOf, Checks.traceOf.
  destruct (clickComplete_shape config buildClickMd5Signature body)
    as [[C E] | [_ (code & note & Hc & E)]]; fold clickComplete in E; rewrite E.
  2:{ cbn [run fst]. intros [= <-] S Z. exfalso.
      exact (clickError_nonzero code note reply Hc S Z). }
  apply Bool.andb_true_iff in C. destruct C as [C Hsig].
  apply Bool.andb_true_iff in C. destruct C as [C Ha].
  apply Bool.andb_true_iff in C. destruct C as [Hf Hs].
  apply Bool.negb_true_iff, passes_signed in Hsig.
  cbn [run perform].
  destruct (findByMerchantTransId repo (Body.merchant_trans_id body) t) as [p |];
    [| rejected].
  unfold ClickController.neNum.
  destruct (Js.eqb (ClickController.lit (Payment.id p))
              (Js.Number (Body.merchant_prepare_id body))) eqn:Hid;
    cbn [negb]; [| rejected].
  destruct (Status_eqb (Payment.status p) PAID) eqn:Hst; [rejected |].
  destruct (Js.truthy (Body.error body)
            && negb (Js.eqb (Js.Number (Body.error body)) (ClickController.lit 0)))
    eqn:Hpe.
  - cbn [run perform].
    destruct (updateStatus repo (Payment.id p) _ (Body.click_trans_id body) t) as [r t'].
    cbn [run fst]. intros [= <-] [= <-]. cbn [Reply.error]. intros Z.
    rewrite Z, Bool.andb_false_r in Hpe. discriminate.
  - destruct (Js.eqb (Js.Number (Payment.amount p)) (Js.Number (Body.amount body)))
      eqn:Ham; cbn [negb]; [| rejected].
    cbn [run perform].
    destruct (updateStatus repo (Payment.id p) PAID (Body.click_trans_id body) t)
      as [r t'].
    cbn [run fst snd]. intros [= <-] [= <-] _.
    exists p. split; [reflexivity |].
    split; [unfold Checks.validComplete, Checks.providerError; tauto |].
    split; [intros H; rewrite H in Hst; discriminate |].
    split; reflexivity.
Qed.

(** X17: a PREPARE that passed the four checks and found its payment is
    decided by the row alone: -4 for a PAID payment, whatever its amount;
    else -2 when the amounts differ as Numbers; else success, for a PENDING
    payment and for a CANCELED or FAILED one alike. One lookup is all it
    awaits. *)
Theorem clickPrepare_decision (body : Body.t) (t : Table) (payment : Payment.t) :
  Checks.prepareFields body = true ->
  Checks.serviceIdMatches config body = true ->
  Checks.actionIs 0 body = true ->
  Checks.signedWith (expectedPrepare body) body ->
  findByMerchantTransId repo (Body.merchant_trans_id body) t = Some payment ->
  run repo net (clickPrepare body) t
  = (inr (if Status_eqb (Payment.status payment) PAID
          then ClickController.clickError (-4) "Payment already processed"
          else if Js.eqb (Js.Number (Payment.amount payment))
                         (Js.Number (Body.amount body))
          then mkRes 200
                 (ClickJson (Reply.mk (ClickController.lit 0) "Success"
                               (Body.click_trans_id body) (Body.merchant_trans_id body)
                               (Some (Payment.id payment)) None))
          else ClickController.clickError (-2) "Invalid amount"),
     t, [Repo_ (getPaymentByMerchantTransId (Body.merchant_trans_id body))]).
Proof.
  intros Hf Hs Ha Hg Hp. unfold clickPrepare.
  rewrite (clickPrepare_checked config buildClickMd5Signature body Hf Hs Ha Hg).
  cbn [run perform]. rewrite Hp. unfold ClickController.neNum.
  destruct (Status_eqb (Payment.status payment) PAID); [reflexivity |].
  destruct (Js.eqb (Js.Number (Payment.amount payment)) (Js.Number (Body.amount body)));
    reflexivity.
Qed.

End Sound.

(** ** The gateway operations and the handlers that relay them *)

Section Relays.

Variable config : Config.t.
Variable pay : PayConfig.t.
Variable siteOf : string -> string.
Variable buildClickAuthHeader : Js.Val -> Js.Val -> string.
Variable requireInt : Js.Val -> string -> Err + Z.
Variable requireNumber : Js.Val -> string -> Err + Js.Num.
Variable requireNonEmptyString : Js.Val -> string -> Err + string.
Variable repo : Repo.
Variable net : Net.

Let clickApiRequest := ClickService.clickApiRequest config buildClickAuthHeader.
Let serviceId := ClickService.encodeURIComponent (Config.serviceId config).
Let authHeaderValue :=
  buildClickAuthHeader (Config.merchantUserId config) (Config.secretKey config).

(** One gateway request, whatever the method, the path and the body: one
    [fetch], and what it settles to. *)
Lemma clickApiRequest_answer (method path : string) (json : option string) (t : Table) :
  let url := Facts.apiBase config ++ ClickService.stripLeadingSlashes path in
  let init := Init.mk method (Facts.requestHeaders authHeaderValue json) json None in
  run repo net (clickApiRequest method path json) t
  = (Facts.answerOf (net url init), t, [Http url init]).
Proof.
  unfold clickApiRequest, ClickService.clickApiRequest, Facts.apiBase,
    Facts.requestHeaders, Facts.answerOf, authHeaderValue.
  destruct json as [j |]; cbn [bind fetch run app];
    match goal with |- context [net ?u ?i] => destruct (net u i) as [m | res] end;
    try reflexivity;
    cbn [bind]; destruct (Response.ok res); reflexivity.
Qed.







Let createInvoice :=
  ClickPayments.createInvoice config buildClickAuthHeader requireNumber
    requireNonEmptyString.
Let getInvoiceStatus :=
  ClickPayments.getInvoiceStatus config buildClickAuthHeader requireNonEmptyString.
Let getPayment := ClickPayments.getPayment requireInt.
Let redirectToClick := ClickPayments.redirectToClick config pay siteOf requireInt.

(** What a relaying handler makes of the gateway's answer. *)
Let relayed (x : Err + Payload) : Err + Answer :=
  match x with
  | inl e => inl e
  | inr response => inr (JsonAnswer 200 (ResponseBody response))
  end.

(** A handler that answers 200 with what a gateway operation returned. *)
Let relay (p : Prog Payload) : Prog Answer :=
  response <- p ;; Ret (JsonAnswer 200 (ResponseBody response)).

(** X19: the two invoice handlers relay and nothing else. An error of the
    validation of their arguments ([amount], then [phone_number], then
    [merchant_trans_id]; [invoiceId]) is thrown before any call. Otherwise
    [createInvoice] asks [clickApiRequest] for POST [/invoice/create] with
    the JSON body of [service_id] and [amount] as Numbers and [phone_number]
    and [merchant_trans_id] as strings, and [getInvoiceStatus] for GET
    [/invoice/status/] followed by the percent-encoded service id and
    invoice id. Exactly one request is then made, with that method, the
    Accept and Auth headers (and Content-Type with a body), that body and no
    abort signal; its payload is answered with 200, and a rejected or non-2xx
    request throws the gateway error: nothing is caught. They never call the
    repository. *)
Theorem invoice_handlers_relay
  (amount phone_number merchant_trans_id invoiceId : Js.Val) (t : Table) :
  let created := run repo net (createInvoice amount phone_number merchant_trans_id) t in
  let queried := run repo net (getInvoiceStatus invoiceId) t in
  (Facts.repoCalls (Checks.traceOf created) = [] /\ Checks.tableOf created = t
   /\ match requireNumber amount "amount",
            requireNonEmptyString phone_number "phone_number",
            requireNonEmptyString merchant_trans_id "merchant_trans_id" with
      | inl e, _, _ | inr _, inl e, _ | inr _, inr _, inl e =>
          created = (inl e, t, [])
      | inr number, inr phoneNumber, inr merchantTransId =>
          let json :=
            Json.stringify
              [("service_id", Js.VNum (Js.Number (Config.serviceId config)));
               ("amount", Js.VNum number);
               ("phone_number", Js.VStr phoneNumber);
               ("merchant_trans_id", Js.VStr merchantTransId)] in
          let init :=
            Init.mk "POST" (Facts.requestHeaders authHeaderValue (Some json))
                    (Some json) None in
          createInvoice amount phone_number merchant_trans_id
          = relay (clickApiRequest "POST" "/invoice/create" (Some json))
          /\ exists url,
               created = (relayed (Facts.answerOf (net url init)), t, [Http url init])
      end)
  /\ (Facts.repoCalls (Checks.traceOf queried) = [] /\ Checks.tableOf queried = t
      /\ match requireNonEmptyString invoiceId "invoiceId" with
         | inl e => queried = (inl e, t, [])
         | inr id =>
             let path :=
               "/invoice/status/"
               ++ ClickService.encodeURIComponent (Config.serviceId config) ++ "/"
               ++ ClickService.encodeURIComponent (Js.VStr id) in
             let init :=
               Init.mk "GET" (Facts.requestHeaders authHeaderValue None) None None in
             getInvoiceStatus invoiceId = relay (clickApiRequest "GET" path None)
             /\ exists url,
                  queried = (relayed (Facts.answerOf (net url init)), t, [Http url init])
         end).
Proof.
  intros created queried. subst created queried.
  unfold createInvoice, getInvoiceStatus, ClickPayments.createInvoice,
    ClickPayments.getInvoiceStatus, ClickInvoices.createInvoice,
    ClickInvoices.getInvoiceStatus.
  split.
  - destruct (requireNumber amount "amount") as [e | number];
      [repeat split; reflexivity |].
    destruct (requireNonEmptyString phone_number "phone_number") as [e | phoneNumber];
      [repeat split; reflexivity |].
    destruct (requireNonEmptyString merchant_trans_id "merchant_trans_id")
      as [e | merchantTransId]; [repeat split; reflexivity |].
    cbv zeta. rewrite run_bind. fold clickApiRequest.
    rewrite clickApiRequest_answer. cbv zeta. cbn [Js.toString Js.Number].
    match goal with |- context [net ?u ?i] => set (url := u); set (init := i) end.
    destruct (Facts.answerOf (net url init)) as [e | response] eqn:A;
      (split; [reflexivity |]; split; [reflexivity |]; split; [reflexivity |];
       exists url; fold init; rewrite A; reflexivity).
  - destruct (requireNonEmptyString invoiceId "invoiceId") as [e | id];
      [repeat split; reflexivity |].
    cbv zeta. rewrite run_bind. fold clickApiRequest.
    rewrite clickApiRequest_answer. cbv zeta.
    match goal with |- context [net ?u ?i] => set (url := u); set (init := i) end.
    destruct (Facts.answerOf (net url init)) as [e | response] eqn:A;
      (split; [reflexivity |]; split; [reflexivity |]; split; [reflexivity |];
       exists url; fold init; rewrite A; reflexivity).
Qed.

(** X20: the two handlers that show a payment only read. After
    [requireInt(id)], whose error they throw before any call, they make one
    lookup by id and nothing else: no write, no gateway request, the table
    as it was. An unknown id is answered 404 NOT_FOUND; a known one is
    answered with the row (200), or redirected (302) to the pay URL of the
    row, whatever its status, PAID included. *)
Theorem payment_pages_only_read (params_id : Js.Val) (t : Table) :
  match requireInt params_id "id" with
  | inl e =>
      run repo net (getPayment params_id) t = (inl e, t, [])
      /\ run repo net (redirectToClick params_id) t = (inl e, t, [])
  | inr id =>
      run repo net (getPayment params_id) t
      = (inr match findById repo id t with
             | Some payment => JsonAnswer 200 (PaymentBody payment)
             | None => ClickPayments.notFound
             end, t, [Repo_ (getPaymentById id)])
      /\ run repo net (redirectToClick params_id) t
         = (inr match findById repo id t with
                | Some payment =>
                    RedirectTo 302
                      (PayUrl.buildClickPayUrl config pay siteOf (Payment.amount payment)
                         (Js.VStr (Payment.click_merchant_trans_id payment))
                         Js.VUndef Js.VUndef)
                | None => ClickPayments.notFound
                end, t, [Repo_ (getPaymentById id)])
  end.
Proof.
  unfold getPayment, redirectToClick, ClickPayments.getPayment,
    ClickPayments.redirectToClick.
  destruct (requireInt params_id "id") as [e | id]; [split; reflexivity |].
  cbn [bind await run perform].
  destruct (findById repo id t) as [payment |]; split; reflexivity.
Qed.

End Relays.

(** ** The day of a payment *)

Lemma upFrom_In (n : nat) :
  forall a x, a <= x < a + Z.of_nat n -> In x (Facts.upFrom a n).
Proof.
  induction n as [| n IH]; intros a x H; [lia |].
  cbn [Facts.upFrom]. destruct (Z.eq_dec a x); [now left | right]. apply IH. lia.
Qed.

(** A property checked on every integer of a range holds of each. *)
Lemma checked_range (f : Z -> bool) (a : Z) (n : nat) :
  forallb f (Facts.upFrom a n) = true ->
  forall x, a <= x < a + Z.of_nat n -> f x = true.
Proof.
  intros H x Hx. rewrite forallb_forall in H. apply H, upFrom_In, Hx.
Qed.

Lemma year_string (y : Z) :
  1970 <= y <= 2199 ->
  Js.toString (Js.VNum (Js.ofZ y)) = Facts.fourDigits y
  /\ Facts.readNum (Facts.fourDigits y) = Some y.
Proof.
  intros H.
  pose proof (checked_range
                (fun y => String.eqb (Js.toString (Js.VNum (Js.ofZ y))) (Facts.fourDigits y)
                          && match Facts.readNum (Facts.fourDigits y) with
                             | Some n => n =? y
                             | None => false
                             end)
                1970 230 ltac:(vm_compute; reflexivity) y ltac:(lia)) as C.
  cbv beta in C. apply Bool.andb_true_iff in C. destruct C as [C1 C2].
  apply String.eqb_eq in C1. split; [exact C1 |].
  destruct (Facts.readNum (Facts.fourDigits y)) as [n |]; [| discriminate].
  apply Z.eqb_eq in C2. now subst.
Qed.

Lemma padded_string (n : Z) :
  1 <= n <= 31 ->
  ClickService.padStart2 (Js.toString (Js.VNum (Js.ofZ n))) = Facts.twoDigits n
  /\ Facts.readNum (Facts.twoDigits n) = Some n.
Proof.
  intros H.
  pose proof (checked_range
                (fun n => String.eqb (ClickService.padStart2 (Js.toString (Js.VNum (Js.ofZ n))))
                                     (Facts.twoDigits n)
                          && match Facts.readNum (Facts.twoDigits n) with
                             | Some k => k =? n
                             | None => false
                             end)
                1 31 ltac:(vm_compute; reflexivity) n ltac:(lia)) as C.
  cbv beta in C. apply Bool.andb_true_iff in C. destruct C as [C1 C2].
  apply String.eqb_eq in C1. split; [exact C1 |].
  destruct (Facts.readNum (Facts.twoDigits n)) as [k |]; [| discriminate].
  apply Z.eqb_eq in C2. now subst.
Qed.

(** X21: the day [toYYYYMMDD] hands to the status query is [yyyy-mm-dd]: ten
    characters, the month counted from 1 and both month and day padded to
    two digits, so that it reads back as the date's UTC year, month and day.
    An invalid date throws. (Years 1970 to 2199, checked one by one.) *)
Theorem day_reads_back (year month day : Z) :
  1970 <= year <= 2199 -> 0 <= month <= 11 -> 1 <= day <= 31 ->
  exists s,
    ClickService.toYYYYMMDD (UtcDate year month day) = inr s
    /\ String.length s = 10%nat
    /\ Facts.readDay s = Some (year, month + 1, day).
Proof.
  intros Hy Hm Hd.
  destruct (year_string year Hy) as [Y1 Y2].
  destruct (padded_string (month + 1) ltac:(lia)) as [M1 M2].
  destruct (padded_string day Hd) as [D1 D2].
  eexists. split; [reflexivity |]. rewrite Y1, M1, D1.
  split; [reflexivity |].
  unfold Facts.fourDigits, Facts.twoDigits in *.
  cbn [append Facts.readDay]. rewrite Y2, M2, D2. reflexivity.
Qed.

(** ** The further properties on the fixture *)

Lemma forged_complete_changes_nothing_witness :
  (exists code note,
     code <> 0
     /\ Fixture.clickComplete Cases.completeForged
        = Ret (ClickController.clickError code note))
  /\ Checks.untouched (Fixture.table PENDING Js.VNull)
       (run MemRepo.repo Fixture.gatewayDown
          (Fixture.clickSingleEndpoint Cases.completeForged)
          (Fixture.table PENDING Js.VNull)).
Proof.
  apply (forged_complete_changes_nothing Fixture.config ClickAuth.buildClickMd5Signature
           MemRepo.repo Fixture.gatewayDown Cases.completeForged
           (Fixture.table PENDING Js.VNull)).
  unfold Checks.tampered. vm_compute. discriminate.
Defined.

Lemma return_page_writes_reported_status_witness :
  Checks.writes
    (Checks.traceOf
       (run MemRepo.repo (Fixture.gatewayReports 0)
          (ClickController.clickReturnCallback Fixture.config
             Fixture.buildClickAuthHeader (Js.VStr "abc"))
          (Fixture.table PAID (Js.VStr "7"))))
  = [Repo_ (updatePaymentStatusById 42 PENDING (Js.VNum (ClickController.lit 9001)))]
  /\ Checks.tableOf
       (run MemRepo.repo (Fixture.gatewayReports 0)
          (ClickController.clickReturnCallback Fixture.config
             Fixture.buildClickAuthHeader (Js.VStr "abc"))
          (Fixture.table PAID (Js.VStr "7")))
     = Fixture.table PENDING (Js.VNum (ClickController.lit 9001))
  /\ Checks.resultOf
       (run MemRepo.repo (Fixture.gatewayReports 0)
          (ClickController.clickReturnCallback Fixture.config
             Fixture.buildClickAuthHeader (Js.VStr "abc"))
          (Fixture.table PAID (Js.VStr "7")))
     = inr (mkRes 200 (Text "Payment received. You can close this page.")).
Proof.
  apply (return_page_writes_reported_status Fixture.config Fixture.buildClickAuthHeader
           MemRepo.repo (Fixture.gatewayReports 0) "abc"
           (Fixture.table PAID (Js.VStr "7")) (Fixture.payment PAID (Js.VStr "7"))
           (PObject (Fixture.statusAnswer 0)) (ClickController.lit 0)).
  - discriminate.
  - vm_compute. reflexivity.
  - vm_compute. reflexivity.
  - reflexivity.
Defined.

Lemma prepare_success_only_if_checked_witness :
  Checks.prepareFields Fixture.prepareOk = true
  /\ Checks.serviceIdMatches Fixture.config Fixture.prepareOk = true
  /\ Checks.actionIs 0 Fixture.prepareOk = true
  /\ Checks.signedWith
       (ClickAuth.buildClickMd5Signature
          (Checks.prepareSign Fixture.config Fixture.prepareOk))
       Fixture.prepareOk
  /\ exists payment,
       findByMerchantTransId MemRepo.repo (Body.merchant_trans_id Fixture.prepareOk)
         (Fixture.table FAILED Js.VNull) = Some payment
       /\ Payment.status payment <> PAID
       /\ Js.eqb (Js.Number (Payment.amount payment))
                 (Js.Number (Body.amount Fixture.prepareOk)) = true
       /\ Reply.mk (ClickController.lit 0) "Success" (Js.VStr "7") (Js.VStr "abc")
                   (Some 42) None
          = Reply.mk (ClickController.lit 0) "Success"
                     (Body.click_trans_id Fixture.prepareOk)
                     (Body.merchant_trans_id Fixture.prepareOk)
                     (Some (Payment.id payment)) None.
Proof.
  apply (prepare_success_only_if_checked Fixture.config ClickAuth.buildClickMd5Signature
           MemRepo.repo Fixture.gatewayDown Fixture.prepareOk
           (Fixture.table FAILED Js.VNull)
           (mkRes 200
              (ClickJson (Reply.mk (ClickController.lit 0) "Success" (Js.VStr "7")
                            (Js.VStr "abc") (Some 42) None)))).
  - vm_compute. reflexivity.
  - reflexivity.
  - vm_compute. reflexivity.
Defined.

Lemma complete_success_only_if_checked_witness :
  exists payment,
    findByMerchantTransId MemRepo.repo (Body.merchant_trans_id Fixture.completeOk)
      (Fixture.table PENDING Js.VNull) = Some payment
    /\ Checks.validComplete Fixture.config
         (ClickAuth.buildClickMd5Signature
            (Checks.completeSign Fixture.config Fixture.completeOk))
         Fixture.completeOk payment
    /\ Payment.status payment <> PAID
    /\ Checks.writes
         (Checks.traceOf
            (run MemRepo.repo Fixture.gatewayDown
               (Fixture.clickComplete Fixture.completeOk)
               (Fixture.table PENDING Js.VNull)))
       = [Repo_ (updatePaymentStatusById (Payment.id payment) PAID
                   (Body.click_trans_id Fixture.completeOk))]
    /\ Reply.mk (ClickController.lit 0) "Success" (Js.VStr "7") (Js.VStr "abc")
                None (Some 42)
       = Reply.mk (ClickController.lit 0) "Success"
                  (Body.click_trans_id Fixture.completeOk)
                  (Body.merchant_trans_id Fixture.completeOk)
                  None (Some (Payment.id payment)).
Proof.
  apply (complete_success_only_if_checked Fixture.config ClickAuth.buildClickMd5Signature
           MemRepo.repo Fixture.gatewayDown Fixture.completeOk
           (Fixture.table PENDING Js.VNull) Fixture.success).
  - vm_compute. reflexivity.
  - reflexivity.
  - vm_compute. reflexivity.
Defined.

Lemma clickPrepare_decision_witness :
  run MemRepo.repo Fixture.gatewayDown (Fixture.clickPrepare Fixture.prepareOk)
      (Fixture.table PAID (Js.VStr "7"))
  = (inr (ClickController.clickError (-4) "Payment already processed"),
     Fixture.table PAID (Js.VStr "7"), [Fixture.lookup]).
Proof.
  apply (clickPrepare_decision Fixture.config ClickAuth.buildClickMd5Signature
           MemRepo.repo Fixture.gatewayDown Fixture.prepareOk
           (Fixture.table PAID (Js.VStr "7")) (Fixture.payment PAID (Js.VStr "7"))).
  - vm_compute. reflexivity.
  - vm_compute. reflexivity.
  - vm_compute. reflexivity.
  - vm_compute. reflexivity.
  - vm_compute. reflexivity.
Defined.

Lemma day_reads_back_witness :
  exists s,
    ClickService.toYYYYMMDD (UtcDate 2024 0 15) = inr s
    /\ String.length s = 10%nat
    /\ Facts.readDay s = Some (2024, 1, 15).
Proof.
  apply (day_reads_back 2024 0 15); lia.
Defined.

(** ** What every callback is answered *)

Section Answers.

Variable config : Config.t.
Variable buildClickMd5Signature : Sign.t -> string.
Variable repo : Repo.
Variable net : Net.

Let clickPrepare := ClickController.clickPrepare config buildClickMd5Signature.
Let clickComplete := ClickController.clickComplete config buildClickMd5Signature.
Let clickSingleEndpoint := ClickController.clickSingleEndpoint config buildClickMd5Signature.

Ltac answered :=
  unfold Facts.clickAnswered, Checks.resultOf, Checks.traceOf; cbn [run fst snd];
  split; [eexists; reflexivity | split; [reflexivity | cbn [List.length Checks.fetchInits]; lia]].

Lemma clickPrepare_answers (body : Body.t) (t : Table) :
  Facts.clickAnswered (run repo net (clickPrepare body) t).
Proof.
  unfold clickPrepare, ClickController.clickPrepare. cbv zeta.
  destruct (Js.not (Body.click_trans_id body) || _ || _ || _ || _); [answered |].
  destruct (ClickController.neNum (Js.Number (Body.service_id body)) _); [answered |].
  destruct (ClickController.neNum (Js.Number (Body.action body)) _); [answered |].
  destruct (Js.strictNeStr _ (Body.sign_string body)); [answered |].
  cbn [bind await run perform].
  destruct (findByMerchantTransId repo (Body.merchant_trans_id body) t) as [p |];
    [| answered].
  cbn [bind]. destruct (Status_eqb (Payment.status p) PAID); [answered |].
  destruct (ClickController.neNum (Js.Number (Payment.amount p)) _); answered.
Qed.

Lemma clickComplete_answers (body : Body.t) (t : Table) :
  Facts.clickAnswered (run repo net (clickComplete body) t).
Proof.
  destruct (clickComplete_shape config buildClickMd5Signature body)
    as [[_ E] | [_ (code & note & _ & E)]]; fold clickComplete in E; rewrite E;
    [| answered].
  cbn [run perform].
  destruct (findByMerchantTransId repo (Body.merchant_trans_id body) t) as [p |];
    [| answered].
  unfold ClickController.neNum.
  destruct (Js.eqb (ClickController.lit (Payment.id p))
              (Js.Number (Body.merchant_prepare_id body)));
    cbn [negb]; [| answered].
  destruct (Status_eqb (Payment.status p) PAID); [answered |].
  destruct (Js.truthy (Body.error body)
            && negb (Js.eqb (Js.Number (Body.error body)) (ClickController.lit 0))).
  - cbn [run perform].
    destruct (updateStatus repo (Payment.id p) _ (Body.click_trans_id body) t) as [r t'].
    answered.
  - destruct (Js.eqb (Js.Number (Payment.amount p)) (Js.Number (Body.amount body)));
      cbn [negb]; [| answered].
    cbn [run perform].
    destruct (updateStatus repo (Payment.id p) PAID (Body.click_trans_id body) t)
      as [r t'].
    answered.
Qed.

(** X22: for every body whose fields are scalars (absent, null, a boolean,
    a number or a string: every form-encoded body, and a JSON body without
    nested objects or arrays), the three callback handlers answer with HTTP
    200 and a Click JSON body (the outcome is in its [error] field), once the
    signature helper and the repository have returned: no branch of theirs
    throws, none calls the gateway, and they await at most two repository
    operations, the lookup and one write. *)
Theorem callbacks_always_answer (body : Body.t) (t : Table) :
  Facts.clickAnswered (run repo net (clickPrepare body) t)
  /\ Facts.clickAnswered (run repo net (clickComplete body) t)
  /\ Facts.clickAnswered (run repo net (clickSingleEndpoint body) t).
Proof.
  split; [apply clickPrepare_answers |]. split; [apply clickComplete_answers |].
  unfold clickSingleEndpoint, ClickController.clickSingleEndpoint.
  destruct (Js.eqb _ _); [apply clickPrepare_answers |].
  destruct (Js.eqb _ _); [apply clickComplete_answers | answered].
Qed.

End Answers.
